(** * Identity gateway: token verification, authorization guard and
      admin orchestration

    A shallow embedding of [backend/app/auth.py], [backend/app/config.py],
    [backend/app/keycloak_admin.py] and the user-creation endpoint of
    [backend/app/routes/users.py], together with the properties of the
    gateway that the specification states about them.

    Python values that come out of [json.loads] / [response.json()] are
    modelled by the type [json]; Python exceptions by the type [exn]; code
    that talks to the identity authority by a state-and-exception monad
    over an arbitrary authority. *)

From Stdlib Require Import ZArith List String Ascii Bool Lia.
From Stdlib Require Import FunInd Recdef.
Import ListNotations.

Local Open Scope list_scope.
Local Open Scope string_scope.

(* ================================================================== *)
(** * Python strings *)
(* ================================================================== *)

Module PyStr.

(** [strip_prefix p s] is [Some r] exactly when [s = p ++ r]. *)
Fixpoint strip_prefix (p s : string) : option string :=
  match p, s with
  | EmptyString, _ => Some s
  | String a p', String b s' =>
      if Ascii.eqb a b then strip_prefix p' s' else None
  | String _ _, EmptyString => None
  end.

(** [s.startswith(p)] *)
Definition startswith (s p : string) : bool :=
  match strip_prefix p s with Some _ => true | None => false end.

(** [p in s] for two strings: [p] occurs in [s] as a substring. *)
Fixpoint contains (p s : string) : bool :=
  startswith s p ||
  match s with
  | EmptyString => false
  | String _ s' => contains p s'
  end.

(** The declarative reading of "the substring [p] occurs in [s]". *)
Definition occurs (p s : string) : Prop :=
  exists a b, s = a ++ p ++ b.

(** [s.replace(old, new)] for a non-empty [old]: CPython scans from the
    left; at each position where [old] starts it emits [new] and resumes
    after the occurrence, otherwise it copies one character. *)
Function replace_ne (old new s : string) {measure String.length s} : string :=
  match s with
  | EmptyString => EmptyString
  | String c s' =>
      match old with
      | EmptyString => s
      | String _ _ =>
          match strip_prefix old s with
          | Some rest => new ++ replace_ne old new rest
          | None => String c (replace_ne old new s')
          end
      end
  end.
Proof.
  - intros old new s c s' -> o old' -> rest E.
    assert (L : forall p t r, strip_prefix p t = Some r ->
              (String.length r + String.length p = String.length t)%nat).
    { induction p as [|a p IH]; intros [|b t] r; simpl; intros F;
        try discriminate; try (injection F as <-; simpl; lia).
      destruct (Ascii.eqb a b); [|discriminate].
      apply IH in F. lia. }
    apply L in E. simpl in *. lia.
  - intros; simpl; lia.
Defined.

(** [s.replace("", new)] puts [new] before every character and at the
    end. *)
Fixpoint intersperse (new s : string) : string :=
  match s with
  | EmptyString => new
  | String c s' => new ++ String c (intersperse new s')
  end.

(** [s.replace(old, new)] *)
Definition replace (s old new : string) : string :=
  match old with
  | EmptyString => intersperse new s
  | String _ _ => replace_ne old new s
  end.

End PyStr.

(* ================================================================== *)
(** * Python values and exceptions *)
(* ================================================================== *)

(** What [json.loads] returns.  Numbers are the integers; an object is the
    [dict] it decodes to, kept as an association list in which the first
    binding of a key is the dict's entry for it. *)
#[warnings="-register-all"] Inductive json : Type :=
| JNull
| JBool (b : bool)
| JNum (n : Z)
| JStr (s : string)
| JArr (items : list json)
| JObj (fields : list (string * json)).

Definition dict : Type := list (string * json).

(** Why python-jose rejected a token; each is the reason of a [JWTError]
    ([SignatureExpired] is its subclass [ExpiredSignatureError], the claim
    reasons are its subclass [JWTClaimsError]). *)
Inductive jose_reason : Type :=
| HeaderUndecodable      (* "Error decoding token headers." *)
| TokenUndecodable       (* jws._load failed *)
| NoAlgorithm            (* "No algorithm was specified in the JWS header." *)
| AlgNotAllowed          (* "The specified alg value is not allowed" *)
| SignatureFailed        (* "Signature verification failed." *)
| PayloadNotJson         (* "Invalid payload string: ..." *)
| PayloadNotObject       (* "Invalid payload string: must be a json object" *)
| IatNotInteger          (* "Issued At claim (iat) must be an integer." *)
| NbfNotInteger          (* "Not Before claim (nbf) must be an integer." *)
| NotYetValid            (* "The token is not yet valid (nbf)" *)
| ExpNotInteger          (* "Expiration Time claim (exp) must be an integer." *)
| SignatureExpired       (* "Signature has expired." *)
| AudienceMalformed      (* "Invalid claim format in token" *)
| InvalidAudience        (* "Invalid audience" *)
| SubjectNotString       (* "Subject must be a string." *)
| JtiNotString           (* "JWT ID must be a string." *)
| AtHashWithoutToken.    (* "No access_token provided to compare ..." *)

(** The exceptions the modelled code can raise.  [HTTPException] carries
    the text of its [detail] and, where the detail is an f-string ending in
    [{str(e)}], the exception [e] that was formatted into it. *)
#[warnings="-register-all"] Inductive exn : Type :=
| KeyError (key : string)
| IndexError
| TypeError
| AttributeError
| ValueError
| JSONDecodeError
| RuntimeError (msg : string)
| TransportError                         (* httpx: no response obtained *)
| HTTPStatusError (status_code : Z)      (* httpx: raise_for_status *)
| JWTError (why : jose_reason)           (* jose *)
| JWKError                               (* jose: key cannot be built *)
| HTTPException (status_code : Z) (detail : string) (cause : option exn).

(** A Python call either returns or raises. *)
Inductive outcome (A : Type) : Type :=
| Returned (a : A)
| Raised (e : exn).
Arguments Returned {A} a.
Arguments Raised {A} e.

Module Py.

Definition bind {A B} (x : outcome A) (f : A -> outcome B) : outcome B :=
  match x with
  | Returned a => f a
  | Raised e => Raised e
  end.

(** [d.get(k)] on a dict *)
Fixpoint dict_get (k : string) (d : dict) : option json :=
  match d with
  | [] => None
  | (k', v) :: d' => if String.eqb k k' then Some v else dict_get k d'
  end.

(** [k in d] on a dict *)
Definition dict_mem (k : string) (d : dict) : bool :=
  match dict_get k d with Some _ => true | None => false end.

(** [d.get(k, default)] on a dict *)
Definition dict_get_default (k : string) (default : json) (d : dict) : json :=
  match dict_get k d with Some v => v | None => default end.

(** [v.get(k, default)] on an arbitrary value: only a dict has [get]. *)
Definition get (v : json) (k : string) (default : json) : outcome json :=
  match v with
  | JObj d => Returned (dict_get_default k default d)
  | _ => Raised AttributeError
  end.

(** [v[k]] with a string subscript *)
Definition getitem (v : json) (k : string) : outcome json :=
  match v with
  | JObj d => match dict_get k d with
              | Some x => Returned x
              | None => Raised (KeyError k)
              end
  | _ => Raised TypeError
  end.

(** [v[0]] *)
Definition getitem0 (v : json) : outcome json :=
  match v with
  | JArr (x :: _) => Returned x
  | JArr [] => Raised IndexError
  | JStr (String c _) => Returned (JStr (String c EmptyString))
  | JStr EmptyString => Raised IndexError
  | JObj _ => Raised (KeyError "0")
  | _ => Raised TypeError
  end.

(** Truth value of [v] in [if v] / [if not v]. *)
Definition truthy (v : json) : bool :=
  match v with
  | JNull => false
  | JBool b => b
  | JNum n => negb (Z.eqb n 0)
  | JStr s => negb (String.eqb s "")
  | JArr l => match l with [] => false | _ => true end
  | JObj d => match d with [] => false | _ => true end
  end.

Fixpoint chars (s : string) : list json :=
  match s with
  | EmptyString => []
  | String c s' => JStr (String c EmptyString) :: chars s'
  end.

(** The keys of a dict, each once, in order of first insertion. *)
Fixpoint keys_from (seen : list string) (d : dict) : list string :=
  match d with
  | [] => []
  | (k, _) :: d' =>
      if existsb (String.eqb k) seen then keys_from seen d'
      else k :: keys_from (k :: seen) d'
  end.

Definition keys (d : dict) : list string := keys_from [] d.

(** [for x in v]: the values the loop variable takes. *)
Definition iter (v : json) : outcome (list json) :=
  match v with
  | JArr l => Returned l
  | JObj d => Returned (map JStr (keys d))
  | JStr s => Returned (chars s)
  | _ => Raised TypeError
  end.

(** [a == b].  A bool is the integer 0 or 1; two dicts are equal when they
    bind the same keys to equal values. *)
Fixpoint eq (a b : json) {struct a} : bool :=
  match a, b with
  | JNull, JNull => true
  | JBool x, JBool y => Bool.eqb x y
  | JBool x, JNum n => Z.eqb (if x then 1 else 0) n
  | JNum n, JBool y => Z.eqb n (if y then 1 else 0)
  | JNum n, JNum m => Z.eqb n m
  | JStr s, JStr t => String.eqb s t
  | JArr l, JArr r =>
      (fix go (l : list json) (r : list json) {struct l} : bool :=
         match l, r with
         | [], [] => true
         | x :: l', y :: r' => eq x y && go l' r'
         | _, _ => false
         end) l r
  | JObj d, JObj e =>
      (fix go (seen : list string) (d : dict) {struct d} : bool :=
         match d with
         | [] => true
         | (k, v) :: d' =>
             (if existsb (String.eqb k) seen then true
              else match dict_get k e with
                   | Some w => eq v w
                   | None => false
                   end)
             && go (k :: seen) d'
         end) [] d
      && forallb (fun kv => dict_mem (fst kv) d) e
  | _, _ => false
  end.

(** [s in v] for a string [s]: membership in a list, key of a dict,
    substring of a string. *)
Definition str_in (s : string) (v : json) : outcome bool :=
  match v with
  | JArr l => Returned (existsb (eq (JStr s)) l)
  | JObj d => Returned (dict_mem s d)
  | JStr t => Returned (PyStr.contains s t)
  | _ => Raised TypeError
  end.

End Py.

Declare Scope outcome_scope.
Delimit Scope outcome_scope with outcome.
Notation "x <- c1 ;; c2" := (Py.bind c1 (fun x => c2))
  (at level 61, c1 at next level, right associativity) : outcome_scope.
Notation "c1 ;; c2" := (Py.bind c1 (fun _ => c2))
  (at level 61, right associativity) : outcome_scope.

(* ================================================================== *)
(** * Authorization guard ([app/auth.py]) *)
(* ================================================================== *)

Module Guard.

(** [is_superadmin(token_payload)] *)
Definition is_superadmin (token_payload : dict) : outcome bool :=
  (roles <- Py.get (Py.dict_get_default "realm_access" (JObj []) token_payload)
                   "roles" (JArr []) ;;
   Py.str_in "realm-admin" roles)%outcome.

(** [require_superadmin(token_payload)] *)
Definition require_superadmin (token_payload : dict) : outcome unit :=
  (admin <- is_superadmin token_payload ;;
   if negb admin
   then Raised (HTTPException 403 "Requires realm-admin role" None)
   else Returned tt)%outcome.

(** The role list that sits under [realm_access.roles]; a missing
    [realm_access] or [roles] entry counts as the empty list. *)
Definition realm_roles (token_payload : dict) : option (list json) :=
  match Py.dict_get "realm_access" token_payload with
  | None => Some []
  | Some (JObj realm_access) =>
      match Py.dict_get "roles" realm_access with
      | None => Some []
      | Some (JArr roles) => Some roles
      | Some _ => None
      end
  | Some _ => None
  end.

End Guard.

(* ================================================================== *)
(** * Configuration ([app/config.py]) *)
(* ================================================================== *)

Record Settings : Type := {
  keycloak_url : string;
  keycloak_realm : string;
  keycloak_client_id : string;
  keycloak_client_secret : string;
  keycloak_admin_user : string;
  keycloak_admin_password : string;
  jwt_algorithm : string
}.

(** The class gives [jwt_algorithm] the default ["RS256"]; the other six
    fields have none and must come from the environment. *)
Definition load_settings (url realm client_id client_secret admin_user
                          admin_password : string)
                         (jwt_alg : option string) : Settings :=
  {| keycloak_url := url;
     keycloak_realm := realm;
     keycloak_client_id := client_id;
     keycloak_client_secret := client_secret;
     keycloak_admin_user := admin_user;
     keycloak_admin_password := admin_password;
     jwt_algorithm := match jwt_alg with Some a => a | None => "RS256" end |}.

(** The settings with another [keycloak_client_id]. *)
Definition with_client_id (client_id : string) (s : Settings) : Settings :=
  {| keycloak_url := keycloak_url s;
     keycloak_realm := keycloak_realm s;
     keycloak_client_id := client_id;
     keycloak_client_secret := keycloak_client_secret s;
     keycloak_admin_user := keycloak_admin_user s;
     keycloak_admin_password := keycloak_admin_password s;
     jwt_algorithm := jwt_algorithm s |}.

(* ================================================================== *)
(** * The wire to the identity authority *)
(* ================================================================== *)

(** The requests the modelled code sends, one constructor per endpoint and
    method; the comment gives the URL below [settings.keycloak_url]. *)
Inductive call : Type :=
| GetCerts                      (* GET  /realms/{realm}/protocol/openid-connect/certs *)
| PostAdminToken (data : dict)  (* POST /realms/master/protocol/openid-connect/token *)
| PostUsers (payload : json)    (* POST /admin/realms/{realm}/users *)
| GetUsers (params : dict)      (* GET  /admin/realms/{realm}/users *)
| PutResetPassword (user_id : json) (payload : json)
                                (* PUT  .../users/{user_id}/reset-password *)
| GetRole (role_name : string)  (* GET  /admin/realms/{realm}/roles/{role_name} *)
| PostRoleMappings (user_id : json) (roles : list json)
                                (* POST .../users/{user_id}/role-mappings/realm *)
| GetGroups                     (* GET  /admin/realms/{realm}/groups *)
| PutUserGroup (user_id group_id : json).
                                (* PUT  .../users/{user_id}/groups/{group_id} *)

(** A request: where it goes, the bearer credential of its
    [Authorization] header when it has one, and the call. *)
Record request : Type := {
  req_url : string;
  req_realm : string;
  req_bearer : option json;
  req_call : call
}.

(** What [httpx] hands back: a response with its status code and the value
    [response.json()] decodes its body to ([None] when the body is not
    JSON), or no response at all. *)
Record response : Type := {
  status_code : Z;
  body : option json
}.

Inductive reply : Type :=
| Reply (r : response)
| NoReply.

Definition is_admin_token_call (r : request) : bool :=
  match req_call r with PostAdminToken _ => true | _ => false end.

Definition is_certs_call (r : request) : bool :=
  match req_call r with GetCerts => true | _ => false end.


(** Requests that belong to the role step or the group step of user
    creation. *)
Definition is_role_or_group_call (r : request) : bool :=
  match req_call r with
  | GetRole _ | PostRoleMappings _ _ | GetGroups | PutUserGroup _ _ => true
  | _ => false
  end.

(* ================================================================== *)
(** * python-jose: tokens and decode options *)
(* ================================================================== *)

(** What [jws._load] extracts from a compact token: the header (a JSON
    object) and the payload, here already passed through [json.loads]
    ([None] when the payload is not JSON). *)
Record jws : Type := {
  jws_header : dict;
  jws_payload : option json
}.

(** Outcome of checking the signature of a token under a key and an
    algorithm: it matches, it does not, or no key can be built for the
    algorithm ([jwk.construct] raises). *)
Inductive sig_outcome : Type :=
| SigValid
| SigInvalid
| SigNoKey.

(** The [options] of [jwt.decode]. *)
Record jose_options : Type := {
  verify_signature : bool;
  verify_aud : bool;
  verify_iat : bool;
  verify_exp : bool;
  verify_nbf : bool;
  verify_iss : bool;
  verify_sub : bool;
  verify_jti : bool;
  verify_at_hash : bool;
  leeway : Z
}.

(** [jwt.decode]'s defaults (its [require_*] entries are all [False] and
    stay so). *)
Definition jose_defaults : jose_options :=
  {| verify_signature := true; verify_aud := true; verify_iat := true;
     verify_exp := true; verify_nbf := true; verify_iss := true;
     verify_sub := true; verify_jti := true; verify_at_hash := true;
     leeway := 0 |}.

(** [defaults.update({"verify_aud": b})] *)
Definition update_verify_aud (b : bool) (o : jose_options) : jose_options :=
  {| verify_signature := verify_signature o; verify_aud := b;
     verify_iat := verify_iat o; verify_exp := verify_exp o;
     verify_nbf := verify_nbf o; verify_iss := verify_iss o;
     verify_sub := verify_sub o; verify_jti := verify_jti o;
     verify_at_hash := verify_at_hash o; leeway := leeway o |}.

(** The request body of [POST /users] ([UserCreateRequest]). *)
Record UserCreateRequest : Type := {
  uc_username : string;
  uc_email : string;
  uc_firstName : string;
  uc_lastName : string;
  uc_password : string;
  uc_roles : option (list string);
  uc_groups : option (list string);
  uc_enabled : bool
}.

(* ================================================================== *)
(** * Calls that reach the authority: state and exceptions *)
(* ================================================================== *)

(** The state a request handler runs in: the authority's own state and the
    log of the requests sent to it so far, oldest first. *)
Record world (W : Type) : Type := {
  remote : W;
  sent : list request
}.
Arguments remote {W} w.
Arguments sent {W} w.
Arguments Build_world {W} remote sent.

Definition M (S A : Type) : Type := S -> outcome A * S.

Definition ret {S A} (a : A) : M S A := fun s => (Returned a, s).

Definition raise {S A} (e : exn) : M S A := fun s => (Raised e, s).

Definition lift {S A} (o : outcome A) : M S A := fun s => (o, s).

Definition bindM {S A B} (m : M S A) (k : A -> M S B) : M S B :=
  fun s =>
    match m s with
    | (Returned a, s') => k a s'
    | (Raised e, s') => (Raised e, s')
    end.

(** [try: m  except <class> as e: h e], where [caught] tells which
    exceptions are instances of the class. *)
Definition try_except {S A} (m : M S A) (caught : exn -> bool)
                      (h : exn -> M S A) : M S A :=
  fun s =>
    match m s with
    | (Returned a, s') => (Returned a, s')
    | (Raised e, s') => if caught e then h e s' else (Raised e, s')
    end.

Declare Scope gateway_scope.
Delimit Scope gateway_scope with gw.
Notation "x <- c1 ;; c2" := (bindM c1 (fun x => c2))
  (at level 61, c1 at next level, right associativity) : gateway_scope.
Notation "c1 ;; c2" := (bindM c1 (fun _ => c2))
  (at level 61, right associativity) : gateway_scope.

(** [except JWTError]: [JWTError] and its subclasses. *)
Definition is_JWTError (e : exn) : bool :=
  match e with JWTError _ => true | _ => false end.

(** [except Exception]: every exception of the model. *)
Definition is_Exception (e : exn) : bool := true.

(** [response.json()] *)
Definition response_json (r : response) : outcome json :=
  match body r with
  | Some j => Returned j
  | None => Raised JSONDecodeError
  end.

(** [status not in (a, b)] *)
Definition status_not_in (status a b : Z) : bool :=
  negb (Z.eqb status a || Z.eqb status b).

(** [httpx]: [raise_for_status] raises unless the status is a success,
    200 to 299. *)
Definition httpx_raises_for_status (status : Z) : bool :=
  negb ((200 <=? status)%Z && (status <=? 299)%Z).

(* ================================================================== *)
(** * A small authority to run the gateway against *)
(* ================================================================== *)

Module Toy.

(** A realm: its users (username and representation), the names of its
    roles, and whether it serves role-mapping requests. *)
Record realm : Type := {
  users : list (string * dict);
  roles : list string;
  mappings_up : bool
}.

Definition user_repr (username : string) : dict :=
  [("id", JStr ("id-" ++ username)); ("username", JStr username)].

Definition key1 : json :=
  JObj [("kid", JStr "k1"); ("kty", JStr "RSA"); ("alg", JStr "RS256");
        ("use", JStr "sig"); ("n", JStr "modulus"); ("e", JStr "AQAB")].

Definition answer (status : Z) (j : json) : reply :=
  Reply {| status_code := status; body := Some j |}.

Definition no_content (status : Z) : reply :=
  Reply {| status_code := status; body := None |}.

Definition error (status : Z) (msg : string) : reply :=
  answer status (JObj [("error", JStr msg)]).

(** The realm's answers.  Usernames are unique: creating a user whose
    username is taken answers 409 and changes nothing. *)
Definition authority (r : request) (w : realm) : reply * realm :=
  match req_call r with
  | GetCerts => (answer 200 (JObj [("keys", JArr [key1])]), w)
  | PostAdminToken _ =>
      (answer 200 (JObj [("access_token", JStr "admin-token");
                         ("expires_in", JNum 60)]), w)
  | PostUsers payload =>
      match Py.getitem payload "username" with
      | Returned (JStr u) =>
          if existsb (String.eqb u) (map fst (users w))
          then (error 409 "User exists with same username", w)
          else (no_content 201,
                {| users := (users w ++ [(u, user_repr u)])%list;
                   roles := roles w;
                   mappings_up := mappings_up w |})
      | _ => (error 400 "username missing", w)
      end
  | GetUsers params =>
      match Py.dict_get "username" params with
      | Some (JStr u) =>
          (answer 200
             (JArr (map (fun entry => JObj (snd entry))
                        (filter (fun entry => String.eqb (fst entry) u)
                                (users w)))), w)
      | _ => (answer 200 (JArr (map (fun entry => JObj (snd entry))
                                    (users w))), w)
      end
  | PutResetPassword _ _ => (no_content 204, w)
  | GetRole role_name =>
      if existsb (String.eqb role_name) (roles w)
      then (answer 200 (JObj [("name", JStr role_name)]), w)
      else (error 404 "Could not find role", w)
  | PostRoleMappings _ _ =>
      if mappings_up w then (no_content 204, w)
      else (error 500 "unknown_error", w)
  | GetGroups => (answer 200 (JArr []), w)
  | PutUserGroup _ _ => (no_content 204, w)
  end.

Definition fresh : realm :=
  {| users := []; roles := ["developer"]; mappings_up := true |}.

Definition mappings_down : realm :=
  {| users := []; roles := ["developer"]; mappings_up := false |}.

Definition start (w : realm) : world realm := {| remote := w; sent := [] |}.

Definition settings : Settings :=
  load_settings "http://keycloak:8080" "demo" "gateway" "secret"
                "admin" "admin-password" None.

Definition now : Z := 1000.

Definition rs256_k1 : dict := [("alg", JStr "RS256"); ("kid", JStr "k1")].

Definition admin_claims : dict :=
  [("sub", JStr "7"); ("preferred_username", JStr "root");
   ("exp", JNum 2000); ("aud", JStr "account");
   ("realm_access", JObj [("roles", JArr [JStr "offline_access";
                                          JStr "realm-admin"])])].

Definition stale_claims : dict := [("sub", JStr "7"); ("exp", JNum 100)].

(** The tokens of the examples, by name. *)
Definition jws_load (token : string) : option jws :=
  if String.eqb token "admin"
  then Some {| jws_header := rs256_k1;
               jws_payload := Some (JObj admin_claims) |}
  else if String.eqb token "stale"
  then Some {| jws_header := rs256_k1;
               jws_payload := Some (JObj stale_claims) |}
  else if String.eqb token "stale-forged"
  then Some {| jws_header := rs256_k1;
               jws_payload := Some (JObj stale_claims) |}
  else if String.eqb token "stale-unknown-key"
  then Some {| jws_header := [("alg", JStr "RS256"); ("kid", JStr "k0")];
               jws_payload := Some (JObj stale_claims) |}
  else if String.eqb token "unsigned"
  then Some {| jws_header := [("alg", JStr "none"); ("kid", JStr "k1")];
               jws_payload := Some (JObj admin_claims) |}
  else if String.eqb token "hmac"
  then Some {| jws_header := [("alg", JStr "HS256"); ("kid", JStr "k1")];
               jws_payload := Some (JObj admin_claims) |}
  else None.

(** Every signature but the forged one matches. *)
Definition check_signature (token : string) (key : dict) (alg : json)
  : sig_outcome :=
  if String.eqb token "stale-forged" then SigInvalid else SigValid.

Definition int_of_str (s : string) : option Z := None.

Definition john (role_names : list string) : UserCreateRequest :=
  {| uc_username := "john"; uc_email := "john@example.com";
     uc_firstName := "John"; uc_lastName := "Doe"; uc_password := "p1";
     uc_roles := Some role_names; uc_groups := Some [];
     uc_enabled := true |}.

End Toy.

(* ================================================================== *)
(** * The rest of the wire *)
(* ================================================================== *)

(** The requests of the functions that follow the core: the token
    endpoint of the realm and the remaining admin endpoints.  The comment
    gives the URL below [settings.keycloak_url]. *)
Inductive surface_call : Type :=
| PostRealmToken (data : dict)
                  (* POST /realms/{realm}/protocol/openid-connect/token *)
| GetUser (user_id : json)
                  (* GET    /admin/realms/{realm}/users/{user_id} *)
| PutUser (user_id : json) (user_data : json)
                  (* PUT    /admin/realms/{realm}/users/{user_id} *)
| DeleteUser (user_id : json)
                  (* DELETE /admin/realms/{realm}/users/{user_id} *)
| PostRoles (payload : json)
                  (* POST   /admin/realms/{realm}/roles *)
| GetRoles
                  (* GET    /admin/realms/{realm}/roles *)
| DeleteRole (role_name : string)
                  (* DELETE /admin/realms/{realm}/roles/{role_name} *)
| GetUserRoleMappings (user_id : json)
                  (* GET    .../users/{user_id}/role-mappings/realm *)
| PostGroups (payload : json)
                  (* POST   /admin/realms/{realm}/groups *)
| GetGroup (group_id : json)
                  (* GET    /admin/realms/{realm}/groups/{group_id} *)
| DeleteGroup (group_id : json)
                  (* DELETE /admin/realms/{realm}/groups/{group_id} *)
| GetUserGroups (user_id : json)
                  (* GET    .../users/{user_id}/groups *)
| DeleteUserGroup (user_id group_id : json).
                  (* DELETE .../users/{user_id}/groups/{group_id} *)

Record surface_request : Type := {
  sreq_url : string;
  sreq_realm : string;
  sreq_bearer : option json;
  sreq_call : surface_call
}.

(** The state of a handler that also uses these endpoints: the state of
    the core, and the log of the requests of this part, oldest first. *)
Record full_world (W : Type) : Type := {
  core : world W;
  also_sent : list surface_request
}.
Arguments core {W} f.
Arguments also_sent {W} f.
Arguments Build_full_world {W} core also_sent.

(** [UserUpdateRequest] of [routes/users.py]: every field is optional. *)
Record UserUpdateRequest : Type := {
  uu_email : option string;
  uu_firstName : option string;
  uu_lastName : option string;
  uu_enabled : option bool
}.

(** [LoginRequest] of [routes/auth.py]. *)
Record LoginRequest : Type := {
  lr_username : string;
  lr_password : string
}.

Module PyItem.

(** [d[k] = x] on a dict: the entry of [k] takes the value [x] where it
    stands, or is added at the end. *)
Fixpoint dict_set (k : string) (x : json) (d : dict) : dict :=
  match d with
  | [] => [(k, x)]
  | (k', v) :: d' =>
      if String.eqb k k' then (k', x) :: d' else (k', v) :: dict_set k x d'
  end.

(** [v[k] = x] with a string subscript: only a dict takes it. *)
Definition setitem (v : json) (k : string) (x : json) : outcome json :=
  match v with
  | JObj d => Returned (JObj (dict_set k x d))
  | _ => Raised TypeError
  end.

(** [d.get(k)] on a dict: [None] when the key is missing. *)
Definition dict_get_or_none (k : string) (d : dict) : json :=
  Py.dict_get_default k JNull d.

End PyItem.

(** [except httpx.HTTPStatusError] *)
Definition is_HTTPStatusError (e : exn) : bool :=
  match e with HTTPStatusError _ => true | _ => false end.

(** [except HTTPException] *)
Definition is_HTTPException (e : exn) : bool :=
  match e with HTTPException _ _ _ => true | _ => false end.

(* ================================================================== *)
(** * The small authority on the rest of the wire *)
(* ================================================================== *)

Module ToySurface.

(** A group as the authority lists it. *)
Definition team (name : string) : json :=
  JObj [("id", JStr ("g-" ++ name)); ("name", JStr name)].

(** The small authority with two groups in its listing. *)
Definition with_groups (r : request) (w : Toy.realm) : reply * Toy.realm :=
  match req_call r with
  | GetGroups => (Toy.answer 200 (JArr [team "ml"; team "ops"]), w)
  | _ => Toy.authority r w
  end.

(** An authority that cannot be reached. *)
Definition unreachable (r : request) (w : Toy.realm) : reply * Toy.realm :=
  (NoReply, w).

Definition has_id (user_id : json) (entry : string * dict) : bool :=
  match Py.dict_get "id" (snd entry) with
  | Some i => Py.eq i user_id
  | None => false
  end.

(** The answers of the realm on the rest of the wire.  The realm has no
    groups of its own and gives tokens to nobody; a user or a role that it
    does not have is answered 404. *)
Definition surface (r : surface_request) (w : Toy.realm)
  : reply * Toy.realm :=
  match sreq_call r with
  | PostRealmToken _ => (Toy.error 401 "invalid_grant", w)
  | GetUser user_id =>
      match find (has_id user_id) (Toy.users w) with
      | Some entry => (Toy.answer 200 (JObj (snd entry)), w)
      | None => (Toy.error 404 "User not found", w)
      end
  | PutUser user_id _ =>
      if existsb (has_id user_id) (Toy.users w)
      then (Toy.no_content 204, w)
      else (Toy.error 404 "User not found", w)
  | DeleteUser user_id =>
      if existsb (has_id user_id) (Toy.users w)
      then (Toy.no_content 204,
            {| Toy.users := filter (fun entry => negb (has_id user_id entry))
                                   (Toy.users w);
               Toy.roles := Toy.roles w;
               Toy.mappings_up := Toy.mappings_up w |})
      else (Toy.error 404 "User not found", w)
  | PostRoles _ => (Toy.no_content 201, w)
  | DeleteRole role_name =>
      if existsb (String.eqb role_name) (Toy.roles w)
      then (Toy.no_content 204,
            {| Toy.users := Toy.users w;
               Toy.roles := filter (fun n => negb (String.eqb role_name n))
                                   (Toy.roles w);
               Toy.mappings_up := Toy.mappings_up w |})
      else (Toy.error 404 "Could not find role", w)
  | GetRoles =>
      (Toy.answer 200 (JArr (map (fun n => JObj [("name", JStr n)])
                                 (Toy.roles w))), w)
  | GetUserRoleMappings _ => (Toy.answer 200 (JArr []), w)
  | PostGroups _ => (Toy.no_content 201, w)
  | GetGroup _ => (Toy.error 404 "Could not find group by id", w)
  | DeleteGroup _ => (Toy.error 404 "Could not find group by id", w)
  | GetUserGroups _ => (Toy.answer 200 (JArr []), w)
  | DeleteUserGroup _ _ => (Toy.error 404 "Group not found", w)
  end.

(** What a granted token request is answered with. *)
Definition token_data (access_token : string) : json :=
  JObj [("access_token", JStr access_token);
        ("refresh_token", JStr "next");
        ("expires_in", JNum 300)].

(** The realm when it grants every token request, with [access_token] as
    the access token. *)
Definition granting (access_token : string) (r : surface_request)
                    (w : Toy.realm) : reply * Toy.realm :=
  match sreq_call r with
  | PostRealmToken _ => (Toy.answer 200 (token_data access_token), w)
  | _ => surface r w
  end.

(** The wider state at the start: nothing sent yet. *)
Definition start (w : Toy.realm) : full_world Toy.realm :=
  {| core := Toy.start w; also_sent := [] |}.

End ToySurface.
Section Gateway.

(** The identity authority: its state and how it answers a request. *)
Variable W : Type.
Variable authority : request -> W -> reply * W.

(** [httpx]: the status codes for which [raise_for_status] raises. *)
Variable raises_for_status : Z -> bool.

(** python-jose: splitting and decoding a compact token, and checking its
    signature under a key dict and a declared algorithm. *)
Variable jws_load : string -> option jws.
Variable check_signature : string -> dict -> json -> sig_outcome.

(** [int(s)] on a string; [None] is [ValueError]. *)
Variable int_of_str : string -> option Z.

(** The clock: seconds since the epoch at the time of the call. *)
Variable now : Z.

(** [app.config.settings] *)
Variable settings : Settings.

Local Abbreviation state := (world W).

(** One HTTP exchange through [httpx.Client]. *)
Definition send (r : request) : M state response :=
  fun st =>
    let (rep, w') := authority r (remote st) in
    let st' := {| remote := w'; sent := (sent st ++ [r])%list |} in
    match rep with
    | Reply resp => (Returned resp, st')
    | NoReply => (Raised TransportError, st')
    end.

(** [response.raise_for_status()] *)
Definition raise_for_status (r : response) : outcome unit :=
  if raises_for_status (status_code r)
  then Raised (HTTPStatusError (status_code r))
  else Returned tt.

Definition realm_request (bearer : option json) (c : call) : request :=
  {| req_url := keycloak_url settings;
     req_realm := keycloak_realm settings;
     req_bearer := bearer;
     req_call := c |}.

Definition master_request (c : call) : request :=
  {| req_url := keycloak_url settings;
     req_realm := "master";
     req_bearer := None;
     req_call := c |}.

(* ------------------------------------------------------------------ *)
(** ** python-jose [jwt]

    [decode_token] calls [jwt.get_unverified_header] and [jwt.decode] of
    the python-jose library.  They are rendered here as the library has
    them: [jwt.decode] checks the declared algorithm against [algorithms],
    then the signature, then decodes the payload, then validates the
    claims in the order iat, nbf, exp, aud, iss, sub, jti, at_hash, each
    under its option.  Splitting the compact token and the signature
    arithmetic stay abstract ([jws_load], [check_signature]). *)

(** [jwt.get_unverified_header(token)] *)
Definition jwt_get_unverified_header (token : string) : outcome dict :=
  match jws_load token with
  | Some t => Returned (jws_header t)
  | None => Raised (JWTError HeaderUndecodable)
  end.

(** [jws._verify_signature]: the declared algorithm must be present and
    in [algorithms] before any key is tried. *)
Definition jws_verify_signature (token : string) (header key : dict)
                                (algorithms : list string) : outcome unit :=
  let alg := Py.dict_get_default "alg" JNull header in
  if negb (Py.truthy alg) then Raised (JWTError NoAlgorithm)
  else if negb (existsb (fun a => Py.eq alg (JStr a)) algorithms)
  then Raised (JWTError AlgNotAllowed)
  else match check_signature token key alg with
       | SigValid => Returned tt
       | SigInvalid => Raised (JWTError SignatureFailed)
       | SigNoKey => Raised JWKError
       end.

(** [int(v)] *)
Definition py_int (v : json) : outcome Z :=
  match v with
  | JNum n => Returned n
  | JBool b => Returned (if b then 1 else 0)%Z
  | JStr s => match int_of_str s with
              | Some n => Returned n
              | None => Raised ValueError
              end
  | _ => Raised TypeError
  end.

(** [int(claims[name])] when the claim is present, with [ValueError]
    turned into the claim error [bad]. *)
Definition int_claim (claims : dict) (name : string) (bad : jose_reason)
  : outcome (option Z) :=
  match Py.dict_get name claims with
  | None => Returned None
  | Some v =>
      match py_int v with
      | Returned n => Returned (Some n)
      | Raised ValueError => Raised (JWTError bad)
      | Raised e => Raised e
      end
  end.

Definition validate_iat (claims : dict) : outcome unit :=
  (_ <- int_claim claims "iat" IatNotInteger ;; Returned tt)%outcome.

Definition validate_nbf (claims : dict) (leeway : Z) : outcome unit :=
  (nbf <- int_claim claims "nbf" NbfNotInteger ;;
   match nbf with
   | Some n => if (now + leeway <? n)%Z then Raised (JWTError NotYetValid)
               else Returned tt
   | None => Returned tt
   end)%outcome.

Definition validate_exp (claims : dict) (leeway : Z) : outcome unit :=
  (exp <- int_claim claims "exp" ExpNotInteger ;;
   match exp with
   | Some n => if (n <? now - leeway)%Z then Raised (JWTError SignatureExpired)
               else Returned tt
   | None => Returned tt
   end)%outcome.

Definition is_str (v : json) : bool :=
  match v with JStr _ => true | _ => false end.

Definition validate_aud (claims : dict) (audience : option string)
  : outcome unit :=
  match Py.dict_get "aud" claims with
  | None => Returned tt
  | Some a =>
      match (match a with JStr _ => JArr [a] | _ => a end) with
      | JArr audience_claims =>
          if negb (forallb is_str audience_claims)
          then Raised (JWTError AudienceMalformed)
          else match audience with
               | Some aud =>
                   if existsb (Py.eq (JStr aud)) audience_claims
                   then Returned tt
                   else Raised (JWTError InvalidAudience)
               | None => Raised (JWTError InvalidAudience)
               end
      | _ => Raised (JWTError AudienceMalformed)
      end
  end.

Definition validate_str_claim (claims : dict) (name : string)
                              (bad : jose_reason) : outcome unit :=
  match Py.dict_get name claims with
  | None => Returned tt
  | Some v => if is_str v then Returned tt else Raised (JWTError bad)
  end.

(** With no [access_token] argument a token that carries [at_hash] is
    rejected. *)
Definition validate_at_hash (claims : dict) : outcome unit :=
  if Py.dict_mem "at_hash" claims then Raised (JWTError AtHashWithoutToken)
  else Returned tt.

Definition when (b : bool) (c : outcome unit) : outcome unit :=
  if b then c else Returned tt.

(** [jwt._validate_claims] for a call that leaves [issuer], [subject] and
    [access_token] at [None]: the issuer check then does nothing. *)
Definition validate_claims (claims : dict) (audience : option string)
                           (options : jose_options) : outcome unit :=
  (when (verify_iat options) (validate_iat claims) ;;
   when (verify_nbf options) (validate_nbf claims (leeway options)) ;;
   when (verify_exp options) (validate_exp claims (leeway options)) ;;
   when (verify_aud options) (validate_aud claims audience) ;;
   when (verify_sub options) (validate_str_claim claims "sub" SubjectNotString) ;;
   when (verify_jti options) (validate_str_claim claims "jti" JtiNotString) ;;
   when (verify_at_hash options) (validate_at_hash claims))%outcome.

(** [jwt.decode(token, key, algorithms=..., audience=..., options=...)]:
    signature first, then the payload, then the claims. *)
Definition jwt_decode (token : string) (key : dict) (algorithms : list string)
                      (audience : option string) (options : jose_options)
  : outcome dict :=
  (t <- match jws_load token with
        | Some t => Returned t
        | None => Raised (JWTError TokenUndecodable)
        end ;;
   when (verify_signature options)
        (jws_verify_signature token (jws_header t) key algorithms) ;;
   _ <- Py.getitem (JObj (jws_header t)) "alg" ;;
   claims <- match jws_payload t with
             | Some (JObj claims) => Returned claims
             | Some _ => Raised (JWTError PayloadNotObject)
             | None => Raised (JWTError PayloadNotJson)
             end ;;
   validate_claims claims audience options ;;
   Returned claims)%outcome.

(* ------------------------------------------------------------------ *)
(** ** [app/auth.py] *)

(** [get_jwks()] *)
Definition get_jwks : M state json :=
  (response <- send (realm_request None GetCerts) ;;
   lift (raise_for_status response) ;;
   lift (response_json response))%gw.

(** The [for key in jwks["keys"]] loop of [decode_token]; [[]] is the
    initial [rsa_key = {}]. *)
Fixpoint find_rsa_key (keys : list json) (unverified_header : dict)
  : outcome dict :=
  match keys with
  | [] => Returned []
  | key :: keys' =>
      (kid <- Py.getitem key "kid" ;;
       header_kid <- Py.getitem (JObj unverified_header) "kid" ;;
       if Py.eq kid header_kid
       then (kty <- Py.getitem key "kty" ;;
             kid' <- Py.getitem key "kid" ;;
             use <- Py.getitem key "use" ;;
             n <- Py.getitem key "n" ;;
             e <- Py.getitem key "e" ;;
             Returned [("kty", kty); ("kid", kid'); ("use", use);
                       ("n", n); ("e", e)])
       else find_rsa_key keys' unverified_header)%outcome
  end.

(** The options [decode_token] passes to [jwt.decode]. *)
Definition decode_options : jose_options :=
  update_verify_aud false jose_defaults.

(** [decode_token(token)] *)
Definition decode_token (token : string) : M state dict :=
  try_except
    (jwks <- get_jwks ;;
     unverified_header <- lift (jwt_get_unverified_header token) ;;
     keys <- lift (ks <- Py.getitem jwks "keys" ;; Py.iter ks)%outcome ;;
     rsa_key <- lift (find_rsa_key keys unverified_header) ;;
     if negb (Py.truthy (JObj rsa_key))
     then raise (HTTPException 401 "Unable to find appropriate key" None)
     else lift (jwt_decode token rsa_key [jwt_algorithm settings]
                           (Some (keycloak_client_id settings))
                           decode_options))%gw
    is_JWTError
    (fun e => raise (HTTPException 401 "Invalid token: " (Some e))).

(** [verify_bearer_token(authorization)] *)
Definition verify_bearer_token (authorization : option string)
  : M state dict :=
  match authorization with
  | None => raise (HTTPException 401 "Authorization header missing" None)
  | Some authorization =>
      if String.eqb authorization ""
      then raise (HTTPException 401 "Authorization header missing" None)
      else if negb (PyStr.startswith authorization "Bearer ")
      then raise (HTTPException 401 "Invalid authorization header format" None)
      else decode_token (PyStr.replace authorization "Bearer " "")
  end.

(* ------------------------------------------------------------------ *)
(** ** [app/keycloak_admin.py] *)

(** The request of [_admin_token]: the password grant of [admin-cli] at
    the master realm. *)
Definition admin_token_request : request :=
  master_request
    (PostAdminToken
       [("client_id", JStr "admin-cli");
        ("grant_type", JStr "password");
        ("username", JStr (keycloak_admin_user settings));
        ("password", JStr (keycloak_admin_password settings))]).

(** [_admin_token()] *)
Definition _admin_token : M state json :=
  (r <- send admin_token_request ;;
   lift (raise_for_status r) ;;
   lift (j <- response_json r ;; Py.getitem j "access_token")%outcome)%gw.

(** [_admin_headers()]: the headers are determined by the token they
    carry after ["Bearer "]. *)
Definition _admin_headers : M state json := _admin_token.

(** The [payload] dict of [create_user], with ["attributes"] set when
    the argument is a non-empty dict. *)
Definition user_payload (username email first_name last_name : string)
                        (enabled email_verified : bool)
                        (attributes : option dict) : dict :=
  ([("username", JStr username); ("email", JStr email);
    ("firstName", JStr first_name); ("lastName", JStr last_name);
    ("enabled", JBool enabled); ("emailVerified", JBool email_verified);
    ("requiredActions", JArr [])]
   ++ match attributes with
      | Some (kv :: a) => [("attributes", JObj (kv :: a))]
      | _ => []
      end)%list.

(** The two requests of [create_user]: the creation and the re-read by
    username. *)
Definition post_user_request (headers : json) (payload : dict) : request :=
  realm_request (Some headers) (PostUsers (JObj payload)).

Definition get_user_request (headers : json) (username : string) : request :=
  realm_request (Some headers) (GetUsers [("username", JStr username)]).

(** [create_user(username, email, first_name, last_name, enabled,
    email_verified, attributes)] *)
Definition create_user (username email first_name last_name : string)
                       (enabled email_verified : bool)
                       (attributes : option dict) : M state json :=
  let payload := user_payload username email first_name last_name
                              enabled email_verified attributes in
  (headers <- _admin_headers ;;
   response <- send (post_user_request headers payload) ;;
   (if status_not_in (status_code response) 201 409
    then lift (raise_for_status response) else ret tt) ;;
   lookup <- send (get_user_request headers username) ;;
   users <- lift (response_json lookup) ;;
   if negb (Py.truthy users)
   then raise (RuntimeError "User not found after creation")
   else lift (u <- Py.getitem0 users ;; Py.getitem u "id")%outcome)%gw.

(** [set_user_password(user_id, password, temporary)] *)
Definition set_user_password (user_id : json) (password : string)
                             (temporary : bool) : M state unit :=
  let payload :=
    JObj [("type", JStr "password"); ("value", JStr password);
          ("temporary", JBool temporary)] in
  (headers <- _admin_headers ;;
   response <- send (realm_request (Some headers)
                                   (PutResetPassword user_id payload)) ;;
   lift (raise_for_status response))%gw.

(** The [for role_name in role_names] loop of [assign_roles_to_user];
    [roles] is the list built so far. *)
Fixpoint fetch_roles (headers : json) (role_names : list string)
                     (roles : list json) : M state (list json) :=
  match role_names with
  | [] => ret roles
  | role_name :: rest =>
      if String.eqb role_name ""
      then fetch_roles headers rest roles
      else
        (roles' <- try_except
                     (r <- send (realm_request (Some headers)
                                               (GetRole role_name)) ;;
                      if Z.eqb (status_code r) 200
                      then (j <- lift (response_json r) ;; ret (roles ++ [j])%list)
                      else ret roles)
                     is_Exception
                     (fun _ => ret roles) ;;
         fetch_roles headers rest roles')%gw
  end.

(** [assign_roles_to_user(user_id, role_names)] *)
Definition assign_roles_to_user (user_id : json) (role_names : list string)
  : M state unit :=
  match role_names with
  | [] => ret tt
  | _ :: _ =>
      (headers <- _admin_headers ;;
       roles <- fetch_roles headers role_names [] ;;
       match roles with
       | [] => ret tt
       | _ :: _ =>
           response <- send (realm_request (Some headers)
                                           (PostRoleMappings user_id roles)) ;;
           if status_not_in (status_code response) 204 409
           then lift (raise_for_status response) else ret tt
       end)%gw
  end.

(** [list_groups()] *)
Definition list_groups : M state json :=
  (headers <- _admin_headers ;;
   response <- send (realm_request (Some headers) GetGroups) ;;
   lift (raise_for_status response) ;;
   lift (response_json response))%gw.

(** [add_user_to_group(user_id, group_id)] *)
Definition add_user_to_group (user_id group_id : json) : M state unit :=
  (headers <- _admin_headers ;;
   response <- send (realm_request (Some headers)
                                   (PutUserGroup user_id group_id)) ;;
   if status_not_in (status_code response) 204 409
   then lift (raise_for_status response) else ret tt)%gw.

(* ------------------------------------------------------------------ *)
(** ** [app/routes/users.py]: [POST /users] *)

(** [{g["name"]: g["id"] for g in all_groups}]; the newest binding of a
    name is put first, so that it is the one a lookup finds.  A list or a
    dict cannot be a key; a key that is no string equals no group name. *)
Fixpoint build_group_map (all_groups : list json) (group_map : dict)
  : outcome dict :=
  match all_groups with
  | [] => Returned group_map
  | g :: rest =>
      (name <- Py.getitem g "name" ;;
       id <- Py.getitem g "id" ;;
       match name with
       | JStr n => build_group_map rest ((n, id) :: group_map)
       | JArr _ | JObj _ => Raised TypeError
       | _ => build_group_map rest group_map
       end)%outcome
  end.

(** The [for group_name in user.groups] loop. *)
Fixpoint add_to_groups (user_id : json) (group_map : dict)
                       (groups : list string) : M state unit :=
  match groups with
  | [] => ret tt
  | group_name :: rest =>
      (match Py.dict_get group_name group_map with
       | Some group_id => add_user_to_group user_id group_id
       | None => ret tt
       end ;;
       add_to_groups user_id group_map rest)%gw
  end.

(** The body of the [try] block of the endpoint. *)
Definition create_user_steps (user : UserCreateRequest) : M state json :=
  (user_id <- create_user (uc_username user) (uc_email user)
                          (uc_firstName user) (uc_lastName user)
                          (uc_enabled user) true None ;;
   set_user_password user_id (uc_password user) false ;;
   match uc_roles user with
   | Some (r :: rs) => assign_roles_to_user user_id (r :: rs)
   | _ => ret tt
   end ;;
   match uc_groups user with
   | Some (g :: gs) =>
       all_groups <- list_groups ;;
       group_map <- lift (gl <- Py.iter all_groups ;;
                          build_group_map gl [])%outcome ;;
       add_to_groups user_id group_map (g :: gs)
   | _ => ret tt
   end ;;
   ret (JObj [("user_id", user_id);
              ("message", JStr "User created successfully")]))%gw.

(** [create_user(user, token)] of [routes/users.py], [token] being the
    payload that [verify_bearer_token] returned. *)
Definition route_create_user (user : UserCreateRequest) (token : dict)
  : M state json :=
  (lift (Guard.require_superadmin token) ;;
   try_except (create_user_steps user)
              is_Exception
              (fun e => raise (HTTPException 500 "Failed to create user: "
                                             (Some e))))%gw.

(* ------------------------------------------------------------------ *)
(** ** Vocabulary of the properties *)

(** The algorithm a token declares in its header. *)
Definition declared_alg (token : string) : option json :=
  match jws_load token with
  | Some t => Py.dict_get "alg" (jws_header t)
  | None => None
  end.

(** From [st] the key set is fetched, leaving [st'], and the loop of
    [decode_token] selects the non-empty [rsa_key] for the token. *)
Definition key_resolves (token : string) (st : state) (rsa_key : dict)
                        (st' : state) : Prop :=
  exists jwks t keys,
    get_jwks st = (Returned jwks, st')
    /\ jws_load token = Some t
    /\ (ks <- Py.getitem jwks "keys" ;; Py.iter ks)%outcome = Returned keys
    /\ find_rsa_key keys (jws_header t) = Returned rsa_key
    /\ rsa_key <> [].

(** Whatever the authority answers, [m] sends only requests that
    satisfy [P]. *)
Definition sends_only {A} (P : request -> bool) (m : M state A) : Prop :=
  forall st, exists l,
    sent (snd (m st)) = (sent st ++ l)%list /\ forallb P l = true.

(** The exceptions of Python itself and of [httpx]: neither a
    [JWTError] nor an [HTTPException]. *)
Definition plain_error (e : exn) : bool :=
  match e with
  | JWTError _ | HTTPException _ _ _ => false
  | _ => true
  end.

Definition not_admin_token_call (r : request) : bool :=
  negb (is_admin_token_call r).

Definition not_role_or_group_call (r : request) : bool :=
  negb (is_role_or_group_call r).

(** Whatever the authority answers, the first request [m] sends is the
    fetch of an admin token, and [m] fetches no second one. *)
Definition fetches_fresh_token {A} (m : M state A) : Prop :=
  forall st, exists rest,
    sent (snd (m st)) = (sent st ++ admin_token_request :: rest)%list
    /\ forallb not_admin_token_call rest = true.

(** The requests of the first two steps of user creation: the token
    fetch, the creation and re-read of the user, the password reset. *)
Definition is_user_step_call (r : request) : bool :=
  match req_call r with
  | PostAdminToken _ | PostUsers _ | GetUsers _ | PutResetPassword _ _ => true
  | _ => false
  end.

(** Requests that create a user or set a password. *)
Definition is_user_mutation (r : request) : bool :=
  match req_call r with
  | PostUsers _ | PutResetPassword _ _ => true
  | _ => false
  end.

Definition not_user_mutation (r : request) : bool :=
  negb (is_user_mutation r).


(** The arguments with which the endpoint calls
    [keycloak_admin.create_user]. *)
Definition create_user_of (user : UserCreateRequest) : M state json :=
  create_user (uc_username user) (uc_email user) (uc_firstName user)
              (uc_lastName user) (uc_enabled user) true None.


(** The endpoint's answer when a step raised [e]. *)
Definition failed_to_create (e : exn) : exn :=
  HTTPException 500 "Failed to create user: " (Some e).

(** The state after the lookup of [role_name] has been sent from [st]. *)
Definition after_role_lookup (headers : json) (role_name : string)
                             (st : state) : state :=
  {| remote := snd (authority (realm_request (Some headers)
                                             (GetRole role_name))
                              (remote st));
     sent := (sent st ++ [realm_request (Some headers)
                                        (GetRole role_name)])%list |}.

(** The authority's answer to the lookup of [role_name] asked in [st]. *)
Definition role_lookup_reply (headers : json) (role_name : string)
                             (st : state) : reply :=
  fst (authority (realm_request (Some headers) (GetRole role_name))
                 (remote st)).



(* ------------------------------------------------------------------ *)
(** ** The rest of [app/auth.py] and [app/keycloak_admin.py] *)

(** How the authority answers the requests of this part. *)
Variable surface : surface_request -> W -> reply * W.

Local Abbreviation full := (full_world W).

(** A computation of the core, run inside the wider state. *)
Definition on_core {A} (m : M state A) : M full A :=
  fun s =>
    let (o, c) := m (core s) in
    (o, {| core := c; also_sent := also_sent s |}).

(** One HTTP exchange with an endpoint of this part. *)
Definition surface_send (r : surface_request) : M full response :=
  fun s =>
    let (rep, w') := surface r (remote (core s)) in
    let s' := {| core := {| remote := w'; sent := sent (core s) |};
                 also_sent := (also_sent s ++ [r])%list |} in
    match rep with
    | Reply resp => (Returned resp, s')
    | NoReply => (Raised TransportError, s')
    end.

Definition surface_realm_request (bearer : option json) (c : surface_call)
  : surface_request :=
  {| sreq_url := keycloak_url settings;
     sreq_realm := keycloak_realm settings;
     sreq_bearer := bearer;
     sreq_call := c |}.

(** The form [data] of [get_keycloak_token]. *)
Definition password_grant (username password : string) : dict :=
  [("client_id", JStr (keycloak_client_id settings));
   ("client_secret", JStr (keycloak_client_secret settings));
   ("grant_type", JStr "password");
   ("username", JStr username);
   ("password", JStr password)].

(** The form [data] of [refresh_keycloak_token]. *)
Definition refresh_grant (refresh_token : string) : dict :=
  [("client_id", JStr (keycloak_client_id settings));
   ("client_secret", JStr (keycloak_client_secret settings));
   ("grant_type", JStr "refresh_token");
   ("refresh_token", JStr refresh_token)].

(** The request to [token_url] of either function. *)
Definition token_request (data : dict) : surface_request :=
  surface_realm_request None (PostRealmToken data).

(** [get_keycloak_token(username, password)] *)
Definition get_keycloak_token (username password : string) : M full json :=
  try_except
    (response <- surface_send (token_request
                                 (password_grant username password)) ;;
     lift (raise_for_status response) ;;
     lift (response_json response))%gw
    is_HTTPStatusError
    (fun e =>
       match e with
       | HTTPStatusError status =>
           if Z.eqb status 401
           then raise (HTTPException 401 "Invalid credentials" None)
           else raise (HTTPException 500 "Authentication failed" None)
       | _ => raise e
       end).

(** [refresh_keycloak_token(refresh_token)] *)
Definition refresh_keycloak_token (refresh_token : string) : M full json :=
  try_except
    (response <- surface_send (token_request (refresh_grant refresh_token)) ;;
     lift (raise_for_status response) ;;
     lift (response_json response))%gw
    is_HTTPStatusError
    (fun _ => raise (HTTPException 401 "Invalid or expired refresh token"
                                   None)).

(** [list_users(search)]: the query has [search] when it is given and not
    empty. *)
Definition list_users (search : option string) : M state json :=
  let params :=
    match search with
    | Some (String c s) => [("search", JStr (String c s))]
    | _ => []
    end in
  (headers <- _admin_headers ;;
   response <- send (realm_request (Some headers) (GetUsers params)) ;;
   lift (raise_for_status response) ;;
   lift (response_json response))%gw.

(** [get_user(user_id)] *)
Definition get_user (user_id : json) : M full json :=
  (headers <- on_core _admin_headers ;;
   response <- surface_send (surface_realm_request (Some headers)
                                                   (GetUser user_id)) ;;
   lift (raise_for_status response) ;;
   lift (response_json response))%gw.

(** [update_user(user_id, user_data)] *)
Definition update_user (user_id : json) (user_data : json) : M full unit :=
  (headers <- on_core _admin_headers ;;
   response <- surface_send (surface_realm_request
                               (Some headers) (PutUser user_id user_data)) ;;
   lift (raise_for_status response))%gw.

(** [delete_user(user_id)] *)
Definition delete_user (user_id : json) : M full unit :=
  (headers <- on_core _admin_headers ;;
   response <- surface_send (surface_realm_request (Some headers)
                                                   (DeleteUser user_id)) ;;
   if status_not_in (status_code response) 204 404
   then lift (raise_for_status response) else ret tt)%gw.

(** [list_realm_roles()] *)
Definition list_realm_roles : M full json :=
  (headers <- on_core _admin_headers ;;
   response <- surface_send (surface_realm_request (Some headers) GetRoles) ;;
   lift (raise_for_status response) ;;
   lift (response_json response))%gw.

(** [get_realm_role(role_name)] *)
Definition get_realm_role (role_name : string) : M state json :=
  (headers <- _admin_headers ;;
   response <- send (realm_request (Some headers) (GetRole role_name)) ;;
   lift (raise_for_status response) ;;
   lift (response_json response))%gw.

(** [create_realm_role(role_name, description)] *)
Definition create_realm_role (role_name : string)
                             (description : option string) : M full unit :=
  let payload :=
    ([("name", JStr role_name)]
     ++ match description with
        | Some (String c d) => [("description", JStr (String c d))]
        | _ => []
        end)%list in
  (headers <- on_core _admin_headers ;;
   response <- surface_send (surface_realm_request
                               (Some headers) (PostRoles (JObj payload))) ;;
   if status_not_in (status_code response) 201 409
   then lift (raise_for_status response) else ret tt)%gw.

(** [delete_realm_role(role_name)] *)
Definition delete_realm_role (role_name : string) : M full unit :=
  (headers <- on_core _admin_headers ;;
   response <- surface_send (surface_realm_request (Some headers)
                                                   (DeleteRole role_name)) ;;
   if status_not_in (status_code response) 204 404
   then lift (raise_for_status response) else ret tt)%gw.

(** [get_user_roles(user_id)] *)
Definition get_user_roles (user_id : json) : M full json :=
  (headers <- on_core _admin_headers ;;
   response <- surface_send (surface_realm_request
                               (Some headers)
                               (GetUserRoleMappings user_id)) ;;
   lift (raise_for_status response) ;;
   lift (response_json response))%gw.

(** The [for role_name in role_names] loop of [remove_roles_from_user]:
    as in [assign_roles_to_user], but an empty name is looked up too. *)
Fixpoint fetch_roles_to_remove (headers : json) (role_names : list string)
                               (roles : list json) : M state (list json) :=
  match role_names with
  | [] => ret roles
  | role_name :: rest =>
      (roles' <- try_except
                   (r <- send (realm_request (Some headers)
                                             (GetRole role_name)) ;;
                    if Z.eqb (status_code r) 200
                    then (j <- lift (response_json r) ;;
                          ret (roles ++ [j])%list)
                    else ret roles)
                   is_Exception
                   (fun _ => ret roles) ;;
       fetch_roles_to_remove headers rest roles')%gw
  end.

(** [remove_roles_from_user(user_id, role_names)].  The removal is written
    [client.delete(url, headers=headers, json=roles)], and [delete] of
    [httpx.Client] has no parameter [json]: the call raises [TypeError]
    and no request is made. *)
Definition remove_roles_from_user (user_id : json) (role_names : list string)
  : M full unit :=
  match role_names with
  | [] => ret tt
  | _ :: _ =>
      (headers <- on_core _admin_headers ;;
       roles <- on_core (fetch_roles_to_remove headers role_names []) ;;
       match roles with
       | [] => ret tt
       | _ :: _ => raise TypeError
       end)%gw
  end.

(** [get_group(group_id)] *)
Definition get_group (group_id : json) : M full json :=
  (headers <- on_core _admin_headers ;;
   response <- surface_send (surface_realm_request (Some headers)
                                                   (GetGroup group_id)) ;;
   lift (raise_for_status response) ;;
   lift (response_json response))%gw.

(** The [for group in groups] loop of [create_group]. *)
Fixpoint find_group_id (groups : list json) (group_name : string)
  : outcome json :=
  match groups with
  | [] => Raised (RuntimeError "Group not found after creation")
  | group :: rest =>
      (name <- Py.getitem group "name" ;;
       if Py.eq name (JStr group_name)
       then Py.getitem group "id"
       else find_group_id rest group_name)%outcome
  end.

(** [create_group(group_name)] *)
Definition create_group (group_name : string) : M full json :=
  (headers <- on_core _admin_headers ;;
   response <- surface_send
                 (surface_realm_request
                    (Some headers)
                    (PostGroups (JObj [("name", JStr group_name)]))) ;;
   (if status_not_in (status_code response) 201 409
    then lift (raise_for_status response) else ret tt) ;;
   listing <- on_core (send (realm_request (Some headers) GetGroups)) ;;
   groups <- lift (response_json listing) ;;
   lift (gl <- Py.iter groups ;; find_group_id gl group_name)%outcome)%gw.

(** [delete_group(group_id)] *)
Definition delete_group (group_id : json) : M full unit :=
  (headers <- on_core _admin_headers ;;
   response <- surface_send (surface_realm_request (Some headers)
                                                   (DeleteGroup group_id)) ;;
   if status_not_in (status_code response) 204 404
   then lift (raise_for_status response) else ret tt)%gw.

(** [get_user_groups(user_id)] *)
Definition get_user_groups (user_id : json) : M full json :=
  (headers <- on_core _admin_headers ;;
   response <- surface_send (surface_realm_request (Some headers)
                                                   (GetUserGroups user_id)) ;;
   lift (raise_for_status response) ;;
   lift (response_json response))%gw.

(** [remove_user_from_group(user_id, group_id)] *)
Definition remove_user_from_group (user_id group_id : json) : M full unit :=
  (headers <- on_core _admin_headers ;;
   response <- surface_send
                 (surface_realm_request
                    (Some headers) (DeleteUserGroup user_id group_id)) ;;
   if status_not_in (status_code response) 204 404
   then lift (raise_for_status response) else ret tt)%gw.

(* ------------------------------------------------------------------ *)
(** ** The routes *)

(** [decode_token(v)] for the value [v] found under ["access_token"]:
    python-jose takes the header of a string only, any other value fails
    [jwt.get_unverified_header]. *)
Definition decode_token_value (v : json) : M state dict :=
  match v with
  | JStr token => decode_token token
  | _ =>
      try_except
        (_ <- get_jwks ;;
         raise (JWTError HeaderUndecodable))%gw
        is_JWTError
        (fun e => raise (HTTPException 401 "Invalid token: " (Some e)))
  end.

(** The dict that [login] and [refresh_token] return. *)
Definition token_answer (token_data : json) (user_data : dict)
  : outcome json :=
  (access_token <- Py.getitem token_data "access_token" ;;
   refresh_token <- Py.getitem token_data "refresh_token" ;;
   expires_in <- Py.getitem token_data "expires_in" ;;
   Returned
     (JObj [("access_token", access_token);
            ("refresh_token", refresh_token);
            ("token_type", JStr "bearer");
            ("expires_in", expires_in);
            ("user",
             JObj [("id", PyItem.dict_get_or_none "sub" user_data);
                   ("username",
                    PyItem.dict_get_or_none "preferred_username" user_data);
                   ("email", PyItem.dict_get_or_none "email" user_data);
                   ("name", PyItem.dict_get_or_none "name" user_data);
                   ("realm_access",
                    PyItem.dict_get_or_none "realm_access" user_data)])]))
  %outcome.

(** [login(credentials)] of [routes/auth.py] *)
Definition login (credentials : LoginRequest) : M full json :=
  try_except
    (token_data <- get_keycloak_token (lr_username credentials)
                                      (lr_password credentials) ;;
     access_token <- lift (Py.getitem token_data "access_token") ;;
     user_data <- on_core (decode_token_value access_token) ;;
     lift (token_answer token_data user_data))%gw
    is_Exception
    (fun e =>
       if is_HTTPException e then raise e
       else raise (HTTPException 500 "Authentication failed: " (Some e))).

(** [refresh_token(request)] of [routes/auth.py] *)
Definition refresh_token (refresh_token : string) : M full json :=
  try_except
    (token_data <- refresh_keycloak_token refresh_token ;;
     access_token <- lift (Py.getitem token_data "access_token") ;;
     user_data <- on_core (decode_token_value access_token) ;;
     lift (token_answer token_data user_data))%gw
    is_Exception
    (fun e =>
       if is_HTTPException e then raise e
       else raise (HTTPException 401 "Token refresh failed: " (Some e))).

(** The assignments of [update_user] of [routes/users.py]: a field that
    is given replaces the one of [current_user]. *)
Definition apply_user_update (user_update : UserUpdateRequest)
                             (current_user : json) : outcome json :=
  (u1 <- match uu_email user_update with
         | Some email => PyItem.setitem current_user "email" (JStr email)
         | None => Returned current_user
         end ;;
   u2 <- match uu_firstName user_update with
         | Some n => PyItem.setitem u1 "firstName" (JStr n)
         | None => Returned u1
         end ;;
   u3 <- match uu_lastName user_update with
         | Some n => PyItem.setitem u2 "lastName" (JStr n)
         | None => Returned u2
         end ;;
   match uu_enabled user_update with
   | Some b => PyItem.setitem u3 "enabled" (JBool b)
   | None => Returned u3
   end)%outcome.

Definition message (text : string) : json := JObj [("message", JStr text)].

(** [update_user(user_id, user_update, token)] of [routes/users.py] *)
Definition route_update_user (user_id : string)
                             (user_update : UserUpdateRequest)
                             (token : dict) : M full json :=
  (lift (Guard.require_superadmin token) ;;
   try_except
     (current_user <- get_user (JStr user_id) ;;
      updated <- lift (apply_user_update user_update current_user) ;;
      update_user (JStr user_id) updated ;;
      ret (message "User updated successfully"))
     is_Exception
     (fun e => raise (HTTPException 500 "Failed to update user: "
                                    (Some e))))%gw.

(** [delete_user(user_id, token)] of [routes/users.py] *)
Definition route_delete_user (user_id : string) (token : dict)
  : M full json :=
  (lift (Guard.require_superadmin token) ;;
   try_except
     (delete_user (JStr user_id) ;; ret JNull)
     is_Exception
     (fun e => raise (HTTPException 500 "Failed to delete user: "
                                    (Some e))))%gw.

(** [reset_password(user_id, password_reset, token)] of
    [routes/users.py] *)
Definition route_reset_password (user_id : string) (password : string)
                                (temporary : bool) (token : dict)
  : M state json :=
  (lift (Guard.require_superadmin token) ;;
   try_except
     (set_user_password (JStr user_id) password temporary ;;
      ret (message "Password reset successfully"))
     is_Exception
     (fun e => raise (HTTPException 500 "Failed to reset password: "
                                    (Some e))))%gw.

(** [create_role(role, token)] of [routes/roles.py] *)
Definition route_create_role (name : string) (description : option string)
                             (token : dict) : M full json :=
  (lift (Guard.require_superadmin token) ;;
   try_except
     (create_realm_role name description ;;
      ret (JObj [("message", JStr "Role created successfully");
                 ("role_name", JStr name)]))
     is_Exception
     (fun e => raise (HTTPException 500 "Failed to create role: "
                                    (Some e))))%gw.

(** [delete_role(role_name, token)] of [routes/roles.py] *)
Definition route_delete_role (role_name : string) (token : dict)
  : M full json :=
  (lift (Guard.require_superadmin token) ;;
   try_except
     (delete_realm_role role_name ;; ret JNull)
     is_Exception
     (fun e => raise (HTTPException 500 "Failed to delete role: "
                                    (Some e))))%gw.

(** [assign_roles(user_id, role_assign, token)] of [routes/roles.py] *)
Definition route_assign_roles (user_id : string) (roles : list string)
                              (token : dict) : M state json :=
  (lift (Guard.require_superadmin token) ;;
   try_except
     (assign_roles_to_user (JStr user_id) roles ;;
      ret (message "Roles assigned successfully"))
     is_Exception
     (fun e => raise (HTTPException 500 "Failed to assign roles: "
                                    (Some e))))%gw.

(** [remove_roles(user_id, role_assign, token)] of [routes/roles.py] *)
Definition route_remove_roles (user_id : string) (roles : list string)
                              (token : dict) : M full json :=
  (lift (Guard.require_superadmin token) ;;
   try_except
     (remove_roles_from_user (JStr user_id) roles ;;
      ret (message "Roles removed successfully"))
     is_Exception
     (fun e => raise (HTTPException 500 "Failed to remove roles: "
                                    (Some e))))%gw.

(** [create_group(group, token)] of [routes/groups.py] *)
Definition route_create_group (name : string) (token : dict)
  : M full json :=
  (lift (Guard.require_superadmin token) ;;
   try_except
     (group_id <- create_group name ;;
      ret (JObj [("group_id", group_id);
                 ("message", JStr "Group created successfully")]))
     is_Exception
     (fun e => raise (HTTPException 500 "Failed to create group: "
                                    (Some e))))%gw.

(** [delete_group(group_id, token)] of [routes/groups.py] *)
Definition route_delete_group (group_id : string) (token : dict)
  : M full json :=
  (lift (Guard.require_superadmin token) ;;
   try_except
     (delete_group (JStr group_id) ;; ret JNull)
     is_Exception
     (fun e => raise (HTTPException 500 "Failed to delete group: "
                                    (Some e))))%gw.

(** [add_user_to_group(user_id, group_id, token)] of
    [routes/groups.py] *)
Definition route_add_user_to_group (user_id group_id : string) (token : dict)
  : M state json :=
  (lift (Guard.require_superadmin token) ;;
   try_except
     (add_user_to_group (JStr user_id) (JStr group_id) ;;
      ret (message "User added to group successfully"))
     is_Exception
     (fun e => raise (HTTPException 500 "Failed to add user to group: "
                                    (Some e))))%gw.

(** [remove_user_from_group(user_id, group_id, token)] of
    [routes/groups.py] *)
Definition route_remove_user_from_group (user_id group_id : string)
                                        (token : dict) : M full json :=
  (lift (Guard.require_superadmin token) ;;
   try_except
     (remove_user_from_group (JStr user_id) (JStr group_id) ;;
      ret (message "User removed from group successfully"))
     is_Exception
     (fun e => raise (HTTPException 500
                        "Failed to remove user from group: " (Some e))))%gw.

(* ------------------------------------------------------------------ *)
(** ** Vocabulary of the further properties *)

(** The lookup request for a role name. *)
Definition role_lookup (headers : json) (role_name : string) : request :=
  realm_request (Some headers) (GetRole role_name).

(** A role name that is not the empty string. *)
Definition named (role_name : string) : bool :=
  negb (String.eqb role_name "").

(** The name of a listed group, when it has one that is a string. *)
Definition group_name_of (group : json) : option string :=
  match Py.getitem group "name" with
  | Returned (JStr n) => Some n
  | _ => None
  end.

(** The group is listed under the name [group_name]. *)
Definition group_named (group_name : string) (group : json) : bool :=
  match group_name_of group with
  | Some n => String.eqb n group_name
  | None => false
  end.

(** The id of a listed group, when it has one. *)
Definition group_id_of (group : json) : option json :=
  match Py.getitem group "id" with
  | Returned i => Some i
  | Raised _ => None
  end.

(** A listed group as the authority sends it: a name that is a string,
    and an id. *)
Definition listed_group (group : json) : Prop :=
  exists n i, Py.getitem group "name" = Returned (JStr n)
              /\ Py.getitem group "id" = Returned i.

(** An [HTTPException] with the status [status]. *)
Definition http_error (status : Z) (e : exn) : bool :=
  match e with
  | HTTPException s _ _ => Z.eqb s status
  | _ => false
  end.

(** The value under [k] after the assignments of [update_user]: the one
    given, or else the one [current_user] has. *)
Definition field_after (given : option json) (k : string)
                       (current_user : dict) : option json :=
  match given with
  | Some v => Some v
  | None => Py.dict_get k current_user
  end.

(** The dict after [if given is not None: d[k] = given]. *)
Definition assigned (given : option json) (k : string) (d : dict) : dict :=
  match given with
  | Some v => PyItem.dict_set k v d
  | None => d
  end.

(** A request to the token endpoint of the realm. *)
Definition is_realm_token_call (r : surface_request) : bool :=
  match sreq_call r with PostRealmToken _ => true | _ => false end.

Definition not_realm_token_call (r : surface_request) : bool :=
  negb (is_realm_token_call r).

(** Whatever the authority answers, [m] asks for no token, on either
    wire. *)
Definition asks_no_token {A} (m : M full A) : Prop :=
  forall s, exists rest more,
    sent (core (snd (m s))) = (sent (core s) ++ rest)%list
    /\ forallb not_admin_token_call rest = true
    /\ also_sent (snd (m s)) = (also_sent s ++ more)%list
    /\ forallb not_realm_token_call more = true.

(** Whatever the authority answers, [m] begins by fetching an admin
    token and fetches no second one; what else it sends, on either wire,
    it sends only when that fetch has given a token. *)
Definition fetches_fresh_token_first {A} (m : M full A) : Prop :=
  forall s, exists rest more,
    sent (core (snd (m s)))
    = (sent (core s) ++ admin_token_request :: rest)%list
    /\ forallb not_admin_token_call rest = true
    /\ also_sent (snd (m s)) = (also_sent s ++ more)%list
    /\ forallb not_realm_token_call more = true
    /\ (forall e, fst (_admin_headers (core s)) = Raised e ->
                  rest = [] /\ more = []).

(** The number of admin-token requests in a log. *)
Definition token_fetches (l : list request) : nat :=
  List.length (filter is_admin_token_call l).

(** The 401 that [decode_token] makes of a token that does not verify. *)
Definition rejected_token (e : exn) : Prop :=
  (exists why, e = HTTPException 401 "Invalid token: " (Some (JWTError why)))
  \/ e = HTTPException 401 "Unable to find appropriate key" None.

(* ================================================================== *)
(** * Properties *)
(* ================================================================== *)

(* ------------------------------------------------------------------ *)
(** ** Strings *)

Lemma append_length (a b : string) :
  String.length (a ++ b) = (String.length a + String.length b)%nat.
Proof. induction a as [|c a IH]; simpl; [reflexivity | now rewrite IH]. Qed.

Lemma strip_prefix_iff (p s r : string) :
  PyStr.strip_prefix p s = Some r <-> s = p ++ r.
Proof.
  revert s; induction p as [|a p IH]; intros s; simpl.
  - split; [now intros [= ->] | now intros ->].
  - destruct s as [|b s].
    + split; discriminate.
    + destruct (Ascii.eqb_spec a b) as [->|Hab].
      * rewrite IH. split; [now intros -> | now intros [= ->]].
      * split; [discriminate | intros [= E _]; now elim Hab].
Qed.

Lemma startswith_append (p t : string) : PyStr.startswith (p ++ t) p = true.
Proof.
  unfold PyStr.startswith.
  now rewrite (proj2 (strip_prefix_iff p (p ++ t) t) eq_refl).
Qed.

Lemma contains_iff_occurs (p s : string) :
  PyStr.contains p s = true <-> PyStr.occurs p s.
Proof.
  unfold PyStr.occurs. induction s as [|c s IH]; simpl.
  - rewrite Bool.orb_false_r. unfold PyStr.startswith.
    destruct (PyStr.strip_prefix p "") as [r|] eqn:E.
    + apply strip_prefix_iff in E. split; [|reflexivity].
      intros _. exists "", r. exact E.
    + split; [discriminate|]. intros (a & b & H).
      destruct a; [|discriminate]. simpl in H.
      rewrite (proj2 (strip_prefix_iff p "" b) H) in E. discriminate.
  - rewrite Bool.orb_true_iff, IH. unfold PyStr.startswith.
    destruct (PyStr.strip_prefix p (String c s)) as [r|] eqn:E.
    + apply strip_prefix_iff in E. split; [|auto].
      intros _. exists "", r. exact E.
    + split.
      * intros [?|(a & b & ->)]; [discriminate|]. now exists (String c a), b.
      * intros (a & b & H). right. destruct a as [|c' a]; simpl in H.
        -- rewrite (proj2 (strip_prefix_iff p _ b) H) in E. discriminate.
        -- injection H as _ ->. now exists a, b.
Qed.

(** Deleting occurrences never makes a string longer. *)
Lemma replace_ne_delete_length (old s : string) :
  (String.length (PyStr.replace_ne old "" s) <= String.length s)%nat.
Proof.
  remember "" as new eqn:Hnew. revert Hnew.
  functional induction (PyStr.replace_ne old new s); intros ->; simpl;
    try lia.
  - apply strip_prefix_iff in e1. specialize (IHs0 eq_refl).
    simpl in e1. injection e1 as _ E. subst s'. rewrite append_length. lia.
  - specialize (IHs0 eq_refl). lia.
Qed.

(** Where the substring occurs, deleting makes the string shorter. *)
Lemma replace_ne_delete_shorter (o : ascii) (old' s : string) :
  PyStr.occurs (String o old') s ->
  (String.length (PyStr.replace_ne (String o old') "" s) < String.length s)%nat.
Proof.
  remember (String o old') as old eqn:Hold.
  remember "" as new eqn:Hnew. revert Hold Hnew.
  functional induction (PyStr.replace_ne old new s);
    intros Hold -> (a & b & H).
  - subst old. destruct a; discriminate.
  - discriminate.
  - apply strip_prefix_iff in e1. simpl.
    pose proof (replace_ne_delete_length (String _x _x0) rest) as L.
    simpl in e1. injection e1 as _ E. subst s'. rewrite append_length. lia.
  - destruct a as [|c' a].
    + rewrite (proj2 (strip_prefix_iff _ _ b) H) in e1. discriminate.
    + simpl in H. injection H as _ E. subst s'. simpl.
      apply (proj1 (PeanoNat.Nat.succ_lt_mono _ _)).
      apply IHs0; [assumption | reflexivity | now exists a, b].
Qed.

(** Where the substring does not occur, replacing changes nothing. *)
Lemma replace_ne_absent (old new s : string) :
  ~ PyStr.occurs old s -> PyStr.replace_ne old new s = s.
Proof.
  functional induction (PyStr.replace_ne old new s); intros H; try reflexivity.
  - apply strip_prefix_iff in e1. elim H. now exists "", rest.
  - f_equal. apply IHs0. intros (a & b & ->). apply H.
    now exists (String c a), b.
Qed.

(* ------------------------------------------------------------------ *)
(** ** Authorization guard *)

Lemma eq_str_iff (s : string) (v : json) :
  Py.eq (JStr s) v = true <-> v = JStr s.
Proof.
  destruct v; simpl; try (split; discriminate).
  rewrite String.eqb_eq. split; [now intros -> | now intros [= ->]].
Qed.

Lemma str_in_list_iff (s : string) (l : list json) :
  existsb (Py.eq (JStr s)) l = true <-> In (JStr s) l.
Proof.
  rewrite existsb_exists. split.
  - intros (v & Hin & Heq). apply eq_str_iff in Heq. now subst v.
  - intros Hin. exists (JStr s). split; [exact Hin | now apply eq_str_iff].
Qed.

(** Where the role list is found, the guard checks membership in it. *)
Lemma is_superadmin_on_role_list (token_payload : dict) (roles : list json) :
  Guard.realm_roles token_payload = Some roles ->
  Guard.is_superadmin token_payload
  = Returned (existsb (Py.eq (JStr "realm-admin")) roles).
Proof.
  unfold Guard.realm_roles, Guard.is_superadmin, Py.dict_get_default.
  destruct (Py.dict_get "realm_access" token_payload) as [[| | | | |ra]|];
    try discriminate.
  - simpl. unfold Py.dict_get_default.
    destruct (Py.dict_get "roles" ra) as [[| | | |l|]|]; try discriminate;
      now intros [= <-].
  - now intros [= <-].
Qed.

(** When [is_superadmin] returns [True], over every payload. *)
Lemma is_superadmin_true_iff (token_payload : dict) :
  Guard.is_superadmin token_payload = Returned true
  <-> exists realm_access roles,
        Py.dict_get "realm_access" token_payload = Some (JObj realm_access)
        /\ Py.dict_get "roles" realm_access = Some roles
        /\ ((exists l, roles = JArr l /\ In (JStr "realm-admin") l)
            \/ (exists d, roles = JObj d
                          /\ Py.dict_get "realm-admin" d <> None)
            \/ (exists s, roles = JStr s
                          /\ PyStr.occurs "realm-admin" s)).
Proof.
  unfold Guard.is_superadmin, Py.dict_get_default. split.
  - destruct (Py.dict_get "realm_access" token_payload)
      as [[| | | | |ra]|] eqn:Hra; cbn [Py.get Py.bind]; try discriminate.
    unfold Py.dict_get_default.
    destruct (Py.dict_get "roles" ra) as [roles|] eqn:Hroles;
      [|discriminate].
    intros Hin. exists ra, roles. repeat split; auto.
    destruct roles as [| | |s|l|d]; cbn [Py.str_in] in Hin;
      try discriminate; injection Hin as Hin.
    + right. right. exists s. split; [reflexivity|].
      now apply contains_iff_occurs.
    + left. exists l. split; [reflexivity|]. now apply str_in_list_iff.
    + right. left. exists d. split; [reflexivity|].
      unfold Py.dict_mem in Hin.
      destruct (Py.dict_get "realm-admin" d); [discriminate | discriminate].
  - intros (ra & roles & -> & Hroles & Hcase). cbn [Py.get Py.bind].
    unfold Py.dict_get_default. rewrite Hroles.
    destruct Hcase as [(l & -> & Hin) | [(d & -> & Hin) | (s & -> & Hin)]];
      cbn [Py.str_in]; f_equal.
    + now apply str_in_list_iff.
    + unfold Py.dict_mem.
      destruct (Py.dict_get "realm-admin" d); [reflexivity | now elim Hin].
    + now apply contains_iff_occurs.
Qed.

(** C1 (as the code has it).  For every token payload the guard allows,
    [is_superadmin] returning [True] and [require_superadmin] returning,
    exactly when [realm_access] is a dict whose [roles] entry is a list
    with the element ["realm-admin"], a dict with the key ["realm-admin"],
    or a string that contains ["realm-admin"]; when [is_superadmin]
    returns [False], [require_superadmin] raises 403.  Where the path
    holds a role list (a missing [realm_access] or [roles] entry counting
    as the empty list), the guard allows exactly when the string
    ["realm-admin"] itself is an element of that list, and it denies with
    403 otherwise: an empty list denies, and an absent [realm_access] or
    [roles] entry makes the list empty.  The decision is a function of the
    payload alone: neither definition takes or returns the authority's
    state. *)
Theorem superadmin_allows_exactly_when_named (token_payload : dict) :
  (Guard.require_superadmin token_payload = Returned tt
   <-> Guard.is_superadmin token_payload = Returned true)
  /\ (Guard.is_superadmin token_payload = Returned true
      <-> exists realm_access roles,
            Py.dict_get "realm_access" token_payload = Some (JObj realm_access)
            /\ Py.dict_get "roles" realm_access = Some roles
            /\ ((exists l, roles = JArr l /\ In (JStr "realm-admin") l)
                \/ (exists d, roles = JObj d
                              /\ Py.dict_get "realm-admin" d <> None)
                \/ (exists s, roles = JStr s
                              /\ PyStr.occurs "realm-admin" s)))
  /\ (Guard.is_superadmin token_payload = Returned false ->
      Guard.require_superadmin token_payload
      = Raised (HTTPException 403 "Requires realm-admin role" None))
  /\ (forall roles,
        Guard.realm_roles token_payload = Some roles ->
        (Guard.is_superadmin token_payload = Returned true
         <-> In (JStr "realm-admin") roles)
        /\ (Guard.require_superadmin token_payload = Returned tt
            <-> In (JStr "realm-admin") roles)
        /\ (~ In (JStr "realm-admin") roles ->
            Guard.is_superadmin token_payload = Returned false
            /\ Guard.require_superadmin token_payload
               = Raised (HTTPException 403 "Requires realm-admin role" None))
        /\ (roles = [] ->
            Guard.is_superadmin token_payload = Returned false
            /\ Guard.require_superadmin token_payload
               = Raised (HTTPException 403 "Requires realm-admin role" None))
        /\ (Py.dict_get "realm_access" token_payload = None -> roles = [])
        /\ (forall realm_access,
              Py.dict_get "realm_access" token_payload
              = Some (JObj realm_access) ->
              Py.dict_get "roles" realm_access = None -> roles = [])).
Proof.
  split; [|split; [exact (is_superadmin_true_iff token_payload)|split]].
  { unfold Guard.require_superadmin.
    destruct (Guard.is_superadmin token_payload) as [[|]|e];
      cbv beta iota delta [Py.bind negb]; split; congruence. }
  { intros Hfalse. unfold Guard.require_superadmin. now rewrite Hfalse. }
  intros roles Hroles.
  pose proof (is_superadmin_on_role_list _ _ Hroles) as Hsa.
  pose proof (str_in_list_iff "realm-admin" roles) as Hin.
  assert (Hno_access : Py.dict_get "realm_access" token_payload = None ->
                       roles = []).
  { intros Hnone. unfold Guard.realm_roles in Hroles.
    rewrite Hnone in Hroles. now injection Hroles as <-. }
  assert (Hno_roles : forall realm_access,
             Py.dict_get "realm_access" token_payload
             = Some (JObj realm_access) ->
             Py.dict_get "roles" realm_access = None -> roles = []).
  { intros ra Hra Hnone. unfold Guard.realm_roles in Hroles.
    rewrite Hra, Hnone in Hroles. now injection Hroles as <-. }
  unfold Guard.require_superadmin. rewrite Hsa.
  cbv beta iota delta [Py.bind].
  destruct (existsb (Py.eq (JStr "realm-admin")) roles) eqn:E;
    cbv beta iota delta [negb].
  - assert (Hyes : In (JStr "realm-admin") roles) by now apply Hin.
    split; [now split|]. split; [now split|].
    split; [intros Hn; now elim Hn|].
    split; [intros ->; now elim Hyes|]. now split.
  - assert (Hno : ~ In (JStr "realm-admin") roles).
    { intros H. apply Hin in H. discriminate. }
    split; [split; [discriminate | intros H; now elim Hno]|].
    split; [split; [discriminate | intros H; now elim Hno]|].
    split; [now split|]. split; [now split|]. now split.
Qed.

(* ------------------------------------------------------------------ *)
(** ** Bearer prefix *)

Lemma replace_bearer_prefix (t : string) :
  PyStr.replace ("Bearer " ++ t) "Bearer " "" = PyStr.replace t "Bearer " "".
Proof.
  unfold PyStr.replace. rewrite PyStr.replace_ne_equation. simpl.
  repeat rewrite Ascii.eqb_refl.
  reflexivity.
Qed.

(** C10.  [verify_bearer_token] hands [decode_token] the header with every
    occurrence of ["Bearer "] removed, not only the leading one: for the
    header ["Bearer " ++ t] that is [t] with its occurrences deleted.  That
    string differs from [t] whenever [t] contains ["Bearer "], and equals
    [t] exactly when it does not. *)
Theorem bearer_prefix_removed_everywhere (t : string) :
  verify_bearer_token (Some ("Bearer " ++ t))
  = decode_token (PyStr.replace t "Bearer " "")
  /\ (PyStr.occurs "Bearer " t -> PyStr.replace t "Bearer " "" <> t)
  /\ (PyStr.replace t "Bearer " "" = t <-> ~ PyStr.occurs "Bearer " t).
Proof.
  assert (Hdiff : PyStr.occurs "Bearer " t ->
                  PyStr.replace t "Bearer " "" <> t).
  { intros Hocc Heq. unfold PyStr.replace in Heq.
    pose proof (replace_ne_delete_shorter _ _ _ Hocc) as L.
    rewrite Heq in L. lia. }
  split; [|split].
  - unfold verify_bearer_token.
    replace (String.eqb ("Bearer " ++ t) "") with false by reflexivity.
    rewrite startswith_append. simpl negb. cbv iota.
    now rewrite replace_bearer_prefix.
  - exact Hdiff.
  - split.
    + intros Heq Hocc. now apply Hdiff.
    + intros Hno. unfold PyStr.replace. now apply replace_ne_absent.
Qed.

(* ------------------------------------------------------------------ *)
(** ** Running the monad *)

Lemma bindM_returned {S A B} (m : M S A) (k : A -> M S B) s a s' :
  m s = (Returned a, s') -> bindM m k s = k a s'.
Proof. unfold bindM. now intros ->. Qed.

Lemma bindM_raised {S A B} (m : M S A) (k : A -> M S B) s e s' :
  m s = (Raised e, s') -> bindM m k s = (Raised e, s').
Proof. unfold bindM. now intros ->. Qed.

Lemma send_run (r : request) (st : state) :
  send r st
  = (match fst (authority r (remote st)) with
     | Reply resp => Returned resp
     | NoReply => Raised TransportError
     end,
     {| remote := snd (authority r (remote st));
        sent := (sent st ++ [r])%list |}).
Proof.
  unfold send. destruct (authority r (remote st)) as [[resp|] w']; reflexivity.
Qed.

Lemma send_reply (r : request) (st : state) (resp : response) (w' : W) :
  authority r (remote st) = (Reply resp, w') ->
  send r st = (Returned resp, {| remote := w'; sent := (sent st ++ [r])%list |}).
Proof. intros H. rewrite send_run, H. reflexivity. Qed.

(** [get_jwks] when the authority serves the key set. *)
Lemma get_jwks_served (st : state) (resp : response) (w' : W) (jwks : json) :
  authority (realm_request None GetCerts) (remote st) = (Reply resp, w') ->
  raises_for_status (status_code resp) = false ->
  body resp = Some jwks ->
  get_jwks st
  = (Returned jwks,
     {| remote := w';
        sent := (sent st ++ [realm_request None GetCerts])%list |}).
Proof.
  intros Hrep Hok Hbody. unfold get_jwks.
  rewrite (bindM_returned _ _ _ _ _ (send_reply _ _ _ _ Hrep)).
  unfold bindM, lift, raise_for_status, response_json.
  now rewrite Hok, Hbody.
Qed.

(** [get_jwks] performs one exchange, whatever comes of it. *)
Lemma get_jwks_sent (st : state) :
  sent (snd (get_jwks st))
  = (sent st ++ [realm_request None GetCerts])%list.
Proof.
  unfold get_jwks, bindM, lift. rewrite send_run.
  destruct (fst (authority _ _)) as [resp|]; [|reflexivity].
  destruct (raise_for_status resp); reflexivity.
Qed.

(* ------------------------------------------------------------------ *)
(** ** Key resolution *)

Lemma find_rsa_key_no_match (keys : list json) (header : dict) (kid : json) :
  Py.dict_get "kid" header = Some kid ->
  Forall (fun key => exists k, Py.getitem key "kid" = Returned k
                               /\ Py.eq k kid = false) keys ->
  find_rsa_key keys header = Returned [].
Proof.
  intros Hkid. induction 1 as [|key keys (k & Hk & Hne) _ IH]; simpl.
  - reflexivity.
  - rewrite Hk. cbn [Py.bind Py.getitem]. rewrite Hkid.
    cbn [Py.bind]. now rewrite Hne.
Qed.

(** What [decode_token] does once the key has been selected: the outcome
    is that of [jwt.decode], with a [JWTError] turned into a 401. *)
Lemma decode_token_resolved (token : string) (st st' : state) (rsa_key : dict) :
  key_resolves token st rsa_key st' ->
  decode_token token st
  = (match jwt_decode token rsa_key [jwt_algorithm settings]
                      (Some (keycloak_client_id settings)) decode_options with
     | Returned claims => Returned claims
     | Raised e => if is_JWTError e
                   then Raised (HTTPException 401 "Invalid token: " (Some e))
                   else Raised e
     end, st').
Proof.
  intros (jwks & t & keys & Hjwks & Hload & Hkeys & Hfind & Hne).
  unfold decode_token, try_except.
  rewrite (bindM_returned _ _ _ _ _ Hjwks).
  unfold jwt_get_unverified_header. rewrite Hload.
  unfold bindM, lift, raise. rewrite Hkeys, Hfind.
  destruct rsa_key as [|kv rest]; [now elim Hne|]. cbn [Py.truthy negb].
  destruct (jwt_decode _ _ _ _ _) as [claims|e]; [reflexivity|].
  destruct (is_JWTError e); reflexivity.
Qed.

(** C4.  When the authority serves its key set and the key-id that the
    token declares equals the key-id of none of its keys, [decode_token]
    fails with 401 "Unable to find appropriate key", and the failed
    verification has sent exactly one request, the fetch of the key set:
    not none, not a second one. *)
Theorem unknown_kid_rejected_after_one_fetch
    (token : string) (t : jws) (kid : json) (st : state)
    (resp : response) (w' : W) (jwks : json) (keys : list json) :
  authority (realm_request None GetCerts) (remote st) = (Reply resp, w') ->
  raises_for_status (status_code resp) = false ->
  body resp = Some jwks ->
  Py.getitem jwks "keys" = Returned (JArr keys) ->
  jws_load token = Some t ->
  Py.dict_get "kid" (jws_header t) = Some kid ->
  Forall (fun key => exists k, Py.getitem key "kid" = Returned k
                               /\ Py.eq k kid = false) keys ->
  decode_token token st
  = (Raised (HTTPException 401 "Unable to find appropriate key" None),
     {| remote := w';
        sent := (sent st ++ [realm_request None GetCerts])%list |})
  /\ List.length (filter is_certs_call (sent (snd (decode_token token st))))
     = S (List.length (filter is_certs_call (sent st))).
Proof.
  intros Hrep Hok Hbody Hkeys Hload Hkid Hnone.
  assert (Hrun : decode_token token st
    = (Raised (HTTPException 401 "Unable to find appropriate key" None),
       {| remote := w';
          sent := (sent st ++ [realm_request None GetCerts])%list |})).
  { unfold decode_token, try_except.
    rewrite (bindM_returned _ _ _ _ _ (get_jwks_served _ _ _ _ Hrep Hok Hbody)).
    unfold jwt_get_unverified_header. rewrite Hload.
    unfold bindM, lift, raise. rewrite Hkeys. cbn [Py.bind Py.iter].
    rewrite (find_rsa_key_no_match _ _ _ Hkid Hnone). reflexivity. }
  split; [exact Hrun|].
  rewrite Hrun. cbn [snd sent]. rewrite filter_app, length_app.
  simpl. lia.
Qed.

(* ------------------------------------------------------------------ *)
(** ** Algorithm allow-list *)

Lemma eq_to_str_iff (v : json) (s : string) :
  Py.eq v (JStr s) = true <-> v = JStr s.
Proof.
  destruct v; simpl; try (split; discriminate).
  rewrite String.eqb_eq. split; [now intros -> | now intros [= ->]].
Qed.

(** The signature step stops at the allow-list: no key is tried. *)
Lemma jws_verify_signature_outside_allow_list
    (token : string) (header key : dict) (allowed : string) :
  Py.dict_get "alg" header <> Some (JStr allowed) ->
  jws_verify_signature token header key [allowed] = Raised (JWTError NoAlgorithm)
  \/ jws_verify_signature token header key [allowed]
     = Raised (JWTError AlgNotAllowed).
Proof.
  intros Hne. unfold jws_verify_signature, Py.dict_get_default.
  destruct (Py.dict_get "alg" header) as [alg|]; [|now left].
  destruct (Py.truthy alg); [|now left]. right. cbn [negb existsb].
  destruct (Py.eq alg (JStr allowed)) eqn:E; [|reflexivity].
  apply eq_to_str_iff in E. subst alg. now elim Hne.
Qed.

Lemma jwt_decode_outside_allow_list
    (token : string) (key : dict) (allowed : string)
    (audience : option string) :
  declared_alg token <> Some (JStr allowed) ->
  exists why,
    jwt_decode token key [allowed] audience decode_options
    = Raised (JWTError why)
    /\ (jws_load token <> None -> why = NoAlgorithm \/ why = AlgNotAllowed).
Proof.
  unfold declared_alg, jwt_decode. intros Hne.
  destruct (jws_load token) as [t|].
  - cbn [Py.bind decode_options update_verify_aud verify_signature
         jose_defaults when].
    destruct (jws_verify_signature_outside_allow_list
                token (jws_header t) key allowed Hne) as [-> | ->].
    + exists NoAlgorithm. split; [reflexivity | now left].
    + exists AlgNotAllowed. split; [reflexivity | now right].
  - exists TokenUndecodable. split; [reflexivity | intros H; now elim H].
Qed.

(** If [jwt.decode] rejects the token under every key, [decode_token]
    returns no payload, whatever the authority answers. *)
Lemma decode_token_never_returns (token : string) :
  (forall key, exists e,
      jwt_decode token key [jwt_algorithm settings]
                 (Some (keycloak_client_id settings)) decode_options
      = Raised e) ->
  forall st claims, fst (decode_token token st) <> Returned claims.
Proof.
  intros Hrej st claims. unfold decode_token, try_except, bindM, lift, raise.
  destruct (get_jwks st) as [[jwks|e] st1];
    [|destruct (is_JWTError e); discriminate].
  destruct (jwt_get_unverified_header token) as [header|e];
    [|destruct (is_JWTError e); discriminate].
  destruct (Py.bind (Py.getitem jwks "keys") _) as [keys|e];
    [|destruct (is_JWTError e); discriminate].
  destruct (find_rsa_key keys header) as [rsa_key|e];
    [|destruct (is_JWTError e); discriminate].
  destruct (negb (Py.truthy (JObj rsa_key))); [discriminate|].
  destruct (Hrej rsa_key) as (e & ->).
  destruct (is_JWTError e); discriminate.
Qed.

(** C3.  A token whose declared algorithm is not the configured
    [settings.jwt_algorithm] (the only entry of the allow-list handed to
    [jwt.decode]) is never accepted: from every state [decode_token]
    raises instead of returning a payload.  When the key set does hold a
    key with the token's key-id, so that a key is selected, the failure is
    the 401 "Invalid token" for the missing or disallowed algorithm; the
    signature check is not reached, so it holds whatever that check would
    answer. *)
Theorem disallowed_algorithm_never_accepted (token : string) (st : state) :
  declared_alg token <> Some (JStr (jwt_algorithm settings)) ->
  (forall claims, fst (decode_token token st) <> Returned claims)
  /\ (forall rsa_key st',
        key_resolves token st rsa_key st' ->
        exists why,
          decode_token token st
          = (Raised (HTTPException 401 "Invalid token: "
                                   (Some (JWTError why))), st')
          /\ (why = NoAlgorithm \/ why = AlgNotAllowed)).
Proof.
  intros Hne. split.
  - apply decode_token_never_returns. intros key.
    destruct (jwt_decode_outside_allow_list token key _
                (Some (keycloak_client_id settings)) Hne) as (why & -> & _).
    now exists (JWTError why).
  - intros rsa_key st' Hres.
    rewrite (decode_token_resolved _ _ _ _ Hres).
    destruct (jwt_decode_outside_allow_list token rsa_key _
                (Some (keycloak_client_id settings)) Hne) as (why & -> & Hwhy).
    exists why. split; [reflexivity|]. apply Hwhy.
    destruct Hres as (_ & t & _ & _ & -> & _). discriminate.
Qed.

(* ------------------------------------------------------------------ *)
(** ** Expiry *)

(** The claim checks that run under the options of [decode_token]: the
    audience check is not among them. *)
Lemma validate_claims_decode_options (claims : dict) (audience : option string) :
  validate_claims claims audience decode_options
  = (validate_iat claims ;;
     validate_nbf claims 0 ;;
     validate_exp claims 0 ;;
     Returned tt ;;
     validate_str_claim claims "sub" SubjectNotString ;;
     validate_str_claim claims "jti" JtiNotString ;;
     validate_at_hash claims)%outcome.
Proof. reflexivity. Qed.

(** An expired [exp] claim makes [jwt.decode] raise, at the latest in the
    expiry check. *)
Lemma jwt_decode_expired (token : string) (t : jws) (claims : dict) (exp : Z)
    (key : dict) (algorithms : list string) (audience : option string) :
  jws_load token = Some t ->
  jws_payload t = Some (JObj claims) ->
  int_claim claims "exp" ExpNotInteger = Returned (Some exp) ->
  (exp < now)%Z ->
  exists e, jwt_decode token key algorithms audience decode_options = Raised e.
Proof.
  intros Hload Hpay Hexp Hlt. unfold jwt_decode. rewrite Hload.
  cbn [Py.bind]. change (verify_signature decode_options) with true.
  cbn [when].
  rewrite Hpay.
  destruct (jws_verify_signature _ _ _ _) as [[]|e]; [|now exists e].
  destruct (Py.getitem _ "alg") as [alg|e]; [|now exists e].
  cbn [Py.bind]. rewrite validate_claims_decode_options. cbn [Py.bind].
  destruct (validate_iat claims) as [[]|e]; [|now exists e].
  destruct (validate_nbf claims 0) as [[]|e]; [|now exists e].
  unfold validate_exp. rewrite Hexp. cbn [Py.bind].
  rewrite Z.sub_0_r. rewrite (proj2 (Z.ltb_lt exp now) Hlt).
  now exists (JWTError SignatureExpired).
Qed.

(** A token that passes the signature step, has sound [iat] and [nbf]
    claims and an expired [exp] claim is rejected as expired. *)
Lemma jwt_decode_expired_after_signature
    (token : string) (t : jws) (claims : dict) (exp : Z)
    (key : dict) (algorithms : list string) (audience : option string) :
  jws_load token = Some t ->
  jws_payload t = Some (JObj claims) ->
  int_claim claims "exp" ExpNotInteger = Returned (Some exp) ->
  (exp < now)%Z ->
  jws_verify_signature token (jws_header t) key algorithms = Returned tt ->
  validate_iat claims = Returned tt ->
  validate_nbf claims 0 = Returned tt ->
  jwt_decode token key algorithms audience decode_options
  = Raised (JWTError SignatureExpired).
Proof.
  intros Hload Hpay Hexp Hlt Hsig Hiat Hnbf. unfold jwt_decode.
  rewrite Hload.
  cbn [Py.bind]. change (verify_signature decode_options) with true.
  cbn [when].
  rewrite Hpay.
  rewrite Hsig. cbn [Py.bind].
  assert (Halg : exists alg, Py.getitem (JObj (jws_header t)) "alg"
                             = Returned alg).
  { unfold jws_verify_signature, Py.dict_get_default in Hsig.
    cbn [Py.getitem].
    destruct (Py.dict_get "alg" (jws_header t)) as [alg|];
      [now exists alg | discriminate]. }
  destruct Halg as (alg & ->). cbn [Py.bind].
  cbn [Py.bind]. rewrite validate_claims_decode_options. cbn [Py.bind].
  rewrite Hiat, Hnbf. cbn [Py.bind].
  unfold validate_exp. rewrite Hexp. cbn [Py.bind].
  rewrite Z.sub_0_r. now rewrite (proj2 (Z.ltb_lt exp now) Hlt).
Qed.

(** A token that fails the signature step is rejected for that, whatever
    its claims say. *)
Lemma jwt_decode_signature_first
    (token : string) (t : jws) (key : dict) (algorithms : list string)
    (audience : option string) (e : exn) :
  jws_load token = Some t ->
  jws_verify_signature token (jws_header t) key algorithms = Raised e ->
  jwt_decode token key algorithms audience decode_options = Raised e.
Proof.
  intros Hload Hsig. unfold jwt_decode. rewrite Hload.
  cbn [Py.bind]. change (verify_signature decode_options) with true.
  cbn [when].
  now rewrite Hsig.
Qed.

(** C5 (as the code has it).  A token whose [exp] claim lies before the
    current time (the leeway is 0) is never accepted by [decode_token],
    whether or not its signature verifies.  The failure is the Expired
    one, 401 "Invalid token" from [ExpiredSignatureError], when a key is
    selected and the token passes the signature step and the [iat] and
    [nbf] checks; a token that fails the signature step is rejected with
    the signature step's error instead, its expiry never being looked
    at. *)
Theorem expired_token_rejected
    (token : string) (t : jws) (claims : dict) (exp : Z) (st : state) :
  jws_load token = Some t ->
  jws_payload t = Some (JObj claims) ->
  int_claim claims "exp" ExpNotInteger = Returned (Some exp) ->
  (exp < now)%Z ->
  (forall c, fst (decode_token token st) <> Returned c)
  /\ (forall rsa_key st',
        key_resolves token st rsa_key st' ->
        jws_verify_signature token (jws_header t) rsa_key
                             [jwt_algorithm settings] = Returned tt ->
        validate_iat claims = Returned tt ->
        validate_nbf claims 0 = Returned tt ->
        decode_token token st
        = (Raised (HTTPException 401 "Invalid token: "
                                 (Some (JWTError SignatureExpired))), st'))
  /\ (forall rsa_key st' why,
        key_resolves token st rsa_key st' ->
        jws_verify_signature token (jws_header t) rsa_key
                             [jwt_algorithm settings]
        = Raised (JWTError why) ->
        decode_token token st
        = (Raised (HTTPException 401 "Invalid token: "
                                 (Some (JWTError why))), st')).
Proof.
  intros Hload Hpay Hexp Hlt. split; [|split].
  - apply decode_token_never_returns. intros key.
    exact (jwt_decode_expired token t claims exp key _ _ Hload Hpay Hexp Hlt).
  - intros rsa_key st' Hres Hsig Hiat Hnbf.
    rewrite (decode_token_resolved _ _ _ _ Hres).
    now rewrite (jwt_decode_expired_after_signature
                   token t claims exp rsa_key _ _
                   Hload Hpay Hexp Hlt Hsig Hiat Hnbf).
  - intros rsa_key st' why Hres Hsig.
    rewrite (decode_token_resolved _ _ _ _ Hres).
    now rewrite (jwt_decode_signature_first token t rsa_key _ _ _ Hload Hsig).
Qed.

(* ------------------------------------------------------------------ *)
(** ** Audience *)

(** Case analysis on a scrutinee that contains no further [match]. *)
Ltac destruct_innermost :=
  match goal with
  | |- context [match ?x with _ => _ end] =>
      lazymatch x with
      | context [match _ with _ => _ end] => fail
      | _ => destruct x
      end
  end.

(** Under the options of [decode_token] the audience argument of
    [jwt.decode] is never looked at. *)
Lemma jwt_decode_ignores_audience
    (token : string) (key : dict) (algorithms : list string)
    (a1 a2 : option string) :
  jwt_decode token key algorithms a1 decode_options
  = jwt_decode token key algorithms a2 decode_options.
Proof. reflexivity. Qed.

(** ... and no rejection is about the audience. *)
Lemma jwt_decode_no_audience_error
    (token : string) (key : dict) (algorithms : list string)
    (audience : option string) (why : jose_reason) :
  jwt_decode token key algorithms audience decode_options
  = Raised (JWTError why) ->
  why <> InvalidAudience /\ why <> AudienceMalformed.
Proof.
  unfold jwt_decode. destruct (jws_load token) as [t|]; cbn [Py.bind].
  2: { intros [= <-]. split; discriminate. }
  change (verify_signature decode_options) with true. cbn [when].
  destruct (jws_verify_signature _ _ _ _) as [[]|e] eqn:Hsig; cbn [Py.bind].
  2: { intros [= ->]. revert Hsig. unfold jws_verify_signature.
       repeat destruct_innermost; intros [= <-]; split; discriminate. }
  destruct (Py.getitem _ "alg") as [alg|e] eqn:Halg; cbn [Py.bind].
  2: { intros [= ->]. revert Halg. unfold Py.getitem.
       repeat destruct_innermost; discriminate. }
  destruct (jws_payload t) as [[| | | | |claims]|]; cbn [Py.bind];
    try (intros [= <-]; split; discriminate).
  rewrite validate_claims_decode_options.
  unfold validate_iat, validate_nbf, validate_exp, int_claim, py_int,
    validate_str_claim, validate_at_hash.
  repeat destruct_innermost; cbn [Py.bind];
    repeat destruct_innermost; cbn [Py.bind];
    try discriminate; intros [= <-]; split; discriminate.
Qed.

(** What the steps before [jwt.decode] raise is an exception of Python
    or [httpx], the undecodable header apart; [decode_token] lets it
    through unchanged. *)
Lemma plain_error_not_caught (e : exn) :
  plain_error e = true -> is_JWTError e = false.
Proof. destruct e; simpl; congruence. Qed.

Lemma get_jwks_raises_plain (st st1 : state) (e : exn) :
  get_jwks st = (Raised e, st1) -> plain_error e = true.
Proof.
  unfold get_jwks, bindM, lift. rewrite send_run.
  unfold raise_for_status, response_json.
  repeat destruct_innermost; intros [= <- _]; reflexivity.
Qed.

Lemma getitem_raises_plain (v : json) (k : string) (e : exn) :
  Py.getitem v k = Raised e -> plain_error e = true.
Proof.
  unfold Py.getitem. repeat destruct_innermost; intros [= <-]; reflexivity.
Qed.

Lemma iter_raises_plain (v : json) (e : exn) :
  Py.iter v = Raised e -> plain_error e = true.
Proof. destruct v; simpl; intros [= <-]; reflexivity. Qed.

Lemma find_rsa_key_raises_plain (keys : list json) (header : dict) (e : exn) :
  find_rsa_key keys header = Raised e -> plain_error e = true.
Proof.
  induction keys as [|key keys IH]; cbn [find_rsa_key]; [discriminate|].
  repeat match goal with
         | |- context [Py.bind (Py.getitem ?v ?k) _] =>
             let E := fresh "E" in
             destruct (Py.getitem v k) eqn:E; cbn [Py.bind];
             [| intros [= <-]; exact (getitem_raises_plain _ _ _ E)]
         end.
  destruct (Py.eq _ _); [|exact IH].
  repeat match goal with
         | |- context [Py.bind (Py.getitem ?v ?k) _] =>
             let E := fresh "E" in
             destruct (Py.getitem v k) eqn:E; cbn [Py.bind];
             [| intros [= <-]; exact (getitem_raises_plain _ _ _ E)]
         end.
  discriminate.
Qed.

(** [decode_token] never reports an audience problem. *)
Lemma decode_token_no_audience_error
    (token : string) (st : state) (why : jose_reason) :
  fst (decode_token token st)
  = Raised (HTTPException 401 "Invalid token: " (Some (JWTError why))) ->
  why <> InvalidAudience /\ why <> AudienceMalformed.
Proof.
  assert (Hplain : forall e, plain_error e = true ->
            (if is_JWTError e
             then Raised (HTTPException 401 "Invalid token: " (Some e))
             else @Raised dict e)
            = Raised (HTTPException 401 "Invalid token: "
                                    (Some (JWTError why))) -> False).
  { intros e He. rewrite (plain_error_not_caught _ He).
    intros [= ->]. discriminate. }
  unfold decode_token, try_except, bindM, lift, raise.
  destruct (get_jwks st) as [[jwks|e] st1] eqn:Hjwks.
  2: { destruct (is_JWTError e) eqn:Hc; cbn [fst]; intros H; exfalso;
       apply (Hplain e (get_jwks_raises_plain _ _ _ Hjwks));
       now rewrite Hc. }
  unfold jwt_get_unverified_header.
  destruct (jws_load token) as [t|]; cbn [is_JWTError fst].
  2: { intros [= <-]. split; discriminate. }
  destruct (Py.getitem jwks "keys") as [ks|e] eqn:Hks; cbn [Py.bind].
  2: { destruct (is_JWTError e) eqn:Hc; cbn [fst]; intros H; exfalso;
       apply (Hplain e (getitem_raises_plain _ _ _ Hks));
       now rewrite Hc. }
  destruct (Py.iter ks) as [keys|e] eqn:Hkeys.
  2: { destruct (is_JWTError e) eqn:Hc; cbn [fst]; intros H; exfalso;
       apply (Hplain e (iter_raises_plain _ _ Hkeys));
       now rewrite Hc. }
  destruct (find_rsa_key keys (jws_header t)) as [rsa_key|e] eqn:Hfind.
  2: { destruct (is_JWTError e) eqn:Hc; cbn [fst]; intros H; exfalso;
       apply (Hplain e (find_rsa_key_raises_plain _ _ _ Hfind));
       now rewrite Hc. }
  destruct (negb (Py.truthy (JObj rsa_key))); cbn [fst]; [discriminate|].
  destruct (jwt_decode _ _ _ _ _) as [claims|e] eqn:Hdec; [discriminate|].
  destruct e; cbn [is_JWTError fst]; try discriminate.
  - intros [= <-]. exact (jwt_decode_no_audience_error _ _ _ _ _ Hdec).
  - intros [= -> -> ->]. exfalso. revert Hdec. clear.
    unfold jwt_decode. destruct (jws_load token) as [t|]; cbn [Py.bind];
      [|discriminate].
    change (verify_signature decode_options) with true. cbn [when].
    unfold jws_verify_signature.
    repeat (destruct_innermost; cbn [Py.bind]); try discriminate.
    all: unfold Py.getitem; repeat (destruct_innermost; cbn [Py.bind]);
      try discriminate.
    all: rewrite validate_claims_decode_options;
      unfold validate_iat, validate_nbf, validate_exp, int_claim, py_int,
        validate_str_claim, validate_at_hash;
      repeat (destruct_innermost; cbn [Py.bind]); discriminate.
Qed.

(* ------------------------------------------------------------------ *)
(** ** What an operation sends *)

Lemma sends_only_ret {A} (P : request -> bool) (a : A) :
  sends_only P (ret a).
Proof. intros st. exists []. now rewrite app_nil_r. Qed.

Lemma sends_only_raise {A} (P : request -> bool) (e : exn) :
  sends_only P (@raise state A e).
Proof. intros st. exists []. now rewrite app_nil_r. Qed.

Lemma sends_only_lift {A} (P : request -> bool) (o : outcome A) :
  sends_only P (lift o).
Proof. intros st. exists []. now rewrite app_nil_r. Qed.

Lemma sends_only_send (P : request -> bool) (r : request) :
  P r = true -> sends_only P (send r).
Proof.
  intros HP st. exists [r]. rewrite send_run. simpl. now rewrite HP.
Qed.

Lemma sends_only_bind {A B} (P : request -> bool)
    (m : M state A) (k : A -> M state B) :
  sends_only P m -> (forall a, sends_only P (k a)) ->
  sends_only P (bindM m k).
Proof.
  intros Hm Hk st. unfold bindM.
  destruct (Hm st) as (l1 & E1 & F1).
  destruct (m st) as [[a|e] st1]; cbn [snd] in E1.
  - destruct (Hk a st1) as (l2 & E2 & F2). exists (l1 ++ l2)%list.
    rewrite E2, E1, app_assoc, forallb_app, F1, F2. now split.
  - exists l1. now split.
Qed.

Lemma sends_only_try_except {A} (P : request -> bool)
    (m : M state A) (caught : exn -> bool) (h : exn -> M state A) :
  sends_only P m -> (forall e, sends_only P (h e)) ->
  sends_only P (try_except m caught h).
Proof.
  intros Hm Hh st. unfold try_except.
  destruct (Hm st) as (l1 & E1 & F1).
  destruct (m st) as [[a|e] st1]; cbn [snd] in E1.
  - exists l1. now split.
  - destruct (caught e).
    + destruct (Hh e st1) as (l2 & E2 & F2). exists (l1 ++ l2)%list.
      rewrite E2, E1, app_assoc, forallb_app, F1, F2. now split.
    + exists l1. now split.
Qed.

Lemma sends_only_if {A} (P : request -> bool) (b : bool) (m1 m2 : M state A) :
  sends_only P m1 -> sends_only P m2 -> sends_only P (if b then m1 else m2).
Proof. now destruct b. Qed.

Create HintDb sends.
#[local] Hint Resolve sends_only_ret sends_only_raise sends_only_lift
  sends_only_bind sends_only_try_except sends_only_if : sends.
#[local] Hint Extern 2 (sends_only _ (send _)) =>
  apply sends_only_send; reflexivity : sends.
#[local] Hint Extern 4 (sends_only _ (match ?x with _ => _ end)) =>
  destruct x : sends.

(** [_admin_token] performs one exchange, the token request, whatever
    comes of it. *)
Lemma admin_token_run (st : state) :
  exists o,
    _admin_token st
    = (o, {| remote := snd (authority admin_token_request (remote st));
             sent := (sent st ++ [admin_token_request])%list |}).
Proof.
  unfold _admin_token, bindM, lift. rewrite send_run.
  destruct (fst (authority _ _)) as [r|]; [|eauto].
  destruct (raise_for_status r) as [[]|e]; [|eauto].
  eauto.
Qed.

(** An operation that begins with [_admin_headers()] and then sends no
    token request fetches a fresh token, once. *)
Lemma fetches_fresh_token_bind {A} (k : json -> M state A) :
  (forall headers, sends_only not_admin_token_call (k headers)) ->
  fetches_fresh_token (bindM _admin_headers k).
Proof.
  intros Hk st. unfold bindM, _admin_headers.
  destruct (admin_token_run st) as (o & ->).
  destruct o as [headers|e].
  - destruct (Hk headers {| remote := snd (authority admin_token_request
                                                     (remote st));
                            sent := (sent st ++ [admin_token_request])%list |})
      as (l & E & F).
    exists l. rewrite E. cbn [sent]. rewrite <- app_assoc. now split.
  - exists []. now split.
Qed.

Lemma fetch_roles_sends (P : request -> bool) (headers : json)
    (role_names : list string) (roles : list json) :
  (forall n, P (realm_request (Some headers) (GetRole n)) = true) ->
  sends_only P (fetch_roles headers role_names roles).
Proof.
  intros HP. revert roles.
  induction role_names as [|n rest IH]; intros roles; cbn [fetch_roles].
  - auto with sends.
  - destruct (String.eqb n ""); [apply IH|].
    apply sends_only_bind; [|intros; apply IH].
    apply sends_only_try_except; [|auto with sends].
    apply sends_only_bind; [apply sends_only_send, HP|].
    intros r. auto 6 with sends.
Qed.

(* ------------------------------------------------------------------ *)
(** ** The admin credential *)

Lemma filter_token_calls_of_others (l : list request) :
  forallb not_admin_token_call l = true ->
  filter is_admin_token_call l = [].
Proof.
  induction l as [|r l IH]; simpl; [reflexivity|].
  unfold not_admin_token_call at 1.
  destruct (is_admin_token_call r); simpl; [discriminate | exact IH].
Qed.

Lemma fetches_fresh_token_count {A} (m : M state A) (st : state) :
  fetches_fresh_token m ->
  List.length (filter is_admin_token_call (sent (snd (m st))))
  = S (List.length (filter is_admin_token_call (sent st))).
Proof.
  intros Hm. destruct (Hm st) as (rest & -> & Hrest).
  rewrite filter_app. cbn [filter].
  change (is_admin_token_call admin_token_request) with true. cbn iota.
  rewrite (filter_token_calls_of_others _ Hrest), length_app. simpl. lia.
Qed.

(* ------------------------------------------------------------------ *)
(** ** The steps of user creation *)

Lemma sends_only_weaken {A} (P Q : request -> bool) (m : M state A) :
  (forall r, P r = true -> Q r = true) ->
  sends_only P m -> sends_only Q m.
Proof.
  intros HPQ Hm st. destruct (Hm st) as (l & E & F). exists l.
  split; [exact E|]. rewrite forallb_forall in *. auto.
Qed.

Lemma sends_only_run {A} (P : request -> bool) (m : M state A)
    (st st' : state) (o : outcome A) :
  sends_only P m -> m st = (o, st') ->
  exists l, sent st' = (sent st ++ l)%list /\ forallb P l = true.
Proof. intros Hm Hrun. specialize (Hm st). now rewrite Hrun in Hm. Qed.

Lemma create_user_sends (username email first_name last_name : string)
    (enabled email_verified : bool) (attributes : option dict) :
  sends_only is_user_step_call
    (create_user username email first_name last_name enabled email_verified
                 attributes).
Proof. unfold create_user, _admin_headers, _admin_token. auto 10 with sends. Qed.

Lemma create_user_of_sends (user : UserCreateRequest) :
  sends_only is_user_step_call (create_user_of user).
Proof. apply create_user_sends. Qed.

Lemma set_user_password_sends (user_id : json) (password : string)
    (temporary : bool) :
  sends_only is_user_step_call (set_user_password user_id password temporary).
Proof.
  unfold set_user_password, _admin_headers, _admin_token.
  auto 10 with sends.
Qed.

Lemma assign_roles_sends (user_id : json) (role_names : list string) :
  sends_only not_user_mutation (assign_roles_to_user user_id role_names).
Proof.
  unfold assign_roles_to_user, _admin_headers, _admin_token.
  destruct role_names as [|n rest]; [auto with sends|].
  apply sends_only_bind; [auto 10 with sends|]. intros headers.
  apply sends_only_bind; [now apply fetch_roles_sends|].
  intros [|r roles]; auto 8 with sends.
Qed.

Lemma user_step_call_not_role_or_group (r : request) :
  is_user_step_call r = true -> not_role_or_group_call r = true.
Proof.
  unfold is_user_step_call, not_role_or_group_call, is_role_or_group_call.
  now destruct (req_call r).
Qed.


Lemma require_superadmin_passes (token : dict) :
  Guard.is_superadmin token = Returned true ->
  Guard.require_superadmin token = Returned tt.
Proof. unfold Guard.require_superadmin. now intros ->. Qed.

(** The endpoint once the guard has passed. *)
Lemma route_create_user_guarded (user : UserCreateRequest) (token : dict)
    (st : state) :
  Guard.is_superadmin token = Returned true ->
  route_create_user user token st
  = match create_user_steps user st with
    | (Returned answer, st') => (Returned answer, st')
    | (Raised e, st') => (Raised (failed_to_create e), st')
    end.
Proof.
  intros Hadmin. unfold route_create_user, bindM, lift, try_except.
  rewrite (require_superadmin_passes _ Hadmin).
  destruct (create_user_steps user st) as [[answer|e] st']; reflexivity.
Qed.

(** C2 (as the code has it).  In [POST /users], for a caller the guard
    lets through: if creating the user raises, or setting the password
    raises, the endpoint raises 500 "Failed to create user" with that
    error, and nothing of the role step or the group step has been sent to
    the authority.  If the role step raises, the endpoint raises the same
    500, and does not return the user id; what it has sent after the
    password was set creates no user and sets no password, and the
    authority is left as the role step left it, so the user and the
    password stay. *)
Theorem create_user_failure_policy
    (user : UserCreateRequest) (token : dict) (st : state) :
  Guard.is_superadmin token = Returned true ->
  (forall e st1,
      create_user_of user st = (Raised e, st1) ->
      route_create_user user token st = (Raised (failed_to_create e), st1)
      /\ exists l, sent st1 = (sent st ++ l)%list
                   /\ forallb not_role_or_group_call l = true)
  /\ (forall user_id st1 e st2,
        create_user_of user st = (Returned user_id, st1) ->
        set_user_password user_id (uc_password user) false st1
        = (Raised e, st2) ->
        route_create_user user token st = (Raised (failed_to_create e), st2)
        /\ exists l, sent st2 = (sent st ++ l)%list
                     /\ forallb not_role_or_group_call l = true)
  /\ (forall user_id st1 st2 role roles e st3,
        create_user_of user st = (Returned user_id, st1) ->
        set_user_password user_id (uc_password user) false st1
        = (Returned tt, st2) ->
        uc_roles user = Some (role :: roles) ->
        assign_roles_to_user user_id (role :: roles) st2 = (Raised e, st3) ->
        route_create_user user token st = (Raised (failed_to_create e), st3)
        /\ exists l, sent st3 = (sent st2 ++ l)%list
                     /\ forallb not_user_mutation l = true).
Proof.
  intros Hadmin. split; [|split].
  - intros e st1 Hcreate. split.
    + rewrite (route_create_user_guarded _ _ _ Hadmin).
      unfold create_user_steps. fold (create_user_of user).
      now rewrite (bindM_raised _ _ _ _ _ Hcreate).
    + apply (sends_only_run _ _ _ _ _
               (sends_only_weaken _ _ _ user_step_call_not_role_or_group
                  (create_user_of_sends user)) Hcreate).
  - intros user_id st1 e st2 Hcreate Hpw. split.
    + rewrite (route_create_user_guarded _ _ _ Hadmin).
      unfold create_user_steps. fold (create_user_of user).
      rewrite (bindM_returned _ _ _ _ _ Hcreate).
      now rewrite (bindM_raised _ _ _ _ _ Hpw).
    + destruct (sends_only_run _ _ _ _ _
                  (sends_only_weaken _ _ _ user_step_call_not_role_or_group
                     (create_user_of_sends user)) Hcreate)
        as (l1 & E1 & F1).
      destruct (sends_only_run _ _ _ _ _
                  (sends_only_weaken _ _ _ user_step_call_not_role_or_group
                     (set_user_password_sends _ _ _)) Hpw)
        as (l2 & E2 & F2).
      exists (l1 ++ l2)%list.
      rewrite E2, E1, app_assoc, forallb_app, F1, F2. now split.
  - intros user_id st1 st2 role roles e st3 Hcreate Hpw Hroles Hassign. split.
    + rewrite (route_create_user_guarded _ _ _ Hadmin).
      unfold create_user_steps. fold (create_user_of user).
      rewrite (bindM_returned _ _ _ _ _ Hcreate).
      rewrite (bindM_returned _ _ _ _ _ Hpw).
      rewrite Hroles.
      now rewrite (bindM_raised _ _ _ _ _ Hassign).
    + exact (sends_only_run _ _ _ _ _ (assign_roles_sends _ _) Hassign).
Qed.

(* ------------------------------------------------------------------ *)
(** ** Role names that do not resolve *)



(** A lookup that answers 200 with a JSON body adds that body. *)
Lemma fetch_roles_takes_hit (headers : json) (role_name : string)
    (rest : list string) (roles : list json) (st : state)
    (r : response) (role : json) :
  role_name <> "" ->
  role_lookup_reply headers role_name st = Reply r ->
  status_code r = 200%Z ->
  body r = Some role ->
  fetch_roles headers (role_name :: rest) roles st
  = fetch_roles headers rest (roles ++ [role])%list
                (after_role_lookup headers role_name st).
Proof.
  intros Hname Hrep Hstatus Hbody. cbn [fetch_roles].
  rewrite (proj2 (String.eqb_neq role_name "") Hname).
  unfold bindM at 1. unfold try_except, bindM. rewrite send_run.
  unfold role_lookup_reply in Hrep.
  fold (after_role_lookup headers role_name st).
  rewrite Hrep, Hstatus. unfold lift, response_json. now rewrite Hbody.
Qed.



(* ------------------------------------------------------------------ *)
(** ** Idempotent creation *)













(* ------------------------------------------------------------------ *)
(** ** Token verification, whatever the token *)

(** [get_jwks] leaves the state the one exchange produced. *)
Lemma get_jwks_state (st : state) :
  snd (get_jwks st)
  = {| remote := snd (authority (realm_request None GetCerts) (remote st));
       sent := (sent st ++ [realm_request None GetCerts])%list |}.
Proof.
  unfold get_jwks, bindM, lift. rewrite send_run.
  destruct (fst (authority _ _)) as [resp|]; [|reflexivity].
  destruct (raise_for_status resp); reflexivity.
Qed.

(** After the key-set fetch nothing in [decode_token] touches the
    state. *)
Lemma decode_token_state (token : string) (st : state) :
  snd (decode_token token st) = snd (get_jwks st).
Proof.
  unfold decode_token, try_except, bindM, lift, raise.
  destruct (get_jwks st) as [[jwks|e] st1]; cbn [snd];
    [|destruct (is_JWTError e); reflexivity].
  destruct (jwt_get_unverified_header token) as [header|e];
    [|destruct (is_JWTError e); reflexivity].
  destruct (Py.bind (Py.getitem jwks "keys") _) as [keys|e];
    [|destruct (is_JWTError e); reflexivity].
  destruct (find_rsa_key keys header) as [rsa_key|e];
    [|destruct (is_JWTError e); reflexivity].
  destruct (negb (Py.truthy (JObj rsa_key))); [reflexivity|].
  destruct (jwt_decode _ _ _ _ _) as [claims|e]; [reflexivity|].
  destruct (is_JWTError e); reflexivity.
Qed.

(** X1.  Every call of [decode_token] performs exactly one exchange with
    the authority, the fetch of the key set, whatever the token is (even
    one that cannot be parsed) and whatever the call comes to. *)
Theorem decode_token_fetches_once (token : string) (st : state) :
  sent (snd (decode_token token st))
  = (sent st ++ [realm_request None GetCerts])%list
  /\ remote (snd (decode_token token st))
     = snd (authority (realm_request None GetCerts) (remote st)).
Proof. rewrite decode_token_state, get_jwks_state. now split. Qed.

(** What [jwt.decode] raises under the options of [decode_token] is a
    [JWTError] or [JWKError]. *)
Lemma jwt_decode_raises (token : string) (key : dict)
    (algorithms : list string) (audience : option string) (e : exn) :
  jwt_decode token key algorithms audience decode_options = Raised e ->
  is_JWTError e = true \/ plain_error e = true.
Proof.
  unfold jwt_decode. destruct (jws_load token) as [t|]; cbn [Py.bind].
  2: { intros [= <-]. now left. }
  change (verify_signature decode_options) with true. cbn [when].
  destruct (jws_verify_signature _ _ _ _) as [[]|e'] eqn:Hsig; cbn [Py.bind].
  2: { intros [= ->]. revert Hsig. unfold jws_verify_signature.
       repeat destruct_innermost; intros [= <-]; auto. }
  destruct (Py.getitem _ "alg") as [alg|e'] eqn:Halg; cbn [Py.bind].
  2: { intros [= ->]. right. exact (getitem_raises_plain _ _ _ Halg). }
  destruct (jws_payload t) as [[| | | | |claims]|]; cbn [Py.bind];
    try (intros [= <-]; now left).
  rewrite validate_claims_decode_options.
  unfold validate_iat, validate_nbf, validate_exp, int_claim, py_int,
    validate_str_claim, validate_at_hash.
  repeat (destruct_innermost; cbn [Py.bind]);
    try discriminate; intros [= <-]; auto.
Qed.

(** What [decode_token] raises. *)
Lemma decode_token_raises (token : string) (st : state) (e : exn) :
  fst (decode_token token st) = Raised e ->
  (exists why, e = HTTPException 401 "Invalid token: " (Some (JWTError why)))
  \/ e = HTTPException 401 "Unable to find appropriate key" None
  \/ plain_error e = true.
Proof.
  unfold decode_token, try_except, bindM, lift, raise.
  destruct (get_jwks st) as [[jwks|e0] st1] eqn:Hjwks.
  2: { pose proof (get_jwks_raises_plain _ _ _ Hjwks) as H0.
       rewrite (plain_error_not_caught _ H0). cbn [fst].
       intros [= <-]. auto. }
  unfold jwt_get_unverified_header.
  destruct (jws_load token) as [t|]; cbn [is_JWTError fst].
  2: { intros [= <-]. left. now exists HeaderUndecodable. }
  destruct (Py.getitem jwks "keys") as [ks|e0] eqn:Hks; cbn [Py.bind].
  2: { pose proof (getitem_raises_plain _ _ _ Hks) as H0.
       rewrite (plain_error_not_caught _ H0). cbn [fst].
       intros [= <-]. auto. }
  destruct (Py.iter ks) as [keys|e0] eqn:Hkeys.
  2: { pose proof (iter_raises_plain _ _ Hkeys) as H0.
       rewrite (plain_error_not_caught _ H0). cbn [fst].
       intros [= <-]. auto. }
  destruct (find_rsa_key keys (jws_header t)) as [rsa_key|e0] eqn:Hfind.
  2: { pose proof (find_rsa_key_raises_plain _ _ _ Hfind) as H0.
       rewrite (plain_error_not_caught _ H0). cbn [fst].
       intros [= <-]. auto. }
  destruct (negb (Py.truthy (JObj rsa_key))); cbn [fst].
  { intros [= <-]. auto. }
  destruct (jwt_decode _ _ _ _ _) as [claims|e0] eqn:Hdec; [discriminate|].
  destruct (jwt_decode_raises _ _ _ _ _ Hdec) as [Hj | Hp].
  + rewrite Hj. cbn [fst]. intros [= <-]. left.
    destruct e0; try discriminate. now exists why.
  + rewrite (plain_error_not_caught _ Hp). cbn [fst].
    intros [= <-]. auto.
Qed.

(** X2.  No [JWTError] escapes [decode_token]: whatever it raises is
    either the 401 "Invalid token" made from a [JWTError], the 401
    "Unable to find appropriate key", or an error of Python, [httpx] or
    key construction that is passed on as it is.  In particular a failed
    fetch of the key set is not reported as 401: without a response the
    call raises [TransportError], and on a status for which
    [raise_for_status] raises it raises that [HTTPStatusError]. *)
Theorem decode_token_failures (token : string) (st : state) :
  (forall e,
      fst (decode_token token st) = Raised e ->
      (exists why, e = HTTPException 401 "Invalid token: "
                                     (Some (JWTError why)))
      \/ e = HTTPException 401 "Unable to find appropriate key" None
      \/ plain_error e = true)
  /\ (fst (authority (realm_request None GetCerts) (remote st)) = NoReply ->
      fst (decode_token token st) = Raised TransportError)
  /\ (forall r,
        fst (authority (realm_request None GetCerts) (remote st)) = Reply r ->
        raises_for_status (status_code r) = true ->
        fst (decode_token token st)
        = Raised (HTTPStatusError (status_code r))).
Proof.
  split; [|split].
  - exact (decode_token_raises token st).
  - intros Hnone. unfold decode_token, try_except, bindM at 1.
    unfold get_jwks, bindM at 1. rewrite send_run, Hnone. reflexivity.
  - intros r Hrep Hraise. unfold decode_token, try_except, bindM at 1.
    unfold get_jwks, bindM, lift, raise_for_status.
    rewrite send_run, Hrep, Hraise. reflexivity.
Qed.

(** The key that the loop of [decode_token] selects is made from a key of
    the key set whose key-id equals the one of the header. *)
Lemma find_rsa_key_found (keys : list json) (header rsa_key : dict) :
  find_rsa_key keys header = Returned rsa_key ->
  rsa_key <> [] ->
  exists key kid header_kid,
    In key keys
    /\ Py.getitem key "kid" = Returned kid
    /\ Py.dict_get "kid" header = Some header_kid
    /\ Py.eq kid header_kid = true
    /\ Py.dict_get "kid" rsa_key = Some kid.
Proof.
  induction keys as [|key keys IH]; cbn [find_rsa_key].
  - intros [= <-] H. now elim H.
  - destruct (Py.getitem key "kid") as [kid|] eqn:Hkid; cbn [Py.bind];
      [|discriminate].
    cbn [Py.getitem].
    destruct (Py.dict_get "kid" header) as [header_kid|] eqn:Hheader;
      cbn [Py.bind]; [|discriminate].
    destruct (Py.eq kid header_kid) eqn:Heq.
    + destruct (Py.getitem key "kty"); cbn [Py.bind]; [|discriminate].
      destruct (Py.getitem key "use"); cbn [Py.bind]; [|discriminate].
      destruct (Py.getitem key "n"); cbn [Py.bind]; [|discriminate].
      destruct (Py.getitem key "e"); cbn [Py.bind]; [|discriminate].
      intros [= <-] _. exists key, kid, header_kid.
      repeat split; auto. now left.
    + intros Hfind Hne.
      destruct (IH Hfind Hne) as (key' & kid' & hk' & Hin & H1 & H2 & H3 & H4).
      exists key', kid', hk'. repeat split; auto. now right.
Qed.

(** A passed signature step: the declared algorithm is the allowed one
    and the signature matched. *)
Lemma jws_verify_signature_passed (token : string) (header key : dict)
    (allowed : string) :
  jws_verify_signature token header key [allowed] = Returned tt ->
  Py.dict_get "alg" header = Some (JStr allowed)
  /\ check_signature token key (JStr allowed) = SigValid.
Proof.
  unfold jws_verify_signature, Py.dict_get_default.
  destruct (Py.dict_get "alg" header) as [alg|]; [|discriminate].
  destruct (Py.truthy alg); cbn [negb]; [|discriminate].
  cbn [existsb]. rewrite Bool.orb_false_r.
  destruct (Py.eq alg (JStr allowed)) eqn:E; cbn [negb]; [|discriminate].
  apply eq_to_str_iff in E. subst alg.
  destruct (check_signature token key (JStr allowed)); try discriminate.
  now split.
Qed.

(** Claims that pass the checks are neither expired nor not yet valid. *)
Lemma validate_claims_passed (claims : dict) (audience : option string) :
  validate_claims claims audience decode_options = Returned tt ->
  (forall exp, Py.dict_get "exp" claims = Some (JNum exp) -> (now <= exp)%Z)
  /\ (forall nbf, Py.dict_get "nbf" claims = Some (JNum nbf) ->
                  (nbf <= now)%Z).
Proof.
  rewrite validate_claims_decode_options.
  destruct (validate_iat claims) as [[]|]; cbn [Py.bind]; [|discriminate].
  destruct (validate_nbf claims 0) as [[]|] eqn:Hnbf; cbn [Py.bind];
    [|discriminate].
  destruct (validate_exp claims 0) as [[]|] eqn:Hexp; cbn [Py.bind];
    [|discriminate].
  intros _. split.
  - intros exp Hget. revert Hexp. unfold validate_exp, int_claim.
    rewrite Hget. cbn [py_int Py.bind]. rewrite Z.sub_0_r.
    destruct (Z.ltb_spec exp now); [discriminate | intros _; lia].
  - intros nbf Hget. revert Hnbf. unfold validate_nbf, int_claim.
    rewrite Hget. cbn [py_int Py.bind]. rewrite Z.add_0_r.
    destruct (Z.ltb_spec now nbf); [discriminate | intros _; lia].
Qed.

(** X3.  A payload that [decode_token] returns is the payload of the
    token, and the token has been verified: the key set was fetched, one
    of its keys has a key-id equal to the one in the token's header, the
    algorithm the header declares is [settings.jwt_algorithm], the
    signature matched under the key made from that key, and an integer
    [exp] claim is not before, an integer [nbf] claim not after, the
    current time. *)
Theorem accepted_token_is_verified
    (token : string) (st st' : state) (claims : dict) :
  decode_token token st = (Returned claims, st') ->
  exists t jwks keys key kid header_kid rsa_key,
    jws_load token = Some t
    /\ jws_payload t = Some (JObj claims)
    /\ get_jwks st = (Returned jwks, st')
    /\ (ks <- Py.getitem jwks "keys" ;; Py.iter ks)%outcome = Returned keys
    /\ In key keys
    /\ Py.getitem key "kid" = Returned kid
    /\ Py.dict_get "kid" (jws_header t) = Some header_kid
    /\ Py.eq kid header_kid = true
    /\ find_rsa_key keys (jws_header t) = Returned rsa_key
    /\ Py.dict_get "alg" (jws_header t) = Some (JStr (jwt_algorithm settings))
    /\ check_signature token rsa_key (JStr (jwt_algorithm settings))
       = SigValid
    /\ (forall exp, Py.dict_get "exp" claims = Some (JNum exp) ->
                    (now <= exp)%Z)
    /\ (forall nbf, Py.dict_get "nbf" claims = Some (JNum nbf) ->
                    (nbf <= now)%Z).
Proof.
  unfold decode_token, try_except, bindM, lift, raise.
  destruct (get_jwks st) as [[jwks|e] st1] eqn:Hjwks;
    [|destruct (is_JWTError e); discriminate].
  unfold jwt_get_unverified_header.
  destruct (jws_load token) as [t|] eqn:Hload; [|discriminate].
  destruct (Py.bind (Py.getitem jwks "keys") _) as [keys|e] eqn:Hkeys;
    [|destruct (is_JWTError e); discriminate].
  destruct (find_rsa_key keys (jws_header t)) as [rsa_key|e] eqn:Hfind;
    [|destruct (is_JWTError e); discriminate].
  destruct rsa_key as [|kv rsa_key]; cbn [Py.truthy negb]; [discriminate|].
  destruct (jwt_decode _ _ _ _ _) as [claims'|e] eqn:Hdec;
    [|destruct (is_JWTError e); discriminate].
  intros [= -> ->].
  destruct (find_rsa_key_found _ _ _ Hfind ltac:(discriminate))
    as (key & kid & header_kid & Hin & Hk & Hh & Heq & _).
  revert Hdec. unfold jwt_decode. rewrite Hload. cbn [Py.bind].
  change (verify_signature decode_options) with true. cbn [when].
  destruct (jws_verify_signature _ _ _ _) as [[]|] eqn:Hsig; cbn [Py.bind];
    [|discriminate].
  destruct (Py.getitem _ "alg"); cbn [Py.bind]; [|discriminate].
  destruct (jws_payload t) as [[| | | | |payload]|] eqn:Hpay; cbn [Py.bind];
    try discriminate.
  destruct (validate_claims payload _ decode_options) as [[]|] eqn:Hval;
    cbn [Py.bind]; [|discriminate].
  intros [= ->].
  destruct (jws_verify_signature_passed _ _ _ _ Hsig) as (Halg & Hvalid).
  destruct (validate_claims_passed _ _ Hval) as (Hexp & Hnbf).
  exists t, jwks, keys, key, kid, header_kid, (kv :: rsa_key).
  repeat split; auto.
Qed.

(* ------------------------------------------------------------------ *)
(** ** The header and the guard, whatever the input *)

Lemma startswith_iff (h p : string) :
  PyStr.startswith h p = true <-> exists t, h = p ++ t.
Proof.
  unfold PyStr.startswith.
  destruct (PyStr.strip_prefix p h) as [r|] eqn:E.
  - apply strip_prefix_iff in E. split; [now exists r | reflexivity].
  - split; [discriminate|]. intros (t & Ht).
    apply strip_prefix_iff in Ht. congruence.
Qed.

(** X4.  [verify_bearer_token] asks the authority for nothing unless the
    header begins with the exact scheme prefix ["Bearer "] (capital B, one
    space): a missing or empty header and any other header are rejected
    with 401 and leave the state as it was; a header with the prefix
    causes exactly one exchange, the fetch of the key set. *)
Theorem verify_bearer_token_scheme (authorization : option string)
    (st : state) :
  ((exists t, authorization = Some ("Bearer " ++ t)) ->
   sent (snd (verify_bearer_token authorization st))
   = (sent st ++ [realm_request None GetCerts])%list)
  /\ (~ (exists t, authorization = Some ("Bearer " ++ t)) ->
      exists detail,
        verify_bearer_token authorization st
        = (Raised (HTTPException 401 detail None), st)
        /\ (detail = "Authorization header missing"
            \/ detail = "Invalid authorization header format")).
Proof.
  split.
  - intros (t & ->). unfold verify_bearer_token.
    replace (String.eqb ("Bearer " ++ t) "") with false by reflexivity.
    rewrite startswith_append. cbn [negb].
    now rewrite decode_token_state, get_jwks_state.
  - intros Hno. unfold verify_bearer_token, raise.
    destruct authorization as [h|].
    2: { eexists. split; [reflexivity | now left]. }
    destruct (String.eqb h "").
    { eexists. split; [reflexivity | now left]. }
    destruct (PyStr.startswith h "Bearer ") eqn:Hs; cbn [negb].
    2: { eexists. split; [reflexivity | now right]. }
    apply startswith_iff in Hs. destruct Hs as (t & ->).
    elim Hno. now exists t.
Qed.

(** X5.  For every payload, of whatever shape, [is_superadmin] returns
    [True] exactly when [realm_access] is a dict whose [roles] entry is a
    list with the element ["realm-admin"], a dict with the key
    ["realm-admin"], or a string that contains ["realm-admin"].  In every
    other case, an absent entry among them, it returns [False] or
    raises. *)
Theorem superadmin_exactly_when_named (token_payload : dict) :
  Guard.is_superadmin token_payload = Returned true
  <-> exists realm_access roles,
        Py.dict_get "realm_access" token_payload = Some (JObj realm_access)
        /\ Py.dict_get "roles" realm_access = Some roles
        /\ ((exists l, roles = JArr l /\ In (JStr "realm-admin") l)
            \/ (exists d, roles = JObj d
                          /\ Py.dict_get "realm-admin" d <> None)
            \/ (exists s, roles = JStr s
                          /\ PyStr.occurs "realm-admin" s)).
Proof. exact (is_superadmin_true_iff token_payload). Qed.

(* ------------------------------------------------------------------ *)
(** ** The role lookups *)

(** X6.  The lookup loop of [assign_roles_to_user] never raises, whatever
    the authority answers: it returns the roles it was given followed by
    at most one role per name, and it has sent one lookup for every name
    that is not empty, in the order of the names, and nothing else. *)
Theorem fetch_roles_never_raises (headers : json) (role_names : list string)
    (roles : list json) (st : state) :
  exists found,
    fst (fetch_roles headers role_names roles st)
    = Returned (roles ++ found)%list
    /\ (List.length found <= List.length (filter named role_names))%nat
    /\ sent (snd (fetch_roles headers role_names roles st))
       = (sent st ++ map (role_lookup headers) (filter named role_names))%list.
Proof.
  revert roles st.
  induction role_names as [|n rest IH]; intros roles st; cbn [fetch_roles].
  - exists []. cbn. rewrite !app_nil_r. repeat split. lia.
  - assert (Hn : named n = negb (String.eqb n "")) by reflexivity.
    cbn [filter]. rewrite Hn.
    destruct (String.eqb n ""); cbn [negb]; [apply IH|].
    unfold bindM at 1. unfold try_except, bindM. rewrite send_run.
    fold (role_lookup headers n).
    set (st1 := {| remote := snd (authority (role_lookup headers n)
                                            (remote st));
                   sent := (sent st ++ [role_lookup headers n])%list |}).
    assert (Hstep : forall roles',
               (exists extra, roles' = (roles ++ extra)%list
                              /\ (List.length extra <= 1)%nat) ->
               exists found,
                 fst (fetch_roles headers rest roles' st1)
                 = Returned (roles ++ found)%list
                 /\ (List.length found
                     <= S (List.length (filter named rest)))%nat
                 /\ sent (snd (fetch_roles headers rest roles' st1))
                    = (sent st
                       ++ role_lookup headers n
                          :: map (role_lookup headers) (filter named rest))
                      %list).
    { intros roles' (extra & -> & Hlen).
      destruct (IH (roles ++ extra)%list st1) as (found & E & L & S).
      exists (extra ++ found)%list. rewrite E, S, app_assoc.
      repeat split.
      - rewrite length_app. lia.
      - unfold st1. cbn [sent]. now rewrite <- app_assoc. }
    cbn [map length].
    destruct (fst (authority _ _)) as [r|].
    + destruct (Z.eqb (status_code r) 200).
      * unfold lift, response_json, ret.
        destruct (body r) as [j|]; cbn [is_Exception].
        -- apply Hstep. exists [j]. split; [reflexivity | simpl; lia].
        -- apply Hstep. exists []. rewrite app_nil_r.
           split; [reflexivity | simpl; lia].
      * unfold ret. apply Hstep. exists []. rewrite app_nil_r.
        split; [reflexivity | simpl; lia].
    + cbn [is_Exception]. unfold ret. apply Hstep. exists [].
      rewrite app_nil_r. split; [reflexivity | simpl; lia].
Qed.

(* ------------------------------------------------------------------ *)
(** ** Groups by name *)

Lemma find_app_first {A} (f : A -> bool) (l1 l2 : list A) :
  find f (l1 ++ l2)%list
  = match find f l1 with Some x => Some x | None => find f l2 end.
Proof.
  induction l1 as [|x l1 IH]; simpl; [reflexivity|].
  now destruct (f x).
Qed.

(** The map built from a listing, on top of the map [group_map]: a name
    is bound to the id of the last group listed under it. *)
Lemma build_group_map_lookup (all_groups : list json) (group_map : dict) :
  Forall listed_group all_groups ->
  exists m,
    build_group_map all_groups group_map = Returned m
    /\ forall n,
         Py.dict_get n m
         = match find (group_named n) (rev all_groups) with
           | Some g => group_id_of g
           | None => Py.dict_get n group_map
           end.
Proof.
  intros Hall. revert group_map.
  induction Hall as [|g rest (n0 & i0 & Hname & Hid) _ IH]; intros group_map.
  - exists group_map. split; reflexivity.
  - cbn [build_group_map]. rewrite Hname, Hid. cbn [Py.bind].
    destruct (IH ((n0, i0) :: group_map)) as (m & Hm & Hget).
    exists m. split; [exact Hm|]. intros n. rewrite Hget.
    cbn [rev]. rewrite find_app_first.
    destruct (find (group_named n) (rev rest)); [reflexivity|].
    cbn [find Py.dict_get]. unfold group_named, group_name_of.
    rewrite Hname. rewrite (String.eqb_sym n n0).
    destruct (String.eqb n0 n); [|reflexivity].
    unfold group_id_of. now rewrite Hid.
Qed.

(** X7.  In the group step of [POST /users] a requested name is filed
    under the id of the last group that the listing gives that name, and
    a name that the listing does not give is passed over: when none of the
    requested names is in the map, nothing is sent and the state is left
    as it was. *)
Theorem group_names_resolved_against_listing :
  (forall all_groups,
      Forall listed_group all_groups ->
      exists group_map,
        build_group_map all_groups [] = Returned group_map
        /\ forall n,
             Py.dict_get n group_map
             = match find (group_named n) (rev all_groups) with
               | Some g => group_id_of g
               | None => None
               end)
  /\ (forall user_id group_map groups st,
        (forall g, In g groups -> Py.dict_get g group_map = None) ->
        add_to_groups user_id group_map groups st = (Returned tt, st)).
Proof.
  split.
  - intros all_groups Hall.
    exact (build_group_map_lookup all_groups [] Hall).
  - intros user_id group_map groups st.
    induction groups as [|g rest IH]; intros Hnone; cbn [add_to_groups].
    + reflexivity.
    + rewrite (Hnone g (or_introl eq_refl)). unfold bindM at 1. unfold ret.
      apply IH. intros g' Hin. apply Hnone. now right.
Qed.

(** The loop of [create_group] returns the id of the first group listed
    under the name. *)
Lemma find_group_id_first (groups : list json) (group_name : string) :
  Forall listed_group groups ->
  find_group_id groups group_name
  = match find (group_named group_name) groups with
    | Some g => Py.getitem g "id"
    | None => Raised (RuntimeError "Group not found after creation")
    end.
Proof.
  induction 1 as [|g rest (n0 & i0 & Hname & Hid) _ IH];
    cbn [find_group_id find]; [reflexivity|].
  unfold group_named, group_name_of. rewrite Hname. cbn [Py.bind Py.eq].
  destruct (String.eqb n0 group_name); [reflexivity | exact IH].
Qed.

(** Among groups with pairwise distinct names the first and the last
    group under a name are the same. *)
Lemma find_rev_distinct (group_name : string) (groups : list json) :
  Forall listed_group groups ->
  NoDup (map group_name_of groups) ->
  find (group_named group_name) (rev groups)
  = find (group_named group_name) groups.
Proof.
  induction 1 as [|g rest (n0 & i0 & Hname & Hid) Hrest IH];
    intros Hnodup; [reflexivity|].
  cbn [map] in Hnodup. inversion Hnodup as [|? ? Hnotin Hnodup']; subst.
  cbn [rev find]. rewrite find_app_first, (IH Hnodup'). cbn [find].
  destruct (group_named group_name g) eqn:Hg.
  - destruct (find (group_named group_name) rest) as [g'|] eqn:Hfind;
      [|reflexivity].
    exfalso. apply Hnotin. apply find_some in Hfind.
    destruct Hfind as (Hin & Hg').
    assert (E : group_name_of g = group_name_of g').
    { unfold group_named in Hg, Hg'.
      destruct (group_name_of g) as [a|]; [|discriminate].
      destruct (group_name_of g') as [b|]; [|discriminate].
      apply String.eqb_eq in Hg, Hg'. congruence. }
    rewrite E. now apply in_map.
  - now destruct (find (group_named group_name) rest).
Qed.

(** X8.  Where the listing gives every name once, [create_group] and the
    group step of [POST /users] agree: the id the loop of [create_group]
    returns for a name is the id under which the group map files that
    name. *)
Theorem group_lookups_agree_on_distinct_names
    (groups : list json) (group_map : dict) (group_name : string)
    (id : json) :
  Forall listed_group groups ->
  NoDup (map group_name_of groups) ->
  build_group_map groups [] = Returned group_map ->
  (find_group_id groups group_name = Returned id
   <-> Py.dict_get group_name group_map = Some id).
Proof.
  intros Hall Hnodup Hbuild.
  destruct (build_group_map_lookup groups [] Hall) as (m & Hm & Hget).
  rewrite Hbuild in Hm. injection Hm as <-.
  rewrite (Hget group_name), (find_rev_distinct _ _ Hall Hnodup).
  rewrite (find_group_id_first _ _ Hall).
  destruct (find (group_named group_name) groups) as [g|] eqn:Hfind.
  - unfold group_id_of. destruct (Py.getitem g "id") as [i|e].
    + split; intros [= ->]; reflexivity.
    + split; discriminate.
  - cbn [Py.dict_get]. split; discriminate.
Qed.

(* ------------------------------------------------------------------ *)
(** ** Running the wider state *)

Lemma on_core_run {A} (m : M state A) (s : full) :
  on_core m s
  = (fst (m (core s)),
     {| core := snd (m (core s)); also_sent := also_sent s |}).
Proof. unfold on_core. now destruct (m (core s)). Qed.

Lemma surface_send_run (r : surface_request) (s : full) :
  surface_send r s
  = (match fst (surface r (remote (core s))) with
     | Reply resp => Returned resp
     | NoReply => Raised TransportError
     end,
     {| core := {| remote := snd (surface r (remote (core s)));
                   sent := sent (core s) |};
        also_sent := (also_sent s ++ [r])%list |}).
Proof.
  unfold surface_send.
  destruct (surface r (remote (core s))) as [[resp|] w']; reflexivity.
Qed.

(** A guard that raises ends the route at once. *)
Lemma guard_denies {S A} (token : dict) (e : exn) (m : M S A) (s : S) :
  Guard.require_superadmin token = Raised e ->
  bindM (lift (Guard.require_superadmin token)) (fun _ => m) s
  = (Raised e, s).
Proof. intros H. unfold bindM, lift. now rewrite H. Qed.

(** A guard that passes leaves the route to its [try] block. *)
Lemma guard_passes {S A} (token : dict) (m : M S A) (s : S) :
  Guard.is_superadmin token = Returned true ->
  bindM (lift (Guard.require_superadmin token)) (fun _ => m) s = m s.
Proof.
  intros H. unfold bindM, lift.
  now rewrite (require_superadmin_passes _ H).
Qed.

(** X9.  No mutating endpoint reaches the authority for a caller the
    guard turns away: when [require_superadmin] raises, each of the twelve
    endpoints that create, change or delete users, roles, groups,
    passwords, role mappings or memberships raises that same error and
    leaves the state, and so the log of requests, as it was.  For a
    payload on which [is_superadmin] returns [False] the error is the
    403. *)
Theorem no_mutation_without_realm_admin (token : dict) (e : exn) :
  Guard.require_superadmin token = Raised e ->
  (forall user st, route_create_user user token st = (Raised e, st))
  /\ (forall user_id user_update s,
        route_update_user user_id user_update token s = (Raised e, s))
  /\ (forall user_id s, route_delete_user user_id token s = (Raised e, s))
  /\ (forall user_id password temporary st,
        route_reset_password user_id password temporary token st
        = (Raised e, st))
  /\ (forall name description s,
        route_create_role name description token s = (Raised e, s))
  /\ (forall role_name s, route_delete_role role_name token s = (Raised e, s))
  /\ (forall user_id roles st,
        route_assign_roles user_id roles token st = (Raised e, st))
  /\ (forall user_id roles s,
        route_remove_roles user_id roles token s = (Raised e, s))
  /\ (forall name s, route_create_group name token s = (Raised e, s))
  /\ (forall group_id s, route_delete_group group_id token s = (Raised e, s))
  /\ (forall user_id group_id st,
        route_add_user_to_group user_id group_id token st = (Raised e, st))
  /\ (forall user_id group_id s,
        route_remove_user_from_group user_id group_id token s
        = (Raised e, s))
  /\ (Guard.is_superadmin token = Returned false ->
      e = HTTPException 403 "Requires realm-admin role" None).
Proof.
  intros Hdenied.
  repeat match goal with
         | |- _ /\ _ => split
         end;
    try (intros; now apply guard_denies).
  intros Hfalse. unfold Guard.require_superadmin in Hdenied.
  rewrite Hfalse in Hdenied. cbn in Hdenied. now injection Hdenied as <-.
Qed.

(* ------------------------------------------------------------------ *)
(** ** The admin token first *)

Lemma on_core_raised {A B} (m : M state A) (k : A -> M full B) (s : full)
    (e : exn) (st1 : state) :
  m (core s) = (Raised e, st1) ->
  bindM (on_core m) k s
  = (Raised e, {| core := st1; also_sent := also_sent s |}).
Proof. intros H. unfold bindM. rewrite on_core_run, H. reflexivity. Qed.

Lemma on_core_returned {A B} (m : M state A) (k : A -> M full B) (s : full)
    (a : A) (st1 : state) :
  m (core s) = (Returned a, st1) ->
  bindM (on_core m) k s
  = k a {| core := st1; also_sent := also_sent s |}.
Proof. intros H. unfold bindM. rewrite on_core_run, H. reflexivity. Qed.

(** X10.  A failed fetch of the admin token is fatal to the call: every
    function of the Admin Client then raises the error of the fetch as it
    is, and has sent nothing but the token request. *)
Theorem admin_token_failure_is_fatal (e : exn) (st st1 : state) :
  _admin_headers st = (Raised e, st1) ->
  sent st1 = (sent st ++ [admin_token_request])%list
  /\ (forall username email first_name last_name enabled email_verified
             attributes,
        create_user username email first_name last_name enabled
                    email_verified attributes st = (Raised e, st1))
  /\ (forall user_id password temporary,
        set_user_password user_id password temporary st = (Raised e, st1))
  /\ (forall user_id role_name role_names,
        assign_roles_to_user user_id (role_name :: role_names) st
        = (Raised e, st1))
  /\ list_groups st = (Raised e, st1)
  /\ (forall user_id group_id,
        add_user_to_group user_id group_id st = (Raised e, st1))
  /\ (forall s,
        core s = st ->
        let s1 := {| core := st1; also_sent := also_sent s |} in
        (forall user_id, get_user user_id s = (Raised e, s1))
        /\ (forall user_id user_data,
              update_user user_id user_data s = (Raised e, s1))
        /\ (forall user_id, delete_user user_id s = (Raised e, s1))
        /\ (forall role_name description,
              create_realm_role role_name description s = (Raised e, s1))
        /\ (forall role_name, delete_realm_role role_name s = (Raised e, s1))
        /\ (forall user_id role_name role_names,
              remove_roles_from_user user_id (role_name :: role_names) s
              = (Raised e, s1))
        /\ (forall group_name, create_group group_name s = (Raised e, s1))
        /\ (forall group_id, delete_group group_id s = (Raised e, s1))
        /\ (forall user_id group_id,
              remove_user_from_group user_id group_id s = (Raised e, s1))).
Proof.
  intros Hfail.
  split.
  { unfold _admin_headers in Hfail.
    destruct (admin_token_run st) as (o & Hrun). rewrite Hrun in Hfail.
    now injection Hfail as _ <-. }
  repeat match goal with
         | |- _ /\ _ => split
         end;
    try (intros; now apply bindM_raised).
  intros s <-. cbv zeta.
  repeat match goal with
         | |- _ /\ _ => split
         end;
    intros; now apply on_core_raised.
Qed.

(* ------------------------------------------------------------------ *)
(** ** Creating a group, deleting what is not there *)

(** X11.  [create_group], once the token is there, the creation has been
    answered 201 or 409 and the groups have been listed, returns the id of
    the first group that the listing gives the name, and raises "Group not
    found after creation" when the listing gives the name to none.  The
    listing is taken whatever its status. *)
Theorem create_group_returns_first_listed
    (group_name : string) (s s1 s2 s3 : full) (headers : json)
    (r listing : response) (groups : list json) :
  on_core _admin_headers s = (Returned headers, s1) ->
  surface_send (surface_realm_request
                  (Some headers)
                  (PostGroups (JObj [("name", JStr group_name)]))) s1
  = (Returned r, s2) ->
  status_code r = 201%Z \/ status_code r = 409%Z ->
  on_core (send (realm_request (Some headers) GetGroups)) s2
  = (Returned listing, s3) ->
  body listing = Some (JArr groups) ->
  Forall listed_group groups ->
  create_group group_name s
  = (match find (group_named group_name) groups with
     | Some g => Py.getitem g "id"
     | None => Raised (RuntimeError "Group not found after creation")
     end, s3).
Proof.
  intros Hheaders Hpost Hstatus Hlist Hbody Hall. unfold create_group.
  rewrite (bindM_returned _ _ _ _ _ Hheaders).
  rewrite (bindM_returned _ _ _ _ _ Hpost).
  assert (Hlet : status_not_in (status_code r) 201 409 = false).
  { unfold status_not_in. destruct Hstatus as [-> | ->]; reflexivity. }
  rewrite Hlet. unfold bindM at 1. unfold ret.
  rewrite (bindM_returned _ _ _ _ _ Hlist).
  unfold bindM, lift, response_json. rewrite Hbody. cbn [Py.bind Py.iter].
  now rewrite (find_group_id_first _ _ Hall).
Qed.

(** X12.  Deleting what is not there is no error.  Once the token is
    there, [delete_user], [delete_realm_role], [delete_group] and
    [remove_user_from_group] return normally when the authority answers
    404, as they do on 204; and for a caller the guard lets through the
    endpoints built on them return their success answer. *)
Theorem deleting_the_absent_succeeds
    (s s1 s2 : full) (headers : json) (r : response) :
  on_core _admin_headers s = (Returned headers, s1) ->
  status_code r = 204%Z \/ status_code r = 404%Z ->
  (forall user_id,
      surface_send (surface_realm_request (Some headers)
                                          (DeleteUser (JStr user_id))) s1
      = (Returned r, s2) ->
      delete_user (JStr user_id) s = (Returned tt, s2)
      /\ forall token,
           Guard.is_superadmin token = Returned true ->
           route_delete_user user_id token s = (Returned JNull, s2))
  /\ (forall role_name,
        surface_send (surface_realm_request (Some headers)
                                            (DeleteRole role_name)) s1
        = (Returned r, s2) ->
        delete_realm_role role_name s = (Returned tt, s2)
        /\ forall token,
             Guard.is_superadmin token = Returned true ->
             route_delete_role role_name token s = (Returned JNull, s2))
  /\ (forall group_id,
        surface_send (surface_realm_request (Some headers)
                                            (DeleteGroup (JStr group_id))) s1
        = (Returned r, s2) ->
        delete_group (JStr group_id) s = (Returned tt, s2)
        /\ forall token,
             Guard.is_superadmin token = Returned true ->
             route_delete_group group_id token s = (Returned JNull, s2))
  /\ (forall user_id group_id,
        surface_send (surface_realm_request
                        (Some headers)
                        (DeleteUserGroup (JStr user_id) (JStr group_id))) s1
        = (Returned r, s2) ->
        remove_user_from_group (JStr user_id) (JStr group_id) s
        = (Returned tt, s2)
        /\ forall token,
             Guard.is_superadmin token = Returned true ->
             route_remove_user_from_group user_id group_id token s
             = (Returned (message "User removed from group successfully"),
                s2)).
Proof.
  intros Hheaders Hstatus.
  assert (Hlet : status_not_in (status_code r) 204 404 = false).
  { unfold status_not_in. destruct Hstatus as [-> | ->]; reflexivity. }
  repeat match goal with
         | |- _ /\ _ => split
         end.
  - intros user_id Hsend.
    assert (Hrun : delete_user (JStr user_id) s = (Returned tt, s2)).
    { unfold delete_user. rewrite (bindM_returned _ _ _ _ _ Hheaders).
      rewrite (bindM_returned _ _ _ _ _ Hsend). now rewrite Hlet. }
    split; [exact Hrun|]. intros token Hadmin.
    unfold route_delete_user. rewrite (guard_passes _ _ _ Hadmin).
    unfold try_except. now rewrite (bindM_returned _ _ _ _ _ Hrun).
  - intros role_name Hsend.
    assert (Hrun : delete_realm_role role_name s = (Returned tt, s2)).
    { unfold delete_realm_role. rewrite (bindM_returned _ _ _ _ _ Hheaders).
      rewrite (bindM_returned _ _ _ _ _ Hsend). now rewrite Hlet. }
    split; [exact Hrun|]. intros token Hadmin.
    unfold route_delete_role. rewrite (guard_passes _ _ _ Hadmin).
    unfold try_except. now rewrite (bindM_returned _ _ _ _ _ Hrun).
  - intros group_id Hsend.
    assert (Hrun : delete_group (JStr group_id) s = (Returned tt, s2)).
    { unfold delete_group. rewrite (bindM_returned _ _ _ _ _ Hheaders).
      rewrite (bindM_returned _ _ _ _ _ Hsend). now rewrite Hlet. }
    split; [exact Hrun|]. intros token Hadmin.
    unfold route_delete_group. rewrite (guard_passes _ _ _ Hadmin).
    unfold try_except. now rewrite (bindM_returned _ _ _ _ _ Hrun).
  - intros user_id group_id Hsend.
    assert (Hrun : remove_user_from_group (JStr user_id) (JStr group_id) s
                   = (Returned tt, s2)).
    { unfold remove_user_from_group.
      rewrite (bindM_returned _ _ _ _ _ Hheaders).
      rewrite (bindM_returned _ _ _ _ _ Hsend). now rewrite Hlet. }
    split; [exact Hrun|]. intros token Hadmin.
    unfold route_remove_user_from_group.
    rewrite (guard_passes _ _ _ Hadmin).
    unfold try_except. now rewrite (bindM_returned _ _ _ _ _ Hrun).
Qed.

(* ------------------------------------------------------------------ *)
(** ** Updating a user *)

Lemma dict_set_same (k : string) (x : json) (d : dict) :
  Py.dict_get k (PyItem.dict_set k x d) = Some x.
Proof.
  induction d as [|[k' v] d IH]; cbn [PyItem.dict_set Py.dict_get].
  - now rewrite String.eqb_refl.
  - destruct (String.eqb k k') eqn:E; cbn [Py.dict_get]; rewrite E;
      [reflexivity | exact IH].
Qed.

Lemma dict_set_other (k k' : string) (x : json) (d : dict) :
  k' <> k ->
  Py.dict_get k' (PyItem.dict_set k x d) = Py.dict_get k' d.
Proof.
  intros Hne. apply String.eqb_neq in Hne.
  induction d as [|[k0 v] d IH]; cbn [PyItem.dict_set Py.dict_get].
  - now rewrite Hne.
  - destruct (String.eqb k k0) eqn:E; cbn [Py.dict_get].
    + apply String.eqb_eq in E. subst k0. now rewrite Hne.
    + now rewrite IH.
Qed.

(** One assignment of [update_user] on a dict. *)
Lemma assigned_same (given : option json) (k : string) (d : dict) :
  Py.dict_get k (assigned given k d) = field_after given k d.
Proof.
  destruct given; cbn [assigned field_after];
    [apply dict_set_same | reflexivity].
Qed.

Lemma assigned_other (given : option json) (k k' : string) (d : dict) :
  k' <> k -> Py.dict_get k' (assigned given k d) = Py.dict_get k' d.
Proof.
  intros Hne. destruct given; cbn [assigned];
    [now apply dict_set_other | reflexivity].
Qed.

Lemma apply_user_update_dict (user_update : UserUpdateRequest)
    (current_user : dict) :
  apply_user_update user_update (JObj current_user)
  = Returned
      (JObj (assigned (option_map JBool (uu_enabled user_update)) "enabled"
               (assigned (option_map JStr (uu_lastName user_update))
                         "lastName"
                  (assigned (option_map JStr (uu_firstName user_update))
                            "firstName"
                     (assigned (option_map JStr (uu_email user_update))
                               "email" current_user))))).
Proof.
  destruct user_update as [[email|] [first|] [last|] [enabled|]];
    reflexivity.
Qed.

(** X13.  The update endpoint is a read-modify-write that changes only
    what is given: on the dict that [get_user] returned, each of the four
    fields takes the value given for it or keeps the one it had, and every
    other key keeps its value; that dict is what is handed to
    [update_user].  When the read fails, nothing is written and the
    failure is reported as 500. *)
Theorem update_changes_only_given_fields
    (user_update : UserUpdateRequest) (current_user : dict) :
  exists updated,
    apply_user_update user_update (JObj current_user)
    = Returned (JObj updated)
    /\ Py.dict_get "email" updated
       = field_after (option_map JStr (uu_email user_update))
                     "email" current_user
    /\ Py.dict_get "firstName" updated
       = field_after (option_map JStr (uu_firstName user_update))
                     "firstName" current_user
    /\ Py.dict_get "lastName" updated
       = field_after (option_map JStr (uu_lastName user_update))
                     "lastName" current_user
    /\ Py.dict_get "enabled" updated
       = field_after (option_map JBool (uu_enabled user_update))
                     "enabled" current_user
    /\ (forall k,
          k <> "email" -> k <> "firstName" -> k <> "lastName" ->
          k <> "enabled" ->
          Py.dict_get k updated = Py.dict_get k current_user)
    /\ (forall user_id token s s1,
          Guard.is_superadmin token = Returned true ->
          get_user (JStr user_id) s = (Returned (JObj current_user), s1) ->
          route_update_user user_id user_update token s
          = try_except
              (update_user (JStr user_id) (JObj updated) ;;
               ret (message "User updated successfully"))%gw
              is_Exception
              (fun e => raise (HTTPException 500 "Failed to update user: "
                                             (Some e))) s1)
    /\ (forall user_id token s s1 e,
          Guard.is_superadmin token = Returned true ->
          get_user (JStr user_id) s = (Raised e, s1) ->
          route_update_user user_id user_update token s
          = (Raised (HTTPException 500 "Failed to update user: " (Some e)),
             s1)).
Proof.
  pose proof (apply_user_update_dict user_update current_user) as Happly.
  eexists. split; [exact Happly|].
  split.
  { rewrite !assigned_other by discriminate. apply assigned_same. }
  split.
  { rewrite !(assigned_other _ "enabled"), !(assigned_other _ "lastName")
      by discriminate.
    rewrite assigned_same. unfold field_after.
    destruct (option_map JStr (uu_firstName user_update)); [reflexivity|].
    now apply assigned_other. }
  split.
  { rewrite (assigned_other _ "enabled") by discriminate.
    rewrite assigned_same. unfold field_after.
    destruct (option_map JStr (uu_lastName user_update)); [reflexivity|].
    rewrite !assigned_other by discriminate. reflexivity. }
  split.
  { rewrite assigned_same. unfold field_after.
    destruct (option_map JBool (uu_enabled user_update)); [reflexivity|].
    rewrite !assigned_other by discriminate. reflexivity. }
  split.
  { intros k H1 H2 H3 H4. rewrite !assigned_other by assumption.
    reflexivity. }
  split.
  - intros user_id token s s1 Hadmin Hget. unfold route_update_user.
    rewrite (guard_passes _ _ _ Hadmin). unfold try_except.
    rewrite (bindM_returned _ _ _ _ _ Hget).
    unfold bindM at 1. unfold lift. rewrite Happly. reflexivity.
  - intros user_id token s s1 e Hadmin Hget. unfold route_update_user.
    rewrite (guard_passes _ _ _ Hadmin). unfold try_except.
    rewrite (bindM_raised _ _ _ _ _ Hget). reflexivity.
Qed.

(* ------------------------------------------------------------------ *)
(** ** Logging in and refreshing *)

(** What a plain error is not. *)
Lemma plain_error_not_http (e : exn) :
  plain_error e = true -> is_HTTPException e = false.
Proof. destruct e; simpl; congruence. Qed.

Lemma http_error_is_http (status : Z) (e : exn) :
  http_error status e = true -> is_HTTPException e = true.
Proof. destruct e; simpl; congruence. Qed.

(** The exchange with the token endpoint, whatever the grant. *)
Lemma token_exchange_run (data : dict) (s : full) :
  bindM (surface_send (token_request data))
        (fun response =>
           bindM (lift (raise_for_status response))
                 (fun _ => lift (response_json response))) s
  = (match fst (surface (token_request data) (remote (core s))) with
     | Reply r =>
         if raises_for_status (status_code r)
         then Raised (HTTPStatusError (status_code r))
         else response_json r
     | NoReply => Raised TransportError
     end,
     {| core := {| remote := snd (surface (token_request data)
                                          (remote (core s)));
                   sent := sent (core s) |};
        also_sent := (also_sent s ++ [token_request data])%list |}).
Proof.
  unfold bindM at 1. rewrite surface_send_run.
  destruct (fst (surface _ _)) as [r|]; [|reflexivity].
  unfold bindM, lift, raise_for_status.
  destruct (raises_for_status (status_code r)); [reflexivity|].
  now destruct (response_json r).
Qed.

(** What the two token functions of [app/auth.py] raise. *)
Lemma get_keycloak_token_raises (username password : string) (s : full)
    (e : exn) :
  fst (get_keycloak_token username password s) = Raised e ->
  http_error 401 e = true \/ http_error 500 e = true \/ plain_error e = true.
Proof.
  unfold get_keycloak_token, try_except. rewrite token_exchange_run.
  destruct (fst (surface _ _)) as [r|]; cbn [is_HTTPStatusError].
  - destruct (raises_for_status (status_code r)); cbn [is_HTTPStatusError].
    + unfold raise. destruct (Z.eqb (status_code r) 401); cbn [fst];
        intros [= <-]; auto.
    + unfold response_json. destruct (body r); cbn [fst];
        [discriminate | intros [= <-]; auto].
  - cbn [fst]. intros [= <-]. auto.
Qed.

(** What [decode_token] raises on the value under ["access_token"]. *)
Lemma decode_token_value_raises (v : json) (st : state) (e : exn) :
  fst (decode_token_value v st) = Raised e ->
  http_error 401 e = true \/ plain_error e = true.
Proof.
  assert (Hstr : forall token,
             fst (decode_token token st) = Raised e ->
             http_error 401 e = true \/ plain_error e = true).
  { intros token H.
    destruct (decode_token_raises _ _ _ H) as [(why & ->) | [-> | Hp]];
      auto. }
  destruct v; cbn [decode_token_value]; try apply Hstr;
    unfold try_except, bindM, raise;
    destruct (get_jwks st) as [[jwks|e0] st1] eqn:Hjwks;
    cbn [is_JWTError fst];
    try (intros [= <-]; auto; fail);
    pose proof (get_jwks_raises_plain _ _ _ Hjwks) as H0;
    rewrite (plain_error_not_caught _ H0); cbn [fst]; intros [= <-]; auto.
Qed.

Lemma token_answer_raises (token_data : json) (user_data : dict) (e : exn) :
  token_answer token_data user_data = Raised e -> plain_error e = true.
Proof.
  unfold token_answer.
  destruct (Py.getitem token_data "access_token") eqn:H1; cbn [Py.bind];
    [|intros [= <-]; exact (getitem_raises_plain _ _ _ H1)].
  destruct (Py.getitem token_data "refresh_token") eqn:H2; cbn [Py.bind];
    [|intros [= <-]; exact (getitem_raises_plain _ _ _ H2)].
  destruct (Py.getitem token_data "expires_in") eqn:H3; cbn [Py.bind];
    [discriminate | intros [= <-]; exact (getitem_raises_plain _ _ _ H3)].
Qed.

(** What the [try] block of [login] and of [refresh_token] raises, given
    what the fetch of the token data raises. *)
Lemma token_block_raises (fetch : M full json) (also : Z) (s : full)
    (e : exn) :
  (forall e0, fst (fetch s) = Raised e0 ->
              http_error 401 e0 = true \/ http_error also e0 = true
              \/ plain_error e0 = true) ->
  fst ((token_data <- fetch ;;
        access_token <- lift (Py.getitem token_data "access_token") ;;
        user_data <- on_core (decode_token_value access_token) ;;
        lift (token_answer token_data user_data))%gw s) = Raised e ->
  http_error 401 e = true \/ http_error also e = true \/ plain_error e = true.
Proof.
  intros Hfetch. unfold bindM at 1.
  destruct (fetch s) as [[token_data|e0] s1]; cbn [fst] in *.
  2: { intros [= <-]. now apply Hfetch. }
  unfold bindM at 1. unfold lift at 1.
  destruct (Py.getitem token_data "access_token") as [access_token|e0]
    eqn:Hget; cbn [fst].
  2: { intros [= <-]. right. right. exact (getitem_raises_plain _ _ _ Hget). }
  unfold bindM. rewrite on_core_run.
  destruct (fst (decode_token_value access_token (core s1)))
    as [user_data|e0] eqn:Hdec; cbn [fst].
  2: { intros [= <-].
       destruct (decode_token_value_raises _ _ _ Hdec); auto. }
  unfold lift.
  destruct (token_answer token_data user_data) as [j|e0] eqn:Hans; cbn [fst];
    [discriminate|].
  intros [= <-]. right. right. exact (token_answer_raises _ _ _ Hans).
Qed.

(** The [except HTTPException: raise] and [except Exception] pair of the
    two endpoints. *)
Lemma reraise_or_wrap (block : M full json) (wrap : exn -> exn) (s : full)
    (e : exn) :
  fst (try_except block is_Exception
         (fun e0 => if is_HTTPException e0 then raise e0
                    else raise (wrap e0)) s) = Raised e ->
  exists e0,
    fst (block s) = Raised e0
    /\ e = if is_HTTPException e0 then e0 else wrap e0.
Proof.
  unfold try_except, raise.
  destruct (block s) as [[j|e0] s1]; cbn [fst is_Exception]; [discriminate|].
  intros H. exists e0. split; [reflexivity|].
  destruct (is_HTTPException e0); cbn [fst] in H; now injection H as <-.
Qed.

(** X14.  [POST /auth/login] fails with an [HTTPException] of status 401
    or 500 and with nothing else.  When the token endpoint answers the
    password grant with a status for which [raise_for_status] raises, the
    call ends there, 401 "Invalid credentials" for the status 401 and 500
    "Authentication failed" for any other, with the one request sent and
    no key set fetched.  When the endpoint gives no response, the failure
    is 500. *)
Theorem login_failures (credentials : LoginRequest) (s : full) :
  (forall e,
      fst (login credentials s) = Raised e ->
      http_error 401 e = true \/ http_error 500 e = true)
  /\ (forall r,
        fst (surface (token_request
                        (password_grant (lr_username credentials)
                                        (lr_password credentials)))
                     (remote (core s))) = Reply r ->
        raises_for_status (status_code r) = true ->
        fst (login credentials s)
        = Raised (if Z.eqb (status_code r) 401
                  then HTTPException 401 "Invalid credentials" None
                  else HTTPException 500 "Authentication failed" None)
        /\ sent (core (snd (login credentials s))) = sent (core s)
        /\ also_sent (snd (login credentials s))
           = (also_sent s
              ++ [token_request
                    (password_grant (lr_username credentials)
                                    (lr_password credentials))])%list)
  /\ (fst (surface (token_request
                      (password_grant (lr_username credentials)
                                      (lr_password credentials)))
                   (remote (core s))) = NoReply ->
      fst (login credentials s)
      = Raised (HTTPException 500 "Authentication failed: "
                              (Some TransportError))).
Proof.
  split; [|split].
  - intros e H. unfold login in H. apply reraise_or_wrap in H.
    destruct H as (e0 & Hrun & ->).
    apply (token_block_raises _ 500) in Hrun;
      [|apply get_keycloak_token_raises].
    destruct Hrun as [H | [H | H]].
    + rewrite (http_error_is_http _ _ H). auto.
    + rewrite (http_error_is_http _ _ H). auto.
    + rewrite (plain_error_not_http _ H). auto.
  - intros r Hrep Hraise.
    assert (Hrun : get_keycloak_token (lr_username credentials)
                                      (lr_password credentials) s
                   = (Raised (if Z.eqb (status_code r) 401
                              then HTTPException 401 "Invalid credentials"
                                                 None
                              else HTTPException 500 "Authentication failed"
                                                 None),
                      {| core := {| remote := snd (surface
                                      (token_request
                                         (password_grant
                                            (lr_username credentials)
                                            (lr_password credentials)))
                                      (remote (core s)));
                                    sent := sent (core s) |};
                         also_sent := (also_sent s
                                       ++ [token_request
                                             (password_grant
                                                (lr_username credentials)
                                                (lr_password credentials))])
                                      %list |})).
    { unfold get_keycloak_token, try_except.
      rewrite token_exchange_run, Hrep, Hraise. cbn [is_HTTPStatusError].
      unfold raise. now destruct (Z.eqb (status_code r) 401). }
    unfold login, try_except. rewrite (bindM_raised _ _ _ _ _ Hrun).
    cbn [is_Exception].
    destruct (Z.eqb (status_code r) 401); cbn [is_HTTPException];
      unfold raise; cbn [fst snd core sent also_sent]; repeat split.
  - intros Hnone.
    assert (Hrun : fst (get_keycloak_token (lr_username credentials)
                                           (lr_password credentials) s)
                   = Raised TransportError).
    { unfold get_keycloak_token, try_except.
      rewrite token_exchange_run, Hnone. reflexivity. }
    unfold login, try_except, bindM at 1.
    destruct (get_keycloak_token _ _ s) as [o s1]. cbn [fst] in Hrun.
    subst o. reflexivity.
Qed.

(** What the two calls of [refresh_token] raise, by name. *)
Lemma refresh_keycloak_token_raises_exactly (refresh : string) (s : full)
    (e : exn) :
  fst (refresh_keycloak_token refresh s) = Raised e ->
  e = HTTPException 401 "Invalid or expired refresh token" None
  \/ plain_error e = true.
Proof.
  unfold refresh_keycloak_token, try_except. rewrite token_exchange_run.
  destruct (fst (surface _ _)) as [r|]; cbn [is_HTTPStatusError].
  - destruct (raises_for_status (status_code r)); cbn [is_HTTPStatusError].
    + unfold raise. cbn [fst]. intros [= <-]. auto.
    + unfold response_json. destruct (body r); cbn [fst];
        [discriminate | intros [= <-]; auto].
  - cbn [fst]. intros [= <-]. auto.
Qed.

Lemma decode_token_value_raises_exactly (v : json) (st : state) (e : exn) :
  fst (decode_token_value v st) = Raised e ->
  rejected_token e \/ plain_error e = true.
Proof.
  assert (Hstr : forall token,
             fst (decode_token token st) = Raised e ->
             rejected_token e \/ plain_error e = true).
  { intros token H. unfold rejected_token.
    destruct (decode_token_raises _ _ _ H) as [Hw | [-> | Hp]]; auto. }
  destruct v; cbn [decode_token_value]; try apply Hstr;
    unfold try_except, bindM, raise;
    destruct (get_jwks st) as [[jwks|e0] st1] eqn:Hjwks;
    cbn [is_JWTError fst];
    try (intros [= <-]; left; left; now exists HeaderUndecodable);
    pose proof (get_jwks_raises_plain _ _ _ Hjwks) as H0;
    rewrite (plain_error_not_caught _ H0); cbn [fst]; intros [= <-]; auto.
Qed.

Lemma rejected_token_is_401 (e : exn) :
  rejected_token e -> http_error 401 e = true.
Proof. intros [(why & ->) | ->]; reflexivity. Qed.

(** What the [try] block of [refresh_token] raises. *)
Lemma refresh_block_raises (refresh : string) (s : full) (e : exn) :
  fst ((token_data <- refresh_keycloak_token refresh ;;
        access_token <- lift (Py.getitem token_data "access_token") ;;
        user_data <- on_core (decode_token_value access_token) ;;
        lift (token_answer token_data user_data))%gw s) = Raised e ->
  e = HTTPException 401 "Invalid or expired refresh token" None
  \/ rejected_token e
  \/ plain_error e = true.
Proof.
  unfold bindM at 1.
  destruct (refresh_keycloak_token refresh s) as [[token_data|e0] s1]
    eqn:Hfetch; cbn [fst].
  2: { intros [= <-].
       destruct (refresh_keycloak_token_raises_exactly refresh s e0); auto.
       now rewrite Hfetch. }
  unfold bindM at 1. unfold lift at 1.
  destruct (Py.getitem token_data "access_token") as [access_token|e0]
    eqn:Hget; cbn [fst].
  2: { intros [= <-]. right. right. exact (getitem_raises_plain _ _ _ Hget). }
  unfold bindM. rewrite on_core_run.
  destruct (fst (decode_token_value access_token (core s1)))
    as [user_data|e0] eqn:Hdec; cbn [fst].
  2: { intros [= <-].
       destruct (decode_token_value_raises_exactly _ _ _ Hdec); auto. }
  unfold lift.
  destruct (token_answer token_data user_data) as [j|e0] eqn:Hans; cbn [fst];
    [discriminate|].
  intros [= <-]. right. right. exact (token_answer_raises _ _ _ Hans).
Qed.

(** X15.  [POST /auth/refresh] fails with an [HTTPException] of status
    401 and with nothing else, and the failure is one of three: 401
    "Invalid or expired refresh token" when the endpoint turns the grant
    down; the 401 of [decode_token], "Invalid token" or "Unable to find
    appropriate key", passed on as it is when the new access token does
    not verify; and 401 "Token refresh failed" around any other error,
    that of an endpoint that cannot be reached among them.  A grant that
    the endpoint answers with a status for which [raise_for_status]
    raises ends the call with no key set fetched. *)
Theorem refresh_failures_are_401 (refresh : string) (s : full) :
  (forall e,
      fst (refresh_token refresh s) = Raised e ->
      http_error 401 e = true
      /\ (e = HTTPException 401 "Invalid or expired refresh token" None
          \/ rejected_token e
          \/ exists cause,
               plain_error cause = true
               /\ e = HTTPException 401 "Token refresh failed: "
                                    (Some cause)))
  /\ (fst (surface (token_request (refresh_grant refresh))
                   (remote (core s))) = NoReply ->
      fst (refresh_token refresh s)
      = Raised (HTTPException 401 "Token refresh failed: "
                              (Some TransportError)))
  /\ (forall r,
        fst (surface (token_request (refresh_grant refresh))
                     (remote (core s))) = Reply r ->
        raises_for_status (status_code r) = true ->
        fst (refresh_token refresh s)
        = Raised (HTTPException 401 "Invalid or expired refresh token" None)
        /\ sent (core (snd (refresh_token refresh s))) = sent (core s))
  /\ (forall token_data access_token s1 e,
        refresh_keycloak_token refresh s = (Returned token_data, s1) ->
        Py.getitem token_data "access_token"
        = Returned (JStr access_token) ->
        fst (decode_token access_token (core s1)) = Raised e ->
        fst (refresh_token refresh s)
        = Raised (if is_HTTPException e then e
                  else HTTPException 401 "Token refresh failed: "
                                     (Some e))).
Proof.
  split; [|split; [|split]].
  - intros e H. unfold refresh_token in H. apply reraise_or_wrap in H.
    destruct H as (e0 & Hrun & ->).
    apply refresh_block_raises in Hrun.
    destruct Hrun as [-> | [H | H]].
    + split; [reflexivity | now left].
    + pose proof (rejected_token_is_401 _ H) as H401.
      rewrite (http_error_is_http _ _ H401). split; [exact H401 | auto].
    + rewrite (plain_error_not_http _ H). split; [reflexivity|].
      right. right. now exists e0.
  - intros Hnone.
    assert (Hrun : fst (refresh_keycloak_token refresh s)
                   = Raised TransportError).
    { unfold refresh_keycloak_token, try_except.
      rewrite token_exchange_run, Hnone. reflexivity. }
    unfold refresh_token, try_except, bindM at 1.
    destruct (refresh_keycloak_token refresh s) as [o s1]. cbn [fst] in Hrun.
    subst o. reflexivity.
  - intros r Hrep Hraise.
    assert (Hrun : refresh_keycloak_token refresh s
                   = (Raised (HTTPException 401
                                "Invalid or expired refresh token" None),
                      {| core := {| remote := snd (surface
                                      (token_request (refresh_grant refresh))
                                      (remote (core s)));
                                    sent := sent (core s) |};
                         also_sent := (also_sent s
                                       ++ [token_request
                                             (refresh_grant refresh)])
                                      %list |})).
    { unfold refresh_keycloak_token, try_except.
      rewrite token_exchange_run, Hrep, Hraise. reflexivity. }
    unfold refresh_token, try_except. rewrite (bindM_raised _ _ _ _ _ Hrun).
    cbn [is_Exception is_HTTPException]. unfold raise. now split.
  - intros token_data access_token s1 e Hfetch Hget Hdec.
    unfold refresh_token, try_except.
    rewrite (bindM_returned _ _ _ _ _ Hfetch).
    unfold bindM at 1. unfold lift at 1. rewrite Hget.
    unfold bindM at 1. rewrite on_core_run. cbn [decode_token_value].
    rewrite Hdec. cbn [is_Exception]. unfold raise.
    now destruct (is_HTTPException e).
Qed.

(* ------------------------------------------------------------------ *)
(** ** The lookups before a removal *)

Lemma bindM_ext {S A B} (m : M S A) (k1 k2 : A -> M S B) (s : S) :
  (forall a s', k1 a s' = k2 a s') -> bindM m k1 s = bindM m k2 s.
Proof.
  intros H. unfold bindM. destruct (m s) as [[a|e] s']; [apply H|reflexivity].
Qed.

Lemma fetch_roles_to_remove_named (headers : json) (role_names : list string)
    (roles : list json) (st : state) :
  forallb named role_names = true ->
  fetch_roles_to_remove headers role_names roles st
  = fetch_roles headers role_names roles st.
Proof.
  revert roles st.
  induction role_names as [|n rest IH]; intros roles st;
    cbn [forallb fetch_roles_to_remove fetch_roles]; [reflexivity|].
  assert (Hn : named n = negb (String.eqb n "")) by reflexivity.
  rewrite Hn. destruct (String.eqb n ""); cbn [negb andb]; [discriminate|].
  intros Hrest. apply bindM_ext. intros roles' st1. now apply IH.
Qed.

(** The loop of [remove_roles_from_user], run: no error, and one lookup
    for every name. *)
Lemma fetch_roles_to_remove_run (headers : json) (role_names : list string)
    (roles : list json) (st : state) :
  exists found,
    fst (fetch_roles_to_remove headers role_names roles st)
    = Returned (roles ++ found)%list
    /\ (List.length found <= List.length role_names)%nat
    /\ sent (snd (fetch_roles_to_remove headers role_names roles st))
       = (sent st ++ map (role_lookup headers) role_names)%list.
Proof.
  revert roles st.
  induction role_names as [|n rest IH]; intros roles st;
    cbn [fetch_roles_to_remove].
  - exists []. cbn. rewrite !app_nil_r. repeat split. lia.
  - unfold bindM at 1. unfold try_except, bindM. rewrite send_run.
    fold (role_lookup headers n).
    set (st1 := {| remote := snd (authority (role_lookup headers n)
                                            (remote st));
                   sent := (sent st ++ [role_lookup headers n])%list |}).
    assert (Hstep : forall roles',
               (exists extra, roles' = (roles ++ extra)%list
                              /\ (List.length extra <= 1)%nat) ->
               exists found,
                 fst (fetch_roles_to_remove headers rest roles' st1)
                 = Returned (roles ++ found)%list
                 /\ (List.length found <= S (List.length rest))%nat
                 /\ sent (snd (fetch_roles_to_remove headers rest roles' st1))
                    = (sent st
                       ++ role_lookup headers n
                          :: map (role_lookup headers) rest)%list).
    { intros roles' (extra & -> & Hlen).
      destruct (IH (roles ++ extra)%list st1) as (found & E & L & S).
      exists (extra ++ found)%list. rewrite E, S, app_assoc.
      repeat split.
      - rewrite length_app. lia.
      - unfold st1. cbn [sent]. now rewrite <- app_assoc. }
    cbn [map length].
    destruct (fst (authority _ _)) as [r|].
    + destruct (Z.eqb (status_code r) 200).
      * unfold lift, response_json, ret.
        destruct (body r) as [j|]; cbn [is_Exception].
        -- apply Hstep. exists [j]. split; [reflexivity | simpl; lia].
        -- apply Hstep. exists []. rewrite app_nil_r.
           split; [reflexivity | simpl; lia].
      * unfold ret. apply Hstep. exists []. rewrite app_nil_r.
        split; [reflexivity | simpl; lia].
    + cbn [is_Exception]. unfold ret. apply Hstep. exists [].
      rewrite app_nil_r. split; [reflexivity | simpl; lia].
Qed.

(** X16.  The lookup loop of [remove_roles_from_user] never raises,
    whatever the authority answers: it returns the roles it was given
    followed by at most one role per name, and it has sent one lookup for
    every name, the empty one too, in the order of the names.  On names
    none of which is empty it does what the loop of
    [assign_roles_to_user] does. *)
Theorem remove_loop_looks_up_every_name (headers : json)
    (role_names : list string) (roles : list json) (st : state) :
  (exists found,
      fst (fetch_roles_to_remove headers role_names roles st)
      = Returned (roles ++ found)%list
      /\ (List.length found <= List.length role_names)%nat
      /\ sent (snd (fetch_roles_to_remove headers role_names roles st))
         = (sent st ++ map (role_lookup headers) role_names)%list)
  /\ (forallb named role_names = true ->
      fetch_roles_to_remove headers role_names roles st
      = fetch_roles headers role_names roles st).
Proof.
  split; [apply fetch_roles_to_remove_run | apply fetch_roles_to_remove_named].
Qed.

(** X17.  [remove_roles_from_user] removes nothing.  Once the token is
    there and the names have been looked up, it returns when none of them
    was found and raises [TypeError] when one was, the removal being a
    call that [httpx] does not accept; it has sent the token request and
    one lookup for every name, and nothing else.  For a caller the guard
    lets through, [DELETE /users/{id}/roles] then answers with its success
    message or with 500 "Failed to remove roles". *)
Theorem remove_roles_never_removes
    (user_id : string) (role_name : string) (role_names : list string)
    (s : full) (headers : json) (st1 st2 : state) (roles : list json) :
  _admin_headers (core s) = (Returned headers, st1) ->
  fetch_roles_to_remove headers (role_name :: role_names) [] st1
  = (Returned roles, st2) ->
  remove_roles_from_user (JStr user_id) (role_name :: role_names) s
  = (match roles with [] => Returned tt | _ :: _ => Raised TypeError end,
     {| core := st2; also_sent := also_sent s |})
  /\ sent st2
     = (sent (core s)
        ++ admin_token_request
           :: map (role_lookup headers) (role_name :: role_names))%list
  /\ (forall token,
        Guard.is_superadmin token = Returned true ->
        route_remove_roles user_id (role_name :: role_names) token s
        = (match roles with
           | [] => Returned (message "Roles removed successfully")
           | _ :: _ => Raised (HTTPException 500 "Failed to remove roles: "
                                             (Some TypeError))
           end,
           {| core := st2; also_sent := also_sent s |})).
Proof.
  intros Hheaders Hloop.
  assert (Hrun : remove_roles_from_user (JStr user_id)
                                        (role_name :: role_names) s
                 = (match roles with
                    | [] => Returned tt
                    | _ :: _ => Raised TypeError
                    end,
                    {| core := st2; also_sent := also_sent s |})).
  { unfold remove_roles_from_user. cbv beta iota.
    unfold bindM at 1. rewrite on_core_run, Hheaders. cbn [fst snd].
    unfold bindM. rewrite on_core_run. cbn [core also_sent].
    rewrite Hloop. cbn [fst snd]. now destruct roles. }
  split; [exact Hrun|]. split.
  - destruct (fetch_roles_to_remove_run headers (role_name :: role_names)
                                        [] st1) as (found & _ & _ & Hsent).
    rewrite Hloop in Hsent. cbn [snd] in Hsent. rewrite Hsent.
    unfold _admin_headers in Hheaders.
    destruct (admin_token_run (core s)) as (o & Htok).
    rewrite Htok in Hheaders. injection Hheaders as _ <-.
    cbn [sent]. now rewrite <- app_assoc.
  - intros token Hadmin. unfold route_remove_roles.
    rewrite (guard_passes _ _ _ Hadmin). unfold try_except, bindM.
    rewrite Hrun. now destruct roles.
Qed.

(* ------------------------------------------------------------------ *)
(** ** The admin credential, operation by operation *)

Lemma asks_no_token_ret {A} (a : A) : asks_no_token (@ret full A a).
Proof. intros s. exists [], []. cbn. now rewrite !app_nil_r. Qed.

Lemma asks_no_token_raise {A} (e : exn) : asks_no_token (@raise full A e).
Proof. intros s. exists [], []. cbn. now rewrite !app_nil_r. Qed.

Lemma asks_no_token_lift {A} (o : outcome A) :
  asks_no_token (@lift full A o).
Proof. intros s. exists [], []. cbn. now rewrite !app_nil_r. Qed.

Lemma asks_no_token_surface (r : surface_request) :
  not_realm_token_call r = true -> asks_no_token (surface_send r).
Proof.
  intros Hr s. rewrite surface_send_run. exists [], [r]. cbn.
  rewrite app_nil_r, Hr. now repeat split.
Qed.

Lemma asks_no_token_core {A} (m : M state A) :
  sends_only not_admin_token_call m -> asks_no_token (on_core m).
Proof.
  intros Hm s. rewrite on_core_run. destruct (Hm (core s)) as (l & E & F).
  exists l, []. cbn. rewrite app_nil_r. now repeat split.
Qed.

Lemma asks_no_token_bind {A B} (m : M full A) (k : A -> M full B) :
  asks_no_token m -> (forall a, asks_no_token (k a)) ->
  asks_no_token (bindM m k).
Proof.
  intros Hm Hk s. unfold bindM.
  destruct (Hm s) as (r1 & m1 & E1 & F1 & E2 & F2).
  destruct (m s) as [[a|e] s1]; cbn [snd] in *.
  - destruct (Hk a s1) as (r2 & m2 & G1 & H1 & G2 & H2).
    exists (r1 ++ r2)%list, (m1 ++ m2)%list.
    rewrite G1, G2, E1, E2, !app_assoc, !forallb_app, F1, F2, H1, H2.
    now repeat split.
  - exists r1, m1. now repeat split.
Qed.

Lemma asks_no_token_if {A} (b : bool) (m1 m2 : M full A) :
  asks_no_token m1 -> asks_no_token m2 ->
  asks_no_token (if b then m1 else m2).
Proof. now destruct b. Qed.

Lemma fetch_roles_to_remove_sends (P : request -> bool) (headers : json)
    (role_names : list string) (roles : list json) :
  (forall n, P (realm_request (Some headers) (GetRole n)) = true) ->
  sends_only P (fetch_roles_to_remove headers role_names roles).
Proof.
  intros HP. revert roles.
  induction role_names as [|n rest IH]; intros roles;
    cbn [fetch_roles_to_remove].
  - auto with sends.
  - apply sends_only_bind; [|intros; apply IH].
    apply sends_only_try_except; [|auto with sends].
    apply sends_only_bind; [apply sends_only_send, HP|].
    intros r. auto 6 with sends.
Qed.

(** An operation that begins with [_admin_headers()] and then asks for no
    token. *)
Lemma fetches_fresh_token_first_bind {A} (k : json -> M full A) :
  (forall headers, asks_no_token (k headers)) ->
  fetches_fresh_token_first (bindM (on_core _admin_headers) k).
Proof.
  intros Hk s. unfold bindM. rewrite on_core_run. unfold _admin_headers.
  destruct (admin_token_run (core s)) as (o & ->). cbn [fst snd].
  destruct o as [headers|e].
  - match goal with
    | |- context [k headers ?s1] =>
        destruct (Hk headers s1) as (rest & more & E1 & F1 & E2 & F2)
    end.
    exists rest, more. rewrite E1, E2. cbn [core sent also_sent].
    rewrite <- app_assoc. repeat split; auto; discriminate.
  - exists [], []. cbn. rewrite app_nil_r. now repeat split.
Qed.

Lemma fetches_fresh_token_first_count {A} (m : M full A) (s : full) :
  fetches_fresh_token_first m ->
  token_fetches (sent (core (snd (m s))))
  = S (token_fetches (sent (core s))).
Proof.
  intros Hm. destruct (Hm s) as (rest & more & -> & Hrest & _).
  unfold token_fetches. rewrite filter_app. cbn [filter].
  change (is_admin_token_call admin_token_request) with true. cbn iota.
  rewrite (filter_token_calls_of_others _ Hrest), length_app. simpl. lia.
Qed.

Ltac solve_asks_no_token :=
  repeat first
    [ apply asks_no_token_ret
    | apply asks_no_token_raise
    | apply asks_no_token_lift
    | apply asks_no_token_surface; reflexivity
    | apply asks_no_token_core; auto 8 with sends
    | apply asks_no_token_if
    | apply asks_no_token_bind; [|intros]
    | match goal with
      | |- asks_no_token (match ?x with _ => _ end) => destruct x
      end ].

(** C7 (as the code has it).  No admin credential is kept between calls.
    Each of the twenty operations of the Admin Client, when it contacts
    the authority at all, begins by requesting a fresh token and requests
    no second one, whatever the authority answers; the operations that
    use the further endpoints send what else they send only when that
    request has given a token.  The two role operations return at once,
    with nothing sent, on an empty list of names.  So every such
    operation adds one token request to the log, and two operations run
    one after the other perform two token fetches, one each. *)
Theorem admin_token_fetched_by_every_operation :
  ((forall search, fetches_fresh_token (list_users search))
   /\ (forall username email first_name last_name enabled email_verified
              attributes,
         fetches_fresh_token (create_user username email first_name
                                          last_name enabled email_verified
                                          attributes))
   /\ (forall user_id password temporary,
         fetches_fresh_token (set_user_password user_id password temporary))
   /\ (forall role_name, fetches_fresh_token (get_realm_role role_name))
   /\ (forall user_id role_name role_names,
         fetches_fresh_token
           (assign_roles_to_user user_id (role_name :: role_names)))
   /\ fetches_fresh_token list_groups
   /\ (forall user_id group_id,
         fetches_fresh_token (add_user_to_group user_id group_id)))
  /\ ((forall user_id, fetches_fresh_token_first (get_user user_id))
      /\ (forall user_id user_data,
            fetches_fresh_token_first (update_user user_id user_data))
      /\ (forall user_id, fetches_fresh_token_first (delete_user user_id))
      /\ fetches_fresh_token_first list_realm_roles
      /\ (forall role_name description,
            fetches_fresh_token_first
              (create_realm_role role_name description))
      /\ (forall role_name,
            fetches_fresh_token_first (delete_realm_role role_name))
      /\ (forall user_id, fetches_fresh_token_first (get_user_roles user_id))
      /\ (forall user_id role_name role_names,
            fetches_fresh_token_first
              (remove_roles_from_user user_id (role_name :: role_names)))
      /\ (forall group_id, fetches_fresh_token_first (get_group group_id))
      /\ (forall group_name,
            fetches_fresh_token_first (create_group group_name))
      /\ (forall group_id,
            fetches_fresh_token_first (delete_group group_id))
      /\ (forall user_id,
            fetches_fresh_token_first (get_user_groups user_id))
      /\ (forall user_id group_id,
            fetches_fresh_token_first
              (remove_user_from_group user_id group_id)))
  /\ ((forall user_id st,
         assign_roles_to_user user_id [] st = (Returned tt, st))
      /\ (forall user_id s,
            remove_roles_from_user user_id [] s = (Returned tt, s)))
  /\ (forall (A : Type) (m : M state A) (st : state),
        fetches_fresh_token m ->
        token_fetches (sent (snd (m st))) = S (token_fetches (sent st)))
  /\ (forall (A : Type) (m : M full A) (s : full),
        fetches_fresh_token_first m ->
        token_fetches (sent (core (snd (m s))))
        = S (token_fetches (sent (core s))))
  /\ (forall (A B : Type) (first : M state A) (second : M state B)
             (st st1 : state) (a : A),
        fetches_fresh_token first ->
        fetches_fresh_token second ->
        first st = (Returned a, st1) ->
        List.length (filter is_admin_token_call (sent (snd (second st1))))
        = S (S (List.length (filter is_admin_token_call (sent st)))))
  /\ (forall (A B : Type) (first : M full A) (second : M full B)
             (s s1 : full) (a : A),
        fetches_fresh_token_first first ->
        fetches_fresh_token_first second ->
        first s = (Returned a, s1) ->
        token_fetches (sent (core (snd (second s1))))
        = S (S (token_fetches (sent (core s))))).
Proof.
  split; [|split; [|split; [|split; [|split; [|split]]]]].
  - repeat split; intros;
      try (apply fetches_fresh_token_bind; intros headers;
           auto 8 with sends; fail).
    unfold assign_roles_to_user.
    apply fetches_fresh_token_bind. intros headers.
    apply sends_only_bind; [now apply fetch_roles_sends|].
    intros [|r roles]; auto 8 with sends.
  - repeat split; intros;
      try (apply fetches_fresh_token_first_bind; intros headers;
           solve_asks_no_token; fail).
    unfold remove_roles_from_user.
    apply fetches_fresh_token_first_bind. intros headers.
    apply asks_no_token_bind.
    + apply asks_no_token_core. now apply fetch_roles_to_remove_sends.
    + intros [|r roles]; solve_asks_no_token.
  - split; reflexivity.
  - intros A m st Hm. exact (fetches_fresh_token_count m st Hm).
  - intros A m s Hm. exact (fetches_fresh_token_first_count m s Hm).
  - intros A B first second st st1 a H1 H2 Hrun.
    rewrite (fetches_fresh_token_count second st1 H2).
    pose proof (fetches_fresh_token_count first st H1) as E.
    rewrite Hrun in E. cbn [snd] in E. now rewrite E.
  - intros A B first second s s1 a H1 H2 Hrun.
    rewrite (fetches_fresh_token_first_count second s1 H2).
    pose proof (fetches_fresh_token_first_count first s H1) as E.
    rewrite Hrun in E. cbn [snd] in E. now rewrite E.
Qed.
End Gateway.

(* ================================================================== *)
(** * The audience check across settings *)
(* ================================================================== *)

(** C6 (as the code has it).  The audience check is switched off in
    [decode_token] itself: the options it passes to [jwt.decode] carry
    [verify_aud = False] whatever the settings are.  So the configured
    [keycloak_client_id], passed as the audience, has no effect on the
    result, and no token is ever rejected for its audience. *)
Theorem audience_check_is_hardcoded
    (W : Type) (authority : request -> W -> reply * W)
    (raises_for_status : Z -> bool) (jws_load : string -> option jws)
    (check_signature : string -> dict -> json -> sig_outcome)
    (int_of_str : string -> option Z) (now : Z)
    (s : Settings) (client_id : string) (token : string) (st : world W) :
  verify_aud decode_options = false
  /\ decode_token W authority raises_for_status jws_load check_signature
                  int_of_str now (with_client_id client_id s) token st
     = decode_token W authority raises_for_status jws_load check_signature
                    int_of_str now s token st
  /\ (forall why,
        fst (decode_token W authority raises_for_status jws_load
                          check_signature int_of_str now s token st)
        = Raised (HTTPException 401 "Invalid token: " (Some (JWTError why))) ->
        why <> InvalidAudience /\ why <> AudienceMalformed).
Proof.
  split; [reflexivity|]. split; [reflexivity|].
  intros why. apply decode_token_no_audience_error.
Qed.

(* ================================================================== *)
(** * The gateway against the small authority *)
(* ================================================================== *)

Local Abbreviation toy_decode_token :=
  (decode_token Toy.realm Toy.authority httpx_raises_for_status Toy.jws_load
                Toy.check_signature Toy.int_of_str Toy.now Toy.settings).

Local Abbreviation toy_route_create_user :=
  (route_create_user Toy.realm Toy.authority httpx_raises_for_status
                     Toy.settings).

Local Abbreviation toy_create_user :=
  (create_user Toy.realm Toy.authority httpx_raises_for_status Toy.settings).

Local Abbreviation toy_list_groups :=
  (list_groups Toy.realm Toy.authority httpx_raises_for_status Toy.settings).

Local Abbreviation toy_assign_roles :=
  (assign_roles_to_user Toy.realm Toy.authority httpx_raises_for_status
                        Toy.settings).

(** C1, on a payload that lists the role among others. *)
Lemma superadmin_witness :
  Guard.realm_roles Toy.admin_claims
  = Some [JStr "offline_access"; JStr "realm-admin"]
  /\ Guard.is_superadmin Toy.admin_claims = Returned true
  /\ Guard.require_superadmin Toy.admin_claims = Returned tt.
Proof.
  pose proof (proj2 (proj2 (proj2 (superadmin_allows_exactly_when_named
                                     Toy.admin_claims)))
                [JStr "offline_access"; JStr "realm-admin"] eq_refl)
    as (Hsa & Hreq & _).
  split; [reflexivity|]. split.
  - apply (proj2 Hsa). right. left. reflexivity.
  - apply (proj2 Hreq). right. left. reflexivity.
Defined.

(** C3, on a token that declares the algorithm ["none"] and the key-id of
    a key the authority publishes, under the default ["RS256"]: it is not
    accepted, though the signature check would let it pass. *)
Lemma disallowed_algorithm_witness :
  jwt_algorithm Toy.settings = "RS256"
  /\ declared_alg Toy.jws_load "unsigned" = Some (JStr "none")
  /\ Toy.check_signature "unsigned" Toy.rs256_k1 (JStr "none") = SigValid
  /\ (forall claims,
        fst (toy_decode_token "unsigned" (Toy.start Toy.fresh))
        <> Returned claims).
Proof.
  repeat split.
  apply (proj1 (disallowed_algorithm_never_accepted
                  Toy.realm Toy.authority httpx_raises_for_status
                  Toy.jws_load Toy.check_signature Toy.int_of_str Toy.now
                  Toy.settings "unsigned" (Toy.start Toy.fresh)
                  ltac:(discriminate))).
Defined.

(** C4, on a token whose key-id ["k0"] the authority does not publish. *)
Lemma unknown_kid_witness :
  toy_decode_token "stale-unknown-key" (Toy.start Toy.fresh)
  = (Raised (HTTPException 401 "Unable to find appropriate key" None),
     {| remote := Toy.fresh;
        sent := [{| req_url := "http://keycloak:8080"; req_realm := "demo";
                    req_bearer := None; req_call := GetCerts |}] |}).
Proof.
  refine (proj1 (unknown_kid_rejected_after_one_fetch
                   Toy.realm Toy.authority httpx_raises_for_status
                   Toy.jws_load Toy.check_signature Toy.int_of_str Toy.now
                   Toy.settings "stale-unknown-key"
                   {| jws_header := [("alg", JStr "RS256"); ("kid", JStr "k0")];
                      jws_payload := Some (JObj Toy.stale_claims) |}
                   (JStr "k0") (Toy.start Toy.fresh)
                   {| status_code := 200;
                      body := Some (JObj [("keys", JArr [Toy.key1])]) |}
                   Toy.fresh (JObj [("keys", JArr [Toy.key1])]) [Toy.key1]
                   eq_refl eq_refl eq_refl eq_refl eq_refl eq_refl _)).
  constructor; [|constructor]. exists (JStr "k1"). split; reflexivity.
Defined.

(** C5, on an expired token whose signature verifies: the failure is the
    Expired one. *)
Lemma expired_token_witness :
  toy_decode_token "stale" (Toy.start Toy.fresh)
  = (Raised (HTTPException 401 "Invalid token: "
                           (Some (JWTError SignatureExpired))),
     {| remote := Toy.fresh;
        sent := [{| req_url := "http://keycloak:8080"; req_realm := "demo";
                    req_bearer := None; req_call := GetCerts |}] |}).
Proof.
  refine (proj1 (proj2 (expired_token_rejected
                   Toy.realm Toy.authority httpx_raises_for_status
                   Toy.jws_load Toy.check_signature Toy.int_of_str Toy.now
                   Toy.settings "stale"
                   {| jws_header := Toy.rs256_k1;
                      jws_payload := Some (JObj Toy.stale_claims) |}
                   Toy.stale_claims 100%Z (Toy.start Toy.fresh)
                   eq_refl eq_refl eq_refl eq_refl))
            [("kty", JStr "RSA"); ("kid", JStr "k1"); ("use", JStr "sig");
             ("n", JStr "modulus"); ("e", JStr "AQAB")]
            _ _ eq_refl eq_refl eq_refl).
  exists (JObj [("keys", JArr [Toy.key1])]),
         {| jws_header := Toy.rs256_k1;
            jws_payload := Some (JObj Toy.stale_claims) |},
         [Toy.key1].
  repeat split; try reflexivity. discriminate.
Defined.

(** C5 as stated fails: two tokens whose [exp] claim, 100, lies before
    the current time, 1000, are rejected, but not as expired.  The one
    with a forged signature is rejected for its signature; the one with
    an unknown key-id for its key.  (The same claims under a good
    signature are rejected as expired.) *)
Lemma expired_not_reported_regardless_of_signature :
  Py.dict_get "exp" Toy.stale_claims = Some (JNum 100)
  /\ (100 < Toy.now)%Z
  /\ Toy.jws_load "stale-forged"
     = Some {| jws_header := Toy.rs256_k1;
               jws_payload := Some (JObj Toy.stale_claims) |}
  /\ fst (toy_decode_token "stale-forged" (Toy.start Toy.fresh))
     = Raised (HTTPException 401 "Invalid token: "
                             (Some (JWTError SignatureFailed)))
  /\ fst (toy_decode_token "stale-unknown-key" (Toy.start Toy.fresh))
     = Raised (HTTPException 401 "Unable to find appropriate key" None)
  /\ fst (toy_decode_token "stale" (Toy.start Toy.fresh))
     = Raised (HTTPException 401 "Invalid token: "
                             (Some (JWTError SignatureExpired))).
Proof. repeat split. Qed.

(** C6 as stated fails: no value of the settings makes [decode_token]
    verify the audience.  A token issued for the audience ["account"] is
    accepted by a gateway whose client id is ["gateway"]; and there are no
    settings under which, in any environment, any token is rejected for
    its audience. *)
Lemma audience_check_not_configurable :
  Py.dict_get "aud" Toy.admin_claims = Some (JStr "account")
  /\ keycloak_client_id Toy.settings = "gateway"
  /\ fst (toy_decode_token "admin" (Toy.start Toy.fresh))
     = Returned Toy.admin_claims
  /\ ~ (exists (s : Settings)
               (W : Type) (authority : request -> W -> reply * W)
               (raises_for_status : Z -> bool)
               (jws_load : string -> option jws)
               (check_signature : string -> dict -> json -> sig_outcome)
               (int_of_str : string -> option Z) (now : Z)
               (token : string) (st : world W),
          fst (decode_token W authority raises_for_status jws_load
                            check_signature int_of_str now s token st)
          = Raised (HTTPException 401 "Invalid token: "
                                  (Some (JWTError InvalidAudience)))).
Proof.
  repeat split.
  intros (s & W & authority & rfs & jl & cs & ios & now & token & st & H).
  destruct (decode_token_no_audience_error _ _ _ _ _ _ _ _ _ _ _ H)
    as (Hne & _).
  now apply Hne.
Qed.

(** C7 as stated fails: two [list_groups()] calls in a row, the first of
    which obtained a token that is good for 60 seconds, send two token
    requests. *)
Lemma admin_token_not_reused :
  fst (Toy.authority
         (admin_token_request Toy.settings) Toy.fresh)
  = Toy.answer 200 (JObj [("access_token", JStr "admin-token");
                          ("expires_in", JNum 60)])
  /\ map is_admin_token_call
         (sent (snd (bindM toy_list_groups (fun _ => toy_list_groups)
                           (Toy.start Toy.fresh))))
     = [true; false; true; false]
  /\ fst (bindM toy_list_groups (fun _ => toy_list_groups)
                (Toy.start Toy.fresh))
     = Returned (JArr []).
Proof. repeat split. Qed.

(** C2 as stated fails: when the role-mapping request is answered with
    500, the endpoint does not return the id of the user it created; it
    raises 500.  The user is in the directory. *)
Lemma role_step_failure_is_not_success :
  fst (toy_assign_roles (JStr "id-john") ["developer"]
         (snd (bindM (create_user_of Toy.realm Toy.authority
                        httpx_raises_for_status Toy.settings
                        (Toy.john ["developer"]))
                     (fun user_id =>
                        set_user_password Toy.realm Toy.authority
                          httpx_raises_for_status Toy.settings
                          user_id "p1" false)
                     (Toy.start Toy.mappings_down))))
  = Raised (HTTPStatusError 500)
  /\ fst (toy_route_create_user (Toy.john ["developer"]) Toy.admin_claims
                                (Toy.start Toy.mappings_down))
     = Raised (HTTPException 500 "Failed to create user: "
                             (Some (HTTPStatusError 500)))
  /\ Toy.users (remote (snd (toy_route_create_user
                               (Toy.john ["developer"]) Toy.admin_claims
                               (Toy.start Toy.mappings_down))))
     = [("john", Toy.user_repr "john")].
Proof. repeat split. Qed.

(** C2, on the realm that answers role-mapping requests with 500. *)
Lemma create_user_failure_witness :
  Guard.is_superadmin Toy.admin_claims = Returned true
  /\ fst (toy_route_create_user (Toy.john ["developer"]) Toy.admin_claims
                                (Toy.start Toy.mappings_down))
     = Raised (failed_to_create (HTTPStatusError 500)).
Proof.
  split; [reflexivity|].
  refine (f_equal fst
            (proj1 (proj2 (proj2 (create_user_failure_policy
                      Toy.realm Toy.authority httpx_raises_for_status
                      Toy.settings (Toy.john ["developer"]) Toy.admin_claims
                      (Toy.start Toy.mappings_down) eq_refl))
                    (JStr "id-john") _ _ "developer" [] (HTTPStatusError 500) _
                    eq_refl eq_refl eq_refl eq_refl))).
Defined.




(** C1 as stated fails: the guard allows a payload whose [roles] entry is
    the string ["not-realm-admin"], and one whose [roles] entry is a dict
    with the key ["realm-admin"], though neither holds a role list with
    the element ["realm-admin"]; so allowing is not the same as the role
    being listed. *)
Lemma superadmin_allows_without_listed_role :
  Guard.realm_roles
    [("realm_access", JObj [("roles", JStr "not-realm-admin")])] = None
  /\ Guard.is_superadmin
       [("realm_access", JObj [("roles", JStr "not-realm-admin")])]
     = Returned true
  /\ Guard.require_superadmin
       [("realm_access", JObj [("roles", JStr "not-realm-admin")])]
     = Returned tt
  /\ Guard.realm_roles
       [("realm_access",
         JObj [("roles", JObj [("realm-admin", JBool false)])])] = None
  /\ Guard.require_superadmin
       [("realm_access",
         JObj [("roles", JObj [("realm-admin", JBool false)])])]
     = Returned tt
  /\ ~ (forall token_payload,
          Guard.require_superadmin token_payload = Returned tt
          <-> exists roles,
                Guard.realm_roles token_payload = Some roles
                /\ In (JStr "realm-admin") roles).
Proof.
  repeat split.
  intros H.
  destruct (proj1 (H [("realm_access",
                       JObj [("roles", JStr "not-realm-admin")])]) eq_refl)
    as (roles & Hroles & _).
  discriminate Hroles.
Qed.

(** C10, on a header that hides a second ["Bearer "] inside the token:
    what reaches [decode_token] is the token ["admin"]. *)
Lemma bearer_inside_token_example :
  PyStr.replace "Bearer admBearer in" "Bearer " "" = "admin"
  /\ fst (verify_bearer_token Toy.realm Toy.authority httpx_raises_for_status
            Toy.jws_load Toy.check_signature Toy.int_of_str Toy.now
            Toy.settings (Some "Bearer admBearer in") (Toy.start Toy.fresh))
     = Returned Toy.admin_claims.
Proof. split; reflexivity. Qed.

(* ================================================================== *)
(** * The further properties on the small authority *)
(* ================================================================== *)

Local Abbreviation toy_admin_headers :=
  (_admin_headers Toy.realm Toy.authority httpx_raises_for_status
                  Toy.settings).

Local Abbreviation toy_route_delete_user :=
  (route_delete_user Toy.realm Toy.authority httpx_raises_for_status
                     Toy.settings ToySurface.surface).

Local Abbreviation toy_route_delete_role :=
  (route_delete_role Toy.realm Toy.authority httpx_raises_for_status
                     Toy.settings ToySurface.surface).

Local Abbreviation toy_route_create_group :=
  (route_create_group Toy.realm Toy.authority httpx_raises_for_status
                      Toy.settings ToySurface.surface).

(** X3, on the token "admin": it is accepted, and it is verified. *)
Lemma accepted_token_witness :
  fst (toy_decode_token "admin" (Toy.start Toy.fresh))
  = Returned Toy.admin_claims
  /\ exists t,
       Toy.jws_load "admin" = Some t
       /\ jws_payload t = Some (JObj Toy.admin_claims)
       /\ Py.dict_get "alg" (jws_header t)
          = Some (JStr (jwt_algorithm Toy.settings))
       /\ forall exp,
            Py.dict_get "exp" Toy.admin_claims = Some (JNum exp) ->
            (Toy.now <= exp)%Z.
Proof.
  split; [reflexivity|].
  destruct (accepted_token_is_verified
              Toy.realm Toy.authority httpx_raises_for_status Toy.jws_load
              Toy.check_signature Toy.int_of_str Toy.now Toy.settings
              "admin" (Toy.start Toy.fresh) _ Toy.admin_claims eq_refl)
    as (t & jwks & keys & key & kid & header_kid & rsa_key
        & Hload & Hpayload & _ & _ & _ & _ & _ & _ & _ & Halg & _ & Hexp & _).
  exists t. repeat split; assumption.
Defined.

(** X8, on two groups with two names: both lookups give the id of
    "ops". *)
Lemma group_lookups_witness :
  build_group_map [ToySurface.team "ml"; ToySurface.team "ops"] []
  = Returned [("ops", JStr "g-ops"); ("ml", JStr "g-ml")]
  /\ (find_group_id [ToySurface.team "ml"; ToySurface.team "ops"] "ops"
      = Returned (JStr "g-ops")
      <-> Py.dict_get "ops" [("ops", JStr "g-ops"); ("ml", JStr "g-ml")]
          = Some (JStr "g-ops")).
Proof.
  split; [reflexivity|].
  apply group_lookups_agree_on_distinct_names.
  - repeat constructor; eexists; eexists; split; reflexivity.
  - repeat constructor; simpl; intuition discriminate.
  - reflexivity.
Defined.

(** X9, on a payload without roles: the caller is turned away before
    anything is sent. *)
Lemma no_mutation_witness :
  Guard.require_superadmin []
  = Raised (HTTPException 403 "Requires realm-admin role" None)
  /\ toy_route_delete_user "id-john" [] (ToySurface.start Toy.fresh)
     = (Raised (HTTPException 403 "Requires realm-admin role" None),
        ToySurface.start Toy.fresh)
  /\ toy_route_create_group "ops" [] (ToySurface.start Toy.fresh)
     = (Raised (HTTPException 403 "Requires realm-admin role" None),
        ToySurface.start Toy.fresh).
Proof.
  pose proof (no_mutation_without_realm_admin
                Toy.realm Toy.authority httpx_raises_for_status Toy.settings
                ToySurface.surface [] _ eq_refl) as H.
  split; [reflexivity|]. split.
  - exact (proj1 (proj2 (proj2 H)) "id-john" (ToySurface.start Toy.fresh)).
  - exact (proj1 (proj2 (proj2 (proj2 (proj2 (proj2 (proj2 (proj2
                    (proj2 H))))))))
            "ops" (ToySurface.start Toy.fresh)).
Defined.

(** X10, on an authority that cannot be reached: every function raises
    the transport error of the token fetch. *)
Lemma admin_token_failure_witness :
  fst (_admin_headers Toy.realm ToySurface.unreachable
                      httpx_raises_for_status Toy.settings
                      (Toy.start Toy.fresh))
  = Raised TransportError
  /\ fst (list_groups Toy.realm ToySurface.unreachable
                      httpx_raises_for_status Toy.settings
                      (Toy.start Toy.fresh))
     = Raised TransportError
  /\ fst (delete_user Toy.realm ToySurface.unreachable
                      httpx_raises_for_status Toy.settings ToySurface.surface
                      (JStr "id-john") (ToySurface.start Toy.fresh))
     = Raised TransportError.
Proof.
  pose proof (admin_token_failure_is_fatal
                Toy.realm ToySurface.unreachable httpx_raises_for_status
                Toy.settings ToySurface.surface TransportError
                (Toy.start Toy.fresh) _ eq_refl) as H.
  split; [reflexivity|]. split.
  - exact (f_equal fst (proj1 (proj2 (proj2 (proj2 (proj2 H)))))).
  - exact (f_equal fst
             (proj1 (proj2 (proj2
                (proj2 (proj2 (proj2 (proj2 (proj2 (proj2 H)))))
                       (ToySurface.start Toy.fresh) eq_refl)))
              (JStr "id-john"))).
Defined.

(** X11: of the two listed groups [create_group] returns the id of the
    one named. *)
Lemma create_group_witness :
  fst (create_group Toy.realm ToySurface.with_groups httpx_raises_for_status
                    Toy.settings ToySurface.surface "ops"
                    (ToySurface.start Toy.fresh))
  = Returned (JStr "g-ops").
Proof.
  refine (f_equal fst
            (create_group_returns_first_listed
               Toy.realm ToySurface.with_groups httpx_raises_for_status
               Toy.settings ToySurface.surface "ops"
               (ToySurface.start Toy.fresh) _ _ _ _ _ _
               [ToySurface.team "ml"; ToySurface.team "ops"]
               eq_refl eq_refl (or_introl eq_refl) eq_refl eq_refl _)).
  repeat constructor; eexists; eexists; split; reflexivity.
Defined.

(** X12: the realm has neither the user nor the role, both are answered
    404, and both endpoints succeed. *)
Lemma deleting_the_absent_witness :
  fst (toy_route_delete_user "id-ghost" Toy.admin_claims
                             (ToySurface.start Toy.fresh))
  = Returned JNull
  /\ fst (toy_route_delete_role "ghost" Toy.admin_claims
                                (ToySurface.start Toy.fresh))
     = Returned JNull.
Proof.
  split.
  - refine (f_equal fst
              (proj2 (proj1 (deleting_the_absent_succeeds
                               Toy.realm Toy.authority
                               httpx_raises_for_status Toy.settings
                               ToySurface.surface
                               (ToySurface.start Toy.fresh) _ _ _
                               {| status_code := 404;
                                  body := Some (JObj [("error",
                                            JStr "User not found")]) |}
                               eq_refl (or_intror eq_refl))
                            "id-ghost" eq_refl)
                     Toy.admin_claims eq_refl)).
  - refine (f_equal fst
              (proj2 (proj1 (proj2 (deleting_the_absent_succeeds
                               Toy.realm Toy.authority
                               httpx_raises_for_status Toy.settings
                               ToySurface.surface
                               (ToySurface.start Toy.fresh) _ _ _
                               {| status_code := 404;
                                  body := Some (JObj [("error",
                                            JStr "Could not find role")]) |}
                               eq_refl (or_intror eq_refl)))
                            "ghost" eq_refl)
                     Toy.admin_claims eq_refl)).
Defined.

Local Abbreviation toy_login :=
  (login Toy.realm Toy.authority httpx_raises_for_status Toy.jws_load
         Toy.check_signature Toy.int_of_str Toy.now Toy.settings
         ToySurface.surface).

Local Abbreviation toy_refresh_token :=
  (refresh_token Toy.realm Toy.authority httpx_raises_for_status
                 Toy.jws_load Toy.check_signature Toy.int_of_str Toy.now
                 Toy.settings ToySurface.surface).

(** X14: the realm turns the password grant down with 401, the login
    fails with "Invalid credentials" and the key set is not fetched. *)
Lemma login_witness :
  fst (toy_login {| lr_username := "john"; lr_password := "guess" |}
                 (ToySurface.start Toy.fresh))
  = Raised (HTTPException 401 "Invalid credentials" None)
  /\ sent (core (snd (toy_login {| lr_username := "john";
                                   lr_password := "guess" |}
                                (ToySurface.start Toy.fresh))))
     = [].
Proof.
  pose proof (proj1 (proj2 (login_failures
                Toy.realm Toy.authority httpx_raises_for_status Toy.jws_load
                Toy.check_signature Toy.int_of_str Toy.now Toy.settings
                ToySurface.surface
                {| lr_username := "john"; lr_password := "guess" |}
                (ToySurface.start Toy.fresh)))
              {| status_code := 401;
                 body := Some (JObj [("error", JStr "invalid_grant")]) |}
              eq_refl eq_refl) as H.
  split; [exact (proj1 H) | exact (proj1 (proj2 H))].
Defined.

Local Abbreviation toy_granted_refresh :=
  (refresh_token Toy.realm Toy.authority httpx_raises_for_status
                 Toy.jws_load Toy.check_signature Toy.int_of_str Toy.now
                 Toy.settings (ToySurface.granting "stale")).

(** X15: the realm turns the refresh grant down as well, 401; and where
    the grant is given but the new access token is expired, the 401 of
    [decode_token] comes through as it is. *)
Lemma refresh_witness :
  fst (toy_refresh_token "old" (ToySurface.start Toy.fresh))
  = Raised (HTTPException 401 "Invalid or expired refresh token" None)
  /\ fst (toy_granted_refresh "old" (ToySurface.start Toy.fresh))
     = Raised (HTTPException 401 "Invalid token: "
                             (Some (JWTError SignatureExpired))).
Proof.
  split.
  - exact (proj1 (proj1 (proj2 (proj2 (refresh_failures_are_401
                    Toy.realm Toy.authority httpx_raises_for_status
                    Toy.jws_load Toy.check_signature Toy.int_of_str Toy.now
                    Toy.settings ToySurface.surface "old"
                    (ToySurface.start Toy.fresh))))
                  {| status_code := 401;
                     body := Some (JObj [("error", JStr "invalid_grant")]) |}
                  eq_refl eq_refl)).
  - exact (proj2 (proj2 (proj2 (refresh_failures_are_401
                    Toy.realm Toy.authority httpx_raises_for_status
                    Toy.jws_load Toy.check_signature Toy.int_of_str Toy.now
                    Toy.settings (ToySurface.granting "stale") "old"
                    (ToySurface.start Toy.fresh))))
                 (ToySurface.token_data "stale") "stale" _ _
                 eq_refl eq_refl eq_refl).
Defined.

(** X17: the realm has the role "developer", the lookup finds it, and the
    removal raises; the endpoint answers 500. *)
Lemma remove_roles_witness :
  fst (remove_roles_from_user Toy.realm Toy.authority
                              httpx_raises_for_status Toy.settings
                              (JStr "id-john") ["developer"]
                              (ToySurface.start Toy.fresh))
  = Raised TypeError
  /\ fst (route_remove_roles Toy.realm Toy.authority httpx_raises_for_status
                             Toy.settings "id-john" ["developer"]
                             Toy.admin_claims (ToySurface.start Toy.fresh))
     = Raised (HTTPException 500 "Failed to remove roles: "
                             (Some TypeError)).
Proof.
  pose proof (remove_roles_never_removes
                Toy.realm Toy.authority httpx_raises_for_status Toy.settings
                "id-john" "developer" [] (ToySurface.start Toy.fresh)
                (JStr "admin-token") _ _ [JObj [("name", JStr "developer")]]
                eq_refl eq_refl) as (Hrun & _ & Hroute).
  split.
  - exact (f_equal fst Hrun).
  - exact (f_equal fst (Hroute Toy.admin_claims eq_refl)).
Defined.
